(** * Crawl session lifecycle and opportunity classification resolvers

    A shallow embedding of the dashboard's resolver functions
    ([components/dashboard/CrawlerStatus.tsx],
    [components/dashboard/OpportunitiesTable.tsx], [pages/Dashboard.tsx])
    and of the part of the date-fns library they call, followed by the
    properties of the specification that concern them.

    Conventions of the embedding:
    - a JavaScript string is a [string], one [ascii] per UTF-16 code unit
      (code units below 256);
    - a [Date] is its time value, an integer number of milliseconds since
      the epoch, or [None] for an Invalid Date (time value NaN);
    - [string | null] is [option string]; JavaScript truthiness is written
      out where the source relies on it ([!x], [x || y]);
    - reading the system clock ([new Date()], [Date.now()]) and throwing
      are effects of the monad [Eff]; [try { } catch { }] is [try_catch]. *)

From Stdlib Require Import ZArith String Ascii List Bool Lia DecimalString.
Import ListNotations.

Local Open Scope string_scope.
Local Open Scope Z_scope.

(* ===================================================================== *)
(** ** Effects: the system clock and exceptions *)
(* ===================================================================== *)

Inductive Error : Type :=
| RangeError (message : string)
| TypeError (message : string).

(** A computation that may read the system clock any number of times and
    either returns a value or throws. *)
Inductive Eff (A : Type) : Type :=
| Ret (a : A)
| Throw (e : Error)
| ReadClock (k : Z -> Eff A).

Arguments Ret {A} a.
Arguments Throw {A} e.
Arguments ReadClock {A} k.

Fixpoint bind {A B : Type} (m : Eff A) (f : A -> Eff B) : Eff B :=
  match m with
  | Ret a => f a
  | Throw e => Throw e
  | ReadClock k => ReadClock (fun t => bind (k t) f)
  end.

(** [try { m } catch { h }] *)
Fixpoint try_catch {A : Type} (m : Eff A) (h : Error -> Eff A) : Eff A :=
  match m with
  | Ret a => Ret a
  | Throw e => h e
  | ReadClock k => ReadClock (fun t => try_catch (k t) h)
  end.

(** [Date.now()]: the current time value. *)
Definition Date_now : Eff Z := ReadClock (fun t => Ret t).

Declare Scope eff_scope.
Delimit Scope eff_scope with eff.
Notation "x <- m ;; k" := (bind m (fun x => k))
  (at level 61, m at next level, right associativity) : eff_scope.
Local Open Scope eff_scope.

Inductive Outcome (A : Type) : Type :=
| Returned (a : A)
| Thrown (e : Error).

Arguments Returned {A} a.
Arguments Thrown {A} e.

(** Running a computation against a clock: [clock i] is what the system
    clock answers to the [i]-th read (counted from 0).  The second
    component is the number of reads performed so far. *)
Fixpoint run {A : Type} (clock : nat -> Z) (reads : nat) (m : Eff A)
  : Outcome A * nat :=
  match m with
  | Ret a => (Returned a, reads)
  | Throw e => (Thrown e, reads)
  | ReadClock k => run clock (S reads) (k (clock reads))
  end.

Definition result {A : Type} (clock : nat -> Z) (m : Eff A) : Outcome A :=
  fst (run clock 0%nat m).

Definition clockReads {A : Type} (clock : nat -> Z) (m : Eff A) : nat :=
  snd (run clock 0%nat m).

(** The clock that answers the reference time [t] to every read. *)
Definition at_time (t : Z) : nat -> Z := fun _ => t.

(* ===================================================================== *)
(** ** JavaScript values *)
(* ===================================================================== *)

(** Truthiness of a string: every string but the empty one. *)
Definition truthy (s : string) : bool :=
  match s with
  | EmptyString => false
  | String _ _ => true
  end.

(** [x || y] on [string | null | undefined] operands. *)
Definition or_else (x y : option string) : option string :=
  match x with
  | Some s => if truthy s then x else y
  | None => y
  end.

(** [String.prototype.toLowerCase] on code units below 256: the letters
    A-Z and the Latin-1 capitals U+00C0-U+00DE (U+00D7, the multiplication
    sign, excepted) move up by 32; nothing else changes. *)
Definition toLowerCase_unit (c : ascii) : ascii :=
  let n := N_of_ascii c in
  if ((65 <=? n) && (n <=? 90)
      || (192 <=? n) && (n <=? 222) && negb (n =? 215))%N
  then ascii_of_N (n + 32)
  else c.

Fixpoint toLowerCase (s : string) : string :=
  match s with
  | EmptyString => EmptyString
  | String c s' => String (toLowerCase_unit c) (toLowerCase s')
  end.

(** [haystack.includes(needle)] *)
Fixpoint includes (haystack needle : string) : bool :=
  prefix needle haystack
  || match haystack with
     | EmptyString => false
     | String _ rest => includes rest needle
     end.

(** [String(n)] / [n.toString()] for an integer [n]. *)
Definition Number_toString (n : Z) : string :=
  NilZero.string_of_int (Z.to_int n).

(** The characters [Number_toString] writes besides the sign. *)
Definition is_digit (c : ascii) : bool :=
  match c with
  | "0" | "1" | "2" | "3" | "4" | "5" | "6" | "7" | "8" | "9" => true
  | _ => false
  end%char.

(** The properties every object literal inherits from [Object.prototype].
    All of them hold functions, except [__proto__], which holds
    [Object.prototype] itself; each is a truthy value. *)
Definition Object_prototype : list string :=
  [ "constructor"; "hasOwnProperty"; "isPrototypeOf";
    "propertyIsEnumerable"; "toLocaleString"; "toString"; "valueOf";
    "__defineGetter__"; "__defineSetter__"; "__lookupGetter__";
    "__lookupSetter__"; "__proto__" ].

(** The outcome of the property read [literal[key]] on an object literal:
    an own property, a property found on [Object.prototype], or
    [undefined]. *)
Inductive Property (A : Type) : Type :=
| Own (a : A)
| Inherited (key : string)
| Undefined.

Arguments Own {A} a.
Arguments Inherited {A} key.
Arguments Undefined {A}.

Fixpoint ownProperty {A : Type} (literal : list (string * A)) (key : string)
  : option A :=
  match literal with
  | [] => None
  | (k, v) :: rest => if String.eqb k key then Some v else ownProperty rest key
  end.

Definition inherited (key : string) : bool :=
  existsb (String.eqb key) Object_prototype.

Definition getProperty {A : Type} (literal : list (string * A)) (key : string)
  : Property A :=
  match ownProperty literal key with
  | Some v => Own v
  | None => if inherited key then Inherited key else Undefined
  end.

(** A value that left a function through [literal[key] || fallback]: a
    value of the declared type, or a member of [Object.prototype], which
    the declared type does not account for. *)
Inductive Dyn (A : Type) : Type :=
| Typed (a : A)
| PrototypeMember (key : string).

Arguments Typed {A} a.
Arguments PrototypeMember {A} key.

(* ===================================================================== *)
(** ** Dates and the date-fns functions the resolvers call *)
(* ===================================================================== *)

(** A [Date] by its time value; [None] is an Invalid Date. *)
Definition Date : Type := option Z.

(** A JavaScript number that is an integer or NaN ([None]). *)
Definition Number : Type := option Z.

(** What date-fns takes from the host it runs on.  [parseISO] never
    throws on a string: a string that is not an ISO 8601 date yields an
    Invalid Date.  The other two depend on the host's time zone:
    [getTimezoneOffsetInMilliseconds] is the offset in force at an
    instant, [differenceInMonths l r] the number of full calendar months
    from [r] to [l]. *)
Class DateFns : Type := {
  parseISO : string -> Date;
  getTimezoneOffsetInMilliseconds : Z -> Z;
  differenceInMonths : Z -> Z -> Z
}.

(** [a < b] on numbers: false as soon as one side is NaN. *)
Definition Number_lt (a b : Number) : bool :=
  match a, b with
  | Some x, Some y => x <? y
  | _, _ => false
  end.

(** [differenceInMinutes(dateLeft, dateRight)]: the difference of the time
    values in minutes, truncated towards zero; NaN on an Invalid Date. *)
Definition differenceInMinutes (dateLeft dateRight : Date) : Number :=
  match dateLeft, dateRight with
  | Some l, Some r => Some (Z.quot (l - r) 60000)
  | _, _ => None
  end.

(** [differenceInSeconds], on valid dates. *)
Definition differenceInSeconds (dateLeft dateRight : Z) : Z :=
  Z.quot (dateLeft - dateRight) 1000.

(** [compareAsc], on valid dates. *)
Definition compareAsc (dateLeft dateRight : Z) : Z :=
  if dateLeft - dateRight <? 0 then -1
  else if dateLeft - dateRight >? 0 then 1
  else 0.

(** [isPast(date)]: [date.getTime() < Date.now()]. *)
Definition isPast (date : Date) : Eff bool :=
  now <- Date_now ;;
  Ret (Number_lt date (Some now)).

(** [Math.round(p / q)] for integers [p] and [q > 0]: the nearest integer,
    halves rounded up.  The quotients rounded here are taken of integers
    far below 2^53, on which the floating-point division falls on the same
    side of every half as the exact one. *)
Definition Math_round_div (p q : Z) : Z := (2 * p + q) / (2 * q).

(** The units of the en-US [formatDistance] table that [formatDistance]
    selects when [includeSeconds] is not set (no caller here sets it). *)
Inductive Token : Type :=
| lessThanXMinutes | xMinutes | aboutXHours | xDays
| aboutXMonths | xMonths | aboutXYears | overXYears | almostXYears.

(** The en-US table: the [one] form, and the text around [{{count}}] in
    the [other] form. *)
Definition formatDistanceLocale (token : Token) : string * (string * string) :=
  match token with
  | lessThanXMinutes => ("less than a minute", ("less than ", " minutes"))
  | xMinutes => ("1 minute", ("", " minutes"))
  | aboutXHours => ("about 1 hour", ("about ", " hours"))
  | xDays => ("1 day", ("", " days"))
  | aboutXMonths => ("about 1 month", ("about ", " months"))
  | xMonths => ("1 month", ("", " months"))
  | aboutXYears => ("about 1 year", ("about ", " years"))
  | overXYears => ("over 1 year", ("over ", " years"))
  | almostXYears => ("almost 1 year", ("almost ", " years"))
  end.

(** [locale.formatDistance(token, count, { addSuffix, comparison })] *)
Definition locale_formatDistance
  (token : Token) (count : Z) (addSuffix : bool) (comparison : Z) : string :=
  let '(one, (before, after)) := formatDistanceLocale token in
  let result :=
    if count =? 1 then one
    else before ++ Number_toString count ++ after in
  if addSuffix then
    if comparison >? 0 then "in " ++ result else result ++ " ago"
  else result.

Definition MINUTES_IN_DAY : Z := 1440.
Definition MINUTES_IN_ALMOST_TWO_DAYS : Z := 2520.
Definition MINUTES_IN_MONTH : Z := 43200.
Definition MINUTES_IN_TWO_MONTHS : Z := 86400.

Section DateFnsFunctions.
Context `{DateFns}.

(** The distance between two instants as [formatDistance] measures it:
    whole seconds between the earlier and the later one, corrected by
    the change of the host's offset, rounded to minutes. *)
Definition distanceInMinutes (date baseDate : Z) : Z :=
  let dateLeft := if compareAsc date baseDate >? 0 then baseDate else date in
  let dateRight := if compareAsc date baseDate >? 0 then date else baseDate in
  let seconds := differenceInSeconds dateRight dateLeft in
  let offsetInMilliseconds :=
    getTimezoneOffsetInMilliseconds dateRight
    - getTimezoneOffsetInMilliseconds dateLeft in
  Math_round_div (seconds * 1000 - offsetInMilliseconds) 60000.

(** The unit and the count that [formatDistance] hands to the locale,
    branch by branch, for two valid dates. *)
Definition distanceUnit (date baseDate : Z) : Token * Z :=
  let comparison := compareAsc date baseDate in
  let dateLeft := if comparison >? 0 then baseDate else date in
  let dateRight := if comparison >? 0 then date else baseDate in
  let minutes := distanceInMinutes date baseDate in
  if minutes <? 2 then
    if minutes =? 0 then (lessThanXMinutes, 1)
    else (xMinutes, minutes)
  else if minutes <? 45 then (xMinutes, minutes)
  else if minutes <? 90 then (aboutXHours, 1)
  else if minutes <? MINUTES_IN_DAY then
    (aboutXHours, Math_round_div minutes 60)
  else if minutes <? MINUTES_IN_ALMOST_TWO_DAYS then (xDays, 1)
  else if minutes <? MINUTES_IN_MONTH then
    (xDays, Math_round_div minutes MINUTES_IN_DAY)
  else if minutes <? MINUTES_IN_TWO_MONTHS then
    (aboutXMonths, Math_round_div minutes MINUTES_IN_MONTH)
  else
    let months := differenceInMonths dateRight dateLeft in
    if months <? 12 then
      (xMonths, Math_round_div minutes MINUTES_IN_MONTH)
    else
      let monthsSinceStartOfYear := months mod 12 in
      let years := months / 12 in
      if monthsSinceStartOfYear <? 3 then (aboutXYears, years)
      else if monthsSinceStartOfYear <? 9 then (overXYears, years)
      else (almostXYears, years + 1).

(** [formatDistance(date, baseDate, { addSuffix })]: throws on an
    Invalid Date, else words the distance in the selected unit. *)
Definition formatDistance (date baseDate : Date) (addSuffix : bool)
  : Eff string :=
  match date, baseDate with
  | Some d, Some b =>
      let '(token, count) := distanceUnit d b in
      Ret (locale_formatDistance token count addSuffix (compareAsc d b))
  | _, _ => Throw (RangeError "Invalid time value")
  end.

(** [formatDistanceToNow(date, { addSuffix })] *)
Definition formatDistanceToNow (date : Date) (addSuffix : bool) : Eff string :=
  now <- Date_now ;;
  formatDistance date (Some now) addSuffix.

End DateFnsFunctions.

(* ===================================================================== *)
(** ** The entities the resolvers read (types of the backend payloads) *)
(* ===================================================================== *)

(** [CrawlSession]; [status] is the string the backend sent, which the
    declared union [pending | running | completed | failed | cancelled]
    does not enforce at run time.  The counters that no resolver reads
    are left out. *)
Record CrawlSession : Type := {
  session_id : string;
  session_source_id : string;
  status : string;
  started_at : option string;
  completed_at : option string;
  opportunities_found : Z;
  last_error_message : option string;
  created_at : string
}.

(** [CrawlSource], by the fields the dashboard page reads. *)
Record CrawlSource : Type := {
  source_id : string;
  source_name : string;
  is_enabled : bool
}.

(** [Opportunity], by the fields the resolvers read. *)
Record Opportunity : Type := {
  opportunity_id : string;
  title : string;
  category : option string;
  categories : option (list string);
  submission_deadline : option string
}.

(* ===================================================================== *)
(** ** components/dashboard/CrawlerStatus.tsx *)
(* ===================================================================== *)

Record Badge : Type := { color : string; label : string }.

Definition Ready : Badge :=
  {| color := "bg-green-100 text-green-700 dark:bg-green-900/30 dark:text-green-400";
     label := "Ready" |}.

(** The [config] table of [getStatusBadge]. *)
Definition config : list (string * Badge) :=
  [ ("completed",
     {| color := "bg-green-100 text-green-700 dark:bg-green-900/30 dark:text-green-400";
        label := "Completed" |});
    ("running",
     {| color := "bg-blue-100 text-blue-700 dark:bg-blue-900/30 dark:text-blue-400";
        label := "Running" |});
    ("pending",
     {| color := "bg-yellow-100 text-yellow-700 dark:bg-yellow-900/30 dark:text-yellow-400";
        label := "Pending" |});
    ("failed",
     {| color := "bg-red-100 text-red-700 dark:bg-red-900/30 dark:text-red-400";
        label := "Failed" |});
    ("cancelled",
     {| color := "bg-gray-100 text-gray-500 dark:bg-gray-700 dark:text-gray-400";
        label := "Cancelled" |}) ].

(** [status.label] as the component reads it off the badge: [undefined]
    ([None]) on a member of [Object.prototype], none of which has a
    property of that name. *)
Definition label_of (status : Dyn Badge) : option string :=
  match status with
  | Typed b => Some (label b)
  | PrototypeMember _ => None
  end.

(** What the component shows once loaded. *)
Record Panel : Type := {
  panel_status : Dyn Badge;
  button_disabled : bool;
  button_text : string;
  last_crawl : string;
  found_last_run : Z
}.

Inductive View : Type :=
| Skeleton
| Loaded (p : Panel).

Section CrawlerStatus.
Context `{DateFns}.

Definition isSessionActive (session : option CrawlSession) : Eff bool :=
  match session with
  | None => Ret false
  | Some session =>
      if String.eqb (status session) "running" then Ret true
      else if String.eqb (status session) "pending" then
        try_catch
          (let createdAt := parseISO (created_at session) in
           now <- Date_now ;;
           let minutesAgo := differenceInMinutes (Some now) createdAt in
           Ret (Number_lt minutesAgo (Some 2)))
          (fun _ => Ret false)
      else Ret false
  end.

Definition getStatusBadge (session : option CrawlSession) : Eff (Dyn Badge) :=
  match session with
  | None => Ret (Typed Ready)
  | Some session =>
      isActive <- isSessionActive (Some session) ;;
      if String.eqb (status session) "pending" && negb isActive
      then Ret (Typed Ready)
      else
        Ret (match getProperty config (status session) with
             | Own badge => Typed badge
             | Inherited key => PrototypeMember key
             | Undefined => Typed Ready
             end)
  end.

(** [status.label] of the badge, as the component renders it. *)
Definition displayedLabel (session : option CrawlSession)
  : Eff (option string) :=
  status <- getStatusBadge session ;;
  Ret (label_of status).

Definition formatRelativeTime (dateStr : option string) : Eff string :=
  match dateStr with
  | None => Ret "Never"
  | Some str =>
      if negb (truthy str) then Ret "Never"
      else
        try_catch
          (formatDistanceToNow (parseISO str) true)
          (fun _ => Ret "Unknown")
  end.

(** The function component, by what it renders. *)
Definition CrawlerStatus
  (session : option CrawlSession) (sources : list CrawlSource)
  (loading : bool) : Eff View :=
  status <- getStatusBadge session ;;
  let lastCrawl :=
    match session with
    | None => None
    | Some s => or_else (completed_at s) (started_at s)
    end in
  isRunning <- isSessionActive session ;;
  let firstSource := nth_error sources 0 in
  if loading then Ret Skeleton
  else
    lastCrawlText <- formatRelativeTime (or_else lastCrawl None) ;;
    Ret (Loaded
      {| panel_status := status;
         button_disabled :=
           isRunning || match firstSource with Some _ => false | None => true end;
         button_text := if isRunning then "Crawling..." else "Start Crawl";
         last_crawl := lastCrawlText;
         found_last_run :=
           match session with
           | Some s => opportunities_found s
           | None => 0
           end |}).

End CrawlerStatus.

(** [handleStartCrawl] of [pages/Dashboard.tsx], by the source whose
    crawl it requests from the backend, if any. *)
Definition handleStartCrawl (sources : list CrawlSource) : option string :=
  match sources with
  | [] => None
  | first :: _ => Some (source_id first)
  end.

(* ===================================================================== *)
(** ** components/dashboard/OpportunitiesTable.tsx *)
(* ===================================================================== *)

(** The [labels] table of [formatCategoryLabel]. *)
Definition labels : list (string * string) :=
  [ ("dynamics", "Dynamics 365");
    ("ai", "AI/ML");
    ("iot", "IoT");
    ("erp", "ERP");
    ("staff_augmentation", "Staff Aug");
    ("cloud", "Cloud");
    ("cybersecurity", "Cybersecurity");
    ("data_analytics", "Analytics");
    ("other", "Other") ].

Definition formatCategoryLabel (category : option string) : Dyn string :=
  match category with
  | None => Typed "Other"
  | Some category =>
      if negb (truthy category) then Typed "Other"
      else
        match getProperty labels (toLowerCase category) with
        | Own l => if truthy l then Typed l else Typed category
        | Inherited key => PrototypeMember key
        | Undefined => Typed category
        end
  end.

Definition getPrimaryCategory (opp : Opportunity) : option string :=
  match categories opp with
  | Some (first :: _) => Some first
  | _ => or_else (category opp) None
  end.

Record Deadline : Type := { text : string; urgent : bool }.

Section OpportunitiesTable.
Context `{DateFns}.

Definition formatDeadline (deadline : option string) : Eff Deadline :=
  match deadline with
  | None => Ret {| text := "No deadline"; urgent := false |}
  | Some str =>
      if negb (truthy str) then Ret {| text := "No deadline"; urgent := false |}
      else
        try_catch
          (let date := parseISO str in
           past <- isPast date ;;
           if past then Ret {| text := "Expired"; urgent := true |}
           else
             distance <- formatDistanceToNow date false ;;
             Ret {| text := "in " ++ distance;
                    urgent := includes distance "hour"
                              || includes distance "day" |})
          (fun _ => Ret {| text := "Invalid date"; urgent := false |})
  end.

End OpportunitiesTable.

(* ===================================================================== *)
(** ** A host in UTC *)
(* ===================================================================== *)

(** date-fns on a host whose time zone is UTC, over the proleptic Gregorian
    calendar, to run the resolvers on concrete payloads.  [UTC.parseISO]
    reads the complete form [YYYY-MM-DDTHH:mm:ssZ] only: date-fns accepts
    further ISO 8601 forms (reduced precision, week and ordinal dates,
    fractions, numeric offsets), on which this instance answers Invalid
    Date. *)
Module UTC.

Definition MS_PER_DAY : Z := 86400000.

(** Days from the epoch to the civil date [y]-[m]-[d], [m] in 1..12. *)
Definition days_from_civil (y m d : Z) : Z :=
  let y' := if m <=? 2 then y - 1 else y in
  let era := y' / 400 in
  let yoe := y' - era * 400 in
  let doy := (153 * (if m >? 2 then m - 3 else m + 9) + 2) / 5 + d - 1 in
  let doe := yoe * 365 + yoe / 4 - yoe / 100 + doy in
  era * 146097 + doe - 719468.

(** The civil date (year, month in 1..12, day) of a day number. *)
Definition civil_from_days (z : Z) : Z * Z * Z :=
  let z' := z + 719468 in
  let era := z' / 146097 in
  let doe := z' - era * 146097 in
  let yoe := (doe - doe / 1460 + doe / 36524 - doe / 146096) / 365 in
  let doy := doe - (365 * yoe + yoe / 4 - yoe / 100) in
  let mp := (5 * doy + 2) / 153 in
  let d := doy - (153 * mp + 2) / 5 + 1 in
  let m := if mp <? 10 then mp + 3 else mp - 9 in
  ((yoe + era * 400 + (if m <=? 2 then 1 else 0), m), d).

Definition isLeapYear (y : Z) : bool :=
  (y mod 4 =? 0) && (negb (y mod 100 =? 0) || (y mod 400 =? 0)).

Definition daysInMonth (y m : Z) : Z :=
  if m =? 2 then (if isLeapYear y then 29 else 28)
  else if (m =? 4) || (m =? 6) || (m =? 9) || (m =? 11) then 30
  else 31.

Definition getFullYear (t : Z) : Z := fst (fst (civil_from_days (t / MS_PER_DAY))).
(** [getMonth]: 0 for January. *)
Definition getMonth (t : Z) : Z := snd (fst (civil_from_days (t / MS_PER_DAY))) - 1.
Definition getDate (t : Z) : Z := snd (civil_from_days (t / MS_PER_DAY)).

(** The time value of day [date] of month [month] (0-based, any integer)
    of [year], at the time of day of [t]; months and days out of range
    carry over, as in [Date.prototype.setMonth] and [setDate]. *)
Definition makeDate (t year month date : Z) : Z :=
  (days_from_civil (year + month / 12) (month mod 12 + 1) 1 + date - 1)
  * MS_PER_DAY + t mod MS_PER_DAY.

Definition setDate (t date : Z) : Z := makeDate t (getFullYear t) (getMonth t) date.
Definition setMonth (t month : Z) : Z := makeDate t (getFullYear t) month (getDate t).

Definition isLastDayOfMonth (t : Z) : bool :=
  getDate t =? daysInMonth (getFullYear t) (getMonth t + 1).

Definition differenceInCalendarMonths (dateLeft dateRight : Z) : Z :=
  (getFullYear dateLeft - getFullYear dateRight) * 12
  + (getMonth dateLeft - getMonth dateRight).

Definition differenceInMonths (dateLeft dateRight : Z) : Z :=
  let sign := compareAsc dateLeft dateRight in
  let difference := Z.abs (differenceInCalendarMonths dateLeft dateRight) in
  if difference <? 1 then 0
  else
    let working :=
      if (getMonth dateLeft =? 1) && (getDate dateLeft >? 27)
      then setDate dateLeft 30 else dateLeft in
    let working := setMonth working (getMonth working - sign * difference) in
    let isLastMonthNotFull := compareAsc working dateRight =? - sign in
    let isLastMonthNotFull :=
      if isLastDayOfMonth dateLeft && (difference =? 1)
         && (compareAsc dateLeft dateRight =? 1)
      then false else isLastMonthNotFull in
    sign * (difference - (if isLastMonthNotFull then 1 else 0)).

(** [n] decimal digits at the head of [s]: their value and the rest. *)
Fixpoint digits (n : nat) (acc : Z) (s : string) : option (Z * string) :=
  match n with
  | O => Some (acc, s)
  | S n' =>
      match s with
      | EmptyString => None
      | String c rest =>
          let v := Z.of_N (N_of_ascii c) - 48 in
          if (0 <=? v) && (v <=? 9) then digits n' (10 * acc + v) rest
          else None
      end
  end.

Definition expect (c : ascii) (s : string) : option string :=
  match s with
  | EmptyString => None
  | String c' rest => if Ascii.eqb c c' then Some rest else None
  end.

Definition validateDate (year month date : Z) : bool :=
  (1 <=? month) && (month <=? 12) && (1 <=? date)
  && (date <=? daysInMonth year month).

Definition validateTime (hours minutes seconds : Z) : bool :=
  if hours =? 24 then (minutes =? 0) && (seconds =? 0)
  else (seconds <? 60) && (minutes <? 60) && (hours <? 25).

Notation "' p <- m ; k" :=
  (match m with Some p => k | None => None end)
  (at level 61, p pattern, m at next level, right associativity,
   only parsing).

Definition parseISO (s : string) : Date :=
  ' (year, s) <- digits 4 0 s ;
  ' s <- expect "-" s ;
  ' (month, s) <- digits 2 0 s ;
  ' s <- expect "-" s ;
  ' (date, s) <- digits 2 0 s ;
  ' s <- expect "T" s ;
  ' (hours, s) <- digits 2 0 s ;
  ' s <- expect ":" s ;
  ' (minutes, s) <- digits 2 0 s ;
  ' s <- expect ":" s ;
  ' (seconds, s) <- digits 2 0 s ;
  ' s <- expect "Z" s ;
  match s with
  | EmptyString =>
      if validateDate year month date && validateTime hours minutes seconds
      then Some (days_from_civil year month date * MS_PER_DAY
                 + hours * 3600000 + minutes * 60000 + seconds * 1000)
      else None
  | String _ _ => None
  end.

#[export] Instance host : DateFns := {
  parseISO := parseISO;
  getTimezoneOffsetInMilliseconds := fun _ => 0;
  differenceInMonths := differenceInMonths
}.

End UTC.

(* ===================================================================== *)
(** ** The other helpers of components/dashboard/OpportunitiesTable.tsx *)
(* ===================================================================== *)

(** [new URL(input)], by the one field the helpers read: [None] when the
    constructor throws its [TypeError]. *)
Record URL : Type := { hostname : string }.

Class Platform : Type := {
  new_URL : string -> option URL
}.

Module OpportunitiesTable.

(** The [colors] table of [getCategoryColor]. *)
Definition colors : list (string * string) :=
  [ ("dynamics", "bg-blue-100 text-blue-700 dark:bg-blue-900 dark:text-blue-300");
    ("ai", "bg-purple-100 text-purple-700 dark:bg-purple-900 dark:text-purple-300");
    ("iot", "bg-cyan-100 text-cyan-700 dark:bg-cyan-900 dark:text-cyan-300");
    ("erp", "bg-indigo-100 text-indigo-700 dark:bg-indigo-900 dark:text-indigo-300");
    ("staff_augmentation",
     "bg-orange-100 text-orange-700 dark:bg-orange-900 dark:text-orange-300");
    ("cloud", "bg-sky-100 text-sky-700 dark:bg-sky-900 dark:text-sky-300");
    ("cybersecurity", "bg-red-100 text-red-700 dark:bg-red-900 dark:text-red-300");
    ("data_analytics",
     "bg-green-100 text-green-700 dark:bg-green-900 dark:text-green-300");
    ("other", "bg-gray-100 text-gray-700 dark:bg-gray-700 dark:text-gray-300") ].

(** [category?.toLowerCase() || ''] *)
Definition colorKey (category : option string) : string :=
  match category with
  | Some c => if truthy (toLowerCase c) then toLowerCase c else ""
  | None => ""
  end.

Definition getCategoryColor (category : option string) : Dyn string :=
  match getProperty colors (colorKey category) with
  | Own c =>
      if truthy c then Typed c
      else Typed "bg-gray-100 text-gray-700 dark:bg-gray-700 dark:text-gray-300"
  | Inherited key => PrototypeMember key
  | Undefined => Typed "bg-gray-100 text-gray-700 dark:bg-gray-700 dark:text-gray-300"
  end.

(** The [statusConfig] table of the opportunity [getStatusBadge]. *)
Definition statusConfig : list (string * Badge) :=
  [ ("new", {| color := "bg-blue-100 text-blue-700"; label := "New" |});
    ("reviewing", {| color := "bg-yellow-100 text-yellow-700"; label := "Reviewing" |});
    ("qualified", {| color := "bg-green-100 text-green-700"; label := "Qualified" |});
    ("applied", {| color := "bg-emerald-100 text-emerald-700"; label := "Submitted" |});
    ("rejected", {| color := "bg-red-100 text-red-700"; label := "Rejected" |});
    ("expired", {| color := "bg-gray-100 text-gray-500"; label := "Expired" |});
    ("archived", {| color := "bg-gray-100 text-gray-500"; label := "Archived" |}) ].

Definition getStatusBadge (status : string) : Dyn Badge :=
  match getProperty statusConfig status with
  | Own badge => Typed badge
  | Inherited key => PrototypeMember key
  | Undefined => Typed {| color := "bg-gray-100 text-gray-700"; label := status |}
  end.

Section WithDateFns.
Context `{DateFns}.

Definition formatPostedDate (date : option string) : Eff string :=
  match date with
  | None => Ret ""
  | Some str =>
      if negb (truthy str) then Ret ""
      else
        try_catch
          (ago <- formatDistanceToNow (parseISO str) true ;;
           Ret ("Posted " ++ ago))
          (fun _ => Ret "")
  end.

End WithDateFns.

Section WithPlatform.
Context `{Platform}.

(** [url] is [None] for [null] and for [undefined]. *)
Definition getUrlHostname (url : option string) : string :=
  match url with
  | None => "Link"
  | Some u =>
      if negb (truthy u) then "Link"
      else
        match new_URL u with
        | Some parsed => hostname parsed
        | None => "Link"
        end
  end.

End WithPlatform.

End OpportunitiesTable.

(* ===================================================================== *)
(** ** services/api.ts: the filtered listing *)
(* ===================================================================== *)

Module Api.

Inductive SortBy : Type := by_created_at | by_deadline | by_relevance | by_title.
Inductive SortOrder : Type := asc | desc.

(** [OpportunityFilters]; an absent optional field is [None].  The query
    parameters [listWithFilters] sends have the same fields, and the
    scanner page hands such parameters over as filters. *)
Record OpportunityFilters : Type := {
  page : option Z;
  page_size : option Z;
  status : option (list string);
  categories : option (list string);
  state_codes : option (list string);
  requires_prequalification : option bool;
  is_discretionary : option bool;
  deadline_after : option string;
  deadline_before : option string;
  search : option string;
  source_id : option string;
  sort_by : option SortBy;
  sort_order : option SortOrder
}.

(** [n || fallback] on an optional number: zero is falsy. *)
Definition number_or (n : option Z) (fallback : Z) : Z :=
  match n with
  | Some v => if v =? 0 then fallback else v
  | None => fallback
  end.

(** [if (s) params.key = s]: an empty string is left out. *)
Definition if_truthy (s : option string) : option string :=
  match s with
  | Some v => if truthy v then Some v else None
  | None => None
  end.

(** [if (l?.length) params.key = l]: an empty list is left out. *)
Definition if_length (l : option (list string)) : option (list string) :=
  match l with
  | Some (x :: rest) => Some (x :: rest)
  | _ => None
  end.

(** The query parameters of [opportunitiesApi.listWithFilters(filters)],
    sent with [GET /opportunities]. *)
Definition listWithFilters (filters : OpportunityFilters) : OpportunityFilters :=
  {| page := Some (number_or (page filters) 1);
     page_size := Some (number_or (page_size filters) 20);
     search := if_truthy (search filters);
     categories := if_length (categories filters);
     status := if_length (status filters);
     state_codes := if_length (state_codes filters);
     requires_prequalification := requires_prequalification filters;
     is_discretionary := is_discretionary filters;
     deadline_after := if_truthy (deadline_after filters);
     deadline_before := if_truthy (deadline_before filters);
     source_id := if_truthy (source_id filters);
     sort_by := sort_by filters;
     sort_order := sort_order filters |}.

(** The object [opportunitiesApi] that [services/api] exports, by the one
    member the scanner page calls: reading a member that the object
    literal does not define gives [undefined], and calling [undefined]
    throws a [TypeError].  A member that is there is given by the query
    it sends. *)
Record OpportunitiesApi : Type := {
  listWithFilters_member : option (OpportunityFilters -> OpportunityFilters)
}.

(** [opportunitiesApi] of [frontend/src/services/api.ts], the module at
    the path the pages import from: it defines [list] and [get] and no
    [listWithFilters]. *)
Definition opportunitiesApi : OpportunitiesApi :=
  {| listWithFilters_member := None |}.

(** [opportunitiesApi] of the revision of [services/api.ts] that declares
    [OpportunityFilters] and defines [listWithFilters] next to [list] and
    [get]. *)
Definition opportunitiesApi_with_filters : OpportunitiesApi :=
  {| listWithFilters_member := Some listWithFilters |}.

End Api.

(* ===================================================================== *)
(** ** pages/RfpScanner.tsx *)
(* ===================================================================== *)

(** White space and line terminators among the code units below 256:
    tab, line feed, vertical tab, form feed, carriage return, space and
    the no-break space. *)
Definition isWhiteSpace (c : ascii) : bool :=
  let n := N_of_ascii c in
  ((9 <=? n) && (n <=? 13) || (n =? 32) || (n =? 160))%N.

Fixpoint trimStart (s : string) : string :=
  match s with
  | EmptyString => EmptyString
  | String c rest => if isWhiteSpace c then trimStart rest else s
  end.

Fixpoint trimEnd (s : string) : string :=
  match s with
  | EmptyString => EmptyString
  | String c rest =>
      match trimEnd rest with
      | EmptyString => if isWhiteSpace c then EmptyString else String c EmptyString
      | kept => String c kept
      end
  end.

(** [String.prototype.trim] *)
Definition trim (s : string) : string := trimEnd (trimStart s).

(** [array.includes(value)] on an array of strings. *)
Definition Array_includes (array : list string) (value : string) : bool :=
  existsb (String.eqb value) array.

Module RfpScanner.

(** [CATEGORIES], by value and label. *)
Definition CATEGORIES : list (string * string) :=
  [ ("ai", "Artificial Intelligence");
    ("dynamics", "Microsoft Dynamics");
    ("iot", "IoT / Smart Systems");
    ("erp", "ERP Systems");
    ("staff_augmentation", "Staff Augmentation");
    ("cloud", "Cloud Services");
    ("cybersecurity", "Cybersecurity");
    ("data_analytics", "Data Analytics") ].

(** The page's own copies of the table helpers ("same as
    OpportunitiesTable", says the source). *)
Definition colors : list (string * string) :=
  [ ("dynamics", "bg-blue-100 text-blue-700 dark:bg-blue-900 dark:text-blue-300");
    ("ai", "bg-purple-100 text-purple-700 dark:bg-purple-900 dark:text-purple-300");
    ("iot", "bg-cyan-100 text-cyan-700 dark:bg-cyan-900 dark:text-cyan-300");
    ("erp", "bg-indigo-100 text-indigo-700 dark:bg-indigo-900 dark:text-indigo-300");
    ("staff_augmentation",
     "bg-orange-100 text-orange-700 dark:bg-orange-900 dark:text-orange-300");
    ("cloud", "bg-sky-100 text-sky-700 dark:bg-sky-900 dark:text-sky-300");
    ("cybersecurity", "bg-red-100 text-red-700 dark:bg-red-900 dark:text-red-300");
    ("data_analytics",
     "bg-green-100 text-green-700 dark:bg-green-900 dark:text-green-300") ].

Definition getCategoryColor (category : option string) : Dyn string :=
  match getProperty colors (OpportunitiesTable.colorKey category) with
  | Own c =>
      if truthy c then Typed c
      else Typed "bg-gray-100 text-gray-700 dark:bg-gray-700 dark:text-gray-300"
  | Inherited key => PrototypeMember key
  | Undefined => Typed "bg-gray-100 text-gray-700 dark:bg-gray-700 dark:text-gray-300"
  end.

Definition labels : list (string * string) :=
  [ ("dynamics", "Dynamics 365");
    ("ai", "AI/ML");
    ("iot", "IoT");
    ("erp", "ERP");
    ("staff_augmentation", "Staff Aug");
    ("cloud", "Cloud");
    ("cybersecurity", "Cybersecurity");
    ("data_analytics", "Analytics") ].

Definition formatCategoryLabel (category : option string) : Dyn string :=
  match category with
  | None => Typed "Other"
  | Some category =>
      if negb (truthy category) then Typed "Other"
      else
        match getProperty labels (toLowerCase category) with
        | Own l => if truthy l then Typed l else Typed category
        | Inherited key => PrototypeMember key
        | Undefined => Typed category
        end
  end.

Definition config : list (string * Badge) :=
  [ ("new", {| color := "bg-blue-100 text-blue-700"; label := "New" |});
    ("reviewing", {| color := "bg-yellow-100 text-yellow-700"; label := "Reviewing" |});
    ("qualified", {| color := "bg-green-100 text-green-700"; label := "Qualified" |});
    ("applied", {| color := "bg-emerald-100 text-emerald-700"; label := "Submitted" |});
    ("rejected", {| color := "bg-red-100 text-red-700"; label := "Rejected" |});
    ("expired", {| color := "bg-gray-100 text-gray-500"; label := "Expired" |}) ].

Definition getStatusBadge (status : string) : Dyn Badge :=
  match getProperty config status with
  | Own badge => Typed badge
  | Inherited key => PrototypeMember key
  | Undefined => Typed {| color := "bg-gray-100 text-gray-700"; label := status |}
  end.

Inductive MessageType : Type := info | success | error.

Record ScanMessage : Type := { type : MessageType; text : string }.

(** The state of the page component (its [useState] cells); an event
    handler is a function from the state it was rendered with to the
    state after its updates. *)
Record State : Type := {
  targetUrl : string;
  urlList : list string;
  selectedCategories : list string;
  isScanning : bool;
  scanMessage : option ScanMessage;
  sources : list CrawlSource;
  searchQuery : string;
  categoryFilter : string;
  statusFilter : string;
  prequalRequired : bool;
  opportunities : list Opportunity;
  totalOpportunities : Z;
  loading : bool;
  page : Z
}.

Definition pageSize : Z := 10.

(** The state on first render. *)
Definition initial : State :=
  {| targetUrl := "";
     urlList := [];
     selectedCategories := map fst CATEGORIES;
     isScanning := false;
     scanMessage := None;
     sources := [];
     searchQuery := "";
     categoryFilter := "";
     statusFilter := "";
     prequalRequired := false;
     opportunities := [];
     totalOpportunities := 0;
     loading := true;
     page := 1 |}.

Definition setTargetUrl (v : string) (s : State) : State :=
  {| targetUrl := v; urlList := urlList s;
     selectedCategories := selectedCategories s; isScanning := isScanning s;
     scanMessage := scanMessage s; sources := sources s;
     searchQuery := searchQuery s; categoryFilter := categoryFilter s;
     statusFilter := statusFilter s; prequalRequired := prequalRequired s;
     opportunities := opportunities s;
     totalOpportunities := totalOpportunities s;
     loading := loading s; page := page s |}.

Definition setUrlList (v : list string) (s : State) : State :=
  {| targetUrl := targetUrl s; urlList := v;
     selectedCategories := selectedCategories s; isScanning := isScanning s;
     scanMessage := scanMessage s; sources := sources s;
     searchQuery := searchQuery s; categoryFilter := categoryFilter s;
     statusFilter := statusFilter s; prequalRequired := prequalRequired s;
     opportunities := opportunities s;
     totalOpportunities := totalOpportunities s;
     loading := loading s; page := page s |}.

Definition setSelectedCategories (v : list string) (s : State) : State :=
  {| targetUrl := targetUrl s; urlList := urlList s;
     selectedCategories := v; isScanning := isScanning s;
     scanMessage := scanMessage s; sources := sources s;
     searchQuery := searchQuery s; categoryFilter := categoryFilter s;
     statusFilter := statusFilter s; prequalRequired := prequalRequired s;
     opportunities := opportunities s;
     totalOpportunities := totalOpportunities s;
     loading := loading s; page := page s |}.

Definition setIsScanning (v : bool) (s : State) : State :=
  {| targetUrl := targetUrl s; urlList := urlList s;
     selectedCategories := selectedCategories s; isScanning := v;
     scanMessage := scanMessage s; sources := sources s;
     searchQuery := searchQuery s; categoryFilter := categoryFilter s;
     statusFilter := statusFilter s; prequalRequired := prequalRequired s;
     opportunities := opportunities s;
     totalOpportunities := totalOpportunities s;
     loading := loading s; page := page s |}.

Definition setScanMessage (v : option ScanMessage) (s : State) : State :=
  {| targetUrl := targetUrl s; urlList := urlList s;
     selectedCategories := selectedCategories s; isScanning := isScanning s;
     scanMessage := v; sources := sources s;
     searchQuery := searchQuery s; categoryFilter := categoryFilter s;
     statusFilter := statusFilter s; prequalRequired := prequalRequired s;
     opportunities := opportunities s;
     totalOpportunities := totalOpportunities s;
     loading := loading s; page := page s |}.

Definition setPage (v : Z) (s : State) : State :=
  {| targetUrl := targetUrl s; urlList := urlList s;
     selectedCategories := selectedCategories s; isScanning := isScanning s;
     scanMessage := scanMessage s; sources := sources s;
     searchQuery := searchQuery s; categoryFilter := categoryFilter s;
     statusFilter := statusFilter s; prequalRequired := prequalRequired s;
     opportunities := opportunities s;
     totalOpportunities := totalOpportunities s;
     loading := loading s; page := v |}.

Definition setSearchQuery (v : string) (s : State) : State :=
  {| targetUrl := targetUrl s; urlList := urlList s;
     selectedCategories := selectedCategories s; isScanning := isScanning s;
     scanMessage := scanMessage s; sources := sources s;
     searchQuery := v; categoryFilter := categoryFilter s;
     statusFilter := statusFilter s; prequalRequired := prequalRequired s;
     opportunities := opportunities s;
     totalOpportunities := totalOpportunities s;
     loading := loading s; page := page s |}.

Definition setCategoryFilter (v : string) (s : State) : State :=
  {| targetUrl := targetUrl s; urlList := urlList s;
     selectedCategories := selectedCategories s; isScanning := isScanning s;
     scanMessage := scanMessage s; sources := sources s;
     searchQuery := searchQuery s; categoryFilter := v;
     statusFilter := statusFilter s; prequalRequired := prequalRequired s;
     opportunities := opportunities s;
     totalOpportunities := totalOpportunities s;
     loading := loading s; page := page s |}.

Definition setStatusFilter (v : string) (s : State) : State :=
  {| targetUrl := targetUrl s; urlList := urlList s;
     selectedCategories := selectedCategories s; isScanning := isScanning s;
     scanMessage := scanMessage s; sources := sources s;
     searchQuery := searchQuery s; categoryFilter := categoryFilter s;
     statusFilter := v; prequalRequired := prequalRequired s;
     opportunities := opportunities s;
     totalOpportunities := totalOpportunities s;
     loading := loading s; page := page s |}.

Definition setPrequalRequired (v : bool) (s : State) : State :=
  {| targetUrl := targetUrl s; urlList := urlList s;
     selectedCategories := selectedCategories s; isScanning := isScanning s;
     scanMessage := scanMessage s; sources := sources s;
     searchQuery := searchQuery s; categoryFilter := categoryFilter s;
     statusFilter := statusFilter s; prequalRequired := v;
     opportunities := opportunities s;
     totalOpportunities := totalOpportunities s;
     loading := loading s; page := page s |}.

Definition setTotalOpportunities (v : Z) (s : State) : State :=
  {| targetUrl := targetUrl s; urlList := urlList s;
     selectedCategories := selectedCategories s; isScanning := isScanning s;
     scanMessage := scanMessage s; sources := sources s;
     searchQuery := searchQuery s; categoryFilter := categoryFilter s;
     statusFilter := statusFilter s; prequalRequired := prequalRequired s;
     opportunities := opportunities s;
     totalOpportunities := v;
     loading := loading s; page := page s |}.

Definition setOpportunities (v : list Opportunity) (s : State) : State :=
  {| targetUrl := targetUrl s; urlList := urlList s;
     selectedCategories := selectedCategories s; isScanning := isScanning s;
     scanMessage := scanMessage s; sources := sources s;
     searchQuery := searchQuery s; categoryFilter := categoryFilter s;
     statusFilter := statusFilter s; prequalRequired := prequalRequired s;
     opportunities := v;
     totalOpportunities := totalOpportunities s;
     loading := loading s; page := page s |}.

Definition setLoading (v : bool) (s : State) : State :=
  {| targetUrl := targetUrl s; urlList := urlList s;
     selectedCategories := selectedCategories s; isScanning := isScanning s;
     scanMessage := scanMessage s; sources := sources s;
     searchQuery := searchQuery s; categoryFilter := categoryFilter s;
     statusFilter := statusFilter s; prequalRequired := prequalRequired s;
     opportunities := opportunities s;
     totalOpportunities := totalOpportunities s;
     loading := v; page := page s |}.

Definition setSources (v : list CrawlSource) (s : State) : State :=
  {| targetUrl := targetUrl s; urlList := urlList s;
     selectedCategories := selectedCategories s; isScanning := isScanning s;
     scanMessage := scanMessage s; sources := v;
     searchQuery := searchQuery s; categoryFilter := categoryFilter s;
     statusFilter := statusFilter s; prequalRequired := prequalRequired s;
     opportunities := opportunities s;
     totalOpportunities := totalOpportunities s;
     loading := loading s; page := page s |}.

(** The parameters [fetchOpportunities] builds from the filter state. *)
Definition fetchOpportunities_params (s : State) : Api.OpportunityFilters :=
  {| Api.page := Some (page s);
     Api.page_size := Some pageSize;
     Api.search := if truthy (searchQuery s) then Some (searchQuery s) else None;
     Api.categories :=
       if truthy (categoryFilter s) then Some [categoryFilter s] else None;
     Api.status :=
       if truthy (statusFilter s) then Some [statusFilter s] else None;
     Api.requires_prequalification :=
       if prequalRequired s then Some true else None;
     Api.state_codes := None;
     Api.is_discretionary := None;
     Api.deadline_after := None;
     Api.deadline_before := None;
     Api.source_id := None;
     Api.sort_by := None;
     Api.sort_order := None |}.

(** What a run of [fetchOpportunities] leaves behind: the state, and the
    query that went out with [GET /opportunities], if one did. *)
Record FetchRun : Type := {
  fetched : State;
  sent : option Api.OpportunityFilters
}.

(** [fetchOpportunities], linked with the object [api] for
    [opportunitiesApi].  [answer] is the response of the backend when a
    request is made: its [items] and [total], or [None] when the request
    is rejected.  The call [opportunitiesApi.listWithFilters(params)] sits
    inside the [try]: where the object has no such member the call
    throws before anything is sent, and like a rejected request it ends
    in the [catch], which only logs; [finally] clears [loading]. *)
Definition fetchOpportunities (api : Api.OpportunitiesApi)
  (answer : option (list Opportunity * Z)) (s : State) : FetchRun :=
  let params := fetchOpportunities_params s in
  match Api.listWithFilters_member api with
  | None =>
      {| fetched := setLoading false (setLoading true s);
         sent := None |}
  | Some listWithFilters =>
      match answer with
      | Some (items, total) =>
          {| fetched :=
               setLoading false
                 (setTotalOpportunities total
                    (setOpportunities items (setLoading true s)));
             sent := Some (listWithFilters params) |}
      | None =>
          {| fetched := setLoading false (setLoading true s);
             sent := Some (listWithFilters params) |}
      end
  end.

(** The updater of [toggleCategory]. *)
Definition toggle (value : string) (prev : list string) : list string :=
  if Array_includes prev value
  then filter (fun c => negb (String.eqb c value)) prev
  else prev ++ [value].

Definition toggleCategory (value : string) (s : State) : State :=
  setSelectedCategories (toggle value (selectedCategories s)) s.

Definition handleRemoveUrl (urlToRemove : string) (s : State) : State :=
  setUrlList (filter (fun url => negb (String.eqb url urlToRemove)) (urlList s)) s.

Section WithPlatform.
Context `{Platform}.

Definition handleAddUrl (s : State) : State :=
  let trimmedUrl := trim (targetUrl s) in
  if negb (truthy trimmedUrl) then
    setScanMessage (Some {| type := error; text := "Please enter a URL." |}) s
  else
    match new_URL trimmedUrl with
    | None =>
        setScanMessage
          (Some {| type := error;
                   text := "Please enter a valid URL (e.g., https://example.com)." |})
          s
    | Some _ =>
        if Array_includes (urlList s) trimmedUrl then
          setScanMessage
            (Some {| type := error; text := "This URL is already in the list." |}) s
        else
          setScanMessage None
            (setTargetUrl "" (setUrlList (urlList s ++ [trimmedUrl]) s))
    end.

End WithPlatform.

(** What a run of [handleStartScan] leaves behind: the state, the source
    whose crawl was requested from the backend, if any, and whether a
    refresh of the table was scheduled. *)
Record ScanRun : Type := {
  after : State;
  requested : option string;
  refresh_scheduled : bool
}.

(** The state once a scan has been announced, before anything is
    requested. *)
Definition starting (s : State) : State :=
  setScanMessage (Some {| type := info; text := "Starting scan..." |})
    (setIsScanning true s).

(** [triggered] tells whether the request [crawlApi.triggerCrawl], if one
    is made, is fulfilled. *)
Definition handleStartScan (triggered : bool) (s : State) : ScanRun :=
  match urlList s, sources s with
  | [], [] =>
      {| after := setScanMessage
                    (Some {| type := error;
                             text := "Please add at least one URL to scan." |}) s;
         requested := None;
         refresh_scheduled := false |}
  | _, first :: _ =>
      if triggered then
        {| after :=
             setIsScanning false
               (setScanMessage
                  (Some {| type := success;
                           text := "Scan initiated for " ++ source_name first
                                   ++ ". Results will appear shortly." |})
                  (starting s));
           requested := Some (source_id first);
           refresh_scheduled := true |}
      else
        {| after :=
             setIsScanning false
               (setScanMessage
                  (Some {| type := error;
                           text := "Failed to start scan. Please try again." |})
                  (starting s));
           requested := Some (source_id first);
           refresh_scheduled := false |}
  | _ :: _, [] =>
      {| after :=
           setIsScanning false
             (setScanMessage
                (Some {| type := info; text := "Custom URL scanning coming soon." |})
                (starting s));
         requested := None;
         refresh_scheduled := true |}
  end.

(** The pager below the table, shown when there is more than a page. *)
Definition pagerShown (s : State) : bool := totalOpportunities s >? pageSize.
Definition showingFrom (s : State) : Z := (page s - 1) * pageSize + 1.
Definition showingTo (s : State) : Z := Z.min (page s * pageSize) (totalOpportunities s).
Definition previousDisabled (s : State) : bool := page s =? 1.
Definition nextDisabled (s : State) : bool := page s * pageSize >=? totalOpportunities s.

(** What the user can do below and above the table; a click lands only
    on a button that is rendered and not disabled, and every change of a
    filter goes back to the first page. *)
Inductive TableEvent : Type :=
| ClickPrevious
| ClickNext
| ChangeSearch (v : string)
| ChangeCategory (v : string)
| ChangeStatus (v : string)
| ClickPrequalified.

Definition onTable (s : State) (e : TableEvent) : State :=
  match e with
  | ClickPrevious =>
      if pagerShown s && negb (previousDisabled s)
      then setPage (Z.max 1 (page s - 1)) s else s
  | ClickNext =>
      if pagerShown s && negb (nextDisabled s)
      then setPage (page s + 1) s else s
  | ChangeSearch v => setPage 1 (setSearchQuery v s)
  | ChangeCategory v => setPage 1 (setCategoryFilter v s)
  | ChangeStatus v => setPage 1 (setStatusFilter v s)
  | ClickPrequalified => setPage 1 (setPrequalRequired (negb (prequalRequired s)) s)
  end.

(** What the user can do to the list of URLs. *)
Inductive UrlEvent : Type :=
| TypeUrl (v : string)
| AddUrl
| RemoveUrl (url : string).

Definition onUrl `{Platform} (s : State) (e : UrlEvent) : State :=
  match e with
  | TypeUrl v => setTargetUrl v s
  | AddUrl => handleAddUrl s
  | RemoveUrl url => handleRemoveUrl url s
  end.

End RfpScanner.

(* ===================================================================== *)
(** ** contexts/ThemeContext.tsx *)
(* ===================================================================== *)

Module ThemeContext.

Inductive Theme : Type := light | dark.

Definition Theme_string (theme : Theme) : string :=
  match theme with
  | light => "light"
  | dark => "dark"
  end.

(** [localStorage]: what it holds, whether every access to it throws
    (storage denied to the page), and whether writing throws (quota). *)
Record Storage : Type := {
  items : list (string * string);
  denied : bool;
  full : bool
}.

(** [localStorage.getItem(key)]: [None] when it throws, else the value
    or [null]. *)
Definition getItem (storage : Storage) (key : string) : option (option string) :=
  if denied storage then None else Some (ownProperty (items storage) key).

Fixpoint store (l : list (string * string)) (key value : string)
  : list (string * string) :=
  match l with
  | [] => [(key, value)]
  | (k, v) :: rest =>
      if String.eqb k key then (k, value) :: rest
      else (k, v) :: store rest key value
  end.

(** [localStorage.setItem(key, value)]: [None] when it throws. *)
Definition setItem (storage : Storage) (key value : string) : option Storage :=
  if denied storage || full storage then None
  else Some {| items := store (items storage) key value;
               denied := denied storage;
               full := full storage |}.

(** The browser, by what the provider touches: the storage and the class
    list of the root element, a list of distinct tokens. *)
Record Browser : Type := {
  localStorage : Storage;
  classList : list string
}.

(** [classList.add(token)] *)
Definition classList_add (tokens : list string) (token : string) : list string :=
  if Array_includes tokens token then tokens else tokens ++ [token].

(** [classList.remove(token)] *)
Definition classList_remove (tokens : list string) (token : string) : list string :=
  filter (fun t => negb (String.eqb t token)) tokens.

(** [window] is [None] where there is no [window] (rendering on a
    server). *)
Definition getInitialTheme (window : option Browser) : Theme :=
  match window with
  | None => light
  | Some browser =>
      match getItem (localStorage browser) "theme" with
      | Some (Some stored) =>
          if String.eqb stored "dark" then dark
          else if String.eqb stored "light" then light
          else light
      | _ => light
      end
  end.

(** The effect that follows every change of the theme. *)
Definition applyTheme (theme : Theme) (browser : Browser) : Browser :=
  let classes :=
    match theme with
    | dark => classList_add (classList browser) "dark"
    | light => classList_remove (classList browser) "dark"
    end in
  {| localStorage :=
       match setItem (localStorage browser) "theme" (Theme_string theme) with
       | Some written => written
       | None => localStorage browser
       end;
     classList := classes |}.

(** The effect that runs once, on mount. *)
Definition onMount (theme : Theme) (browser : Browser) : Browser :=
  match theme with
  | light =>
      {| localStorage := localStorage browser;
         classList := classList_remove (classList browser) "dark" |}
  | dark => browser
  end.

(** The updater of [toggleTheme]. *)
Definition toggleTheme (prev : Theme) : Theme :=
  match prev with
  | light => dark
  | dark => light
  end.

(** The provider on the page: mounted with the initial theme, then its
    two effects. *)
Definition mount (browser : Browser) : Theme * Browser :=
  let theme := getInitialTheme (Some browser) in
  (theme, onMount theme (applyTheme theme browser)).

(** A click on the toggle, and the effect of the new theme. *)
Definition click (provider : Theme * Browser) : Theme * Browser :=
  let theme := toggleTheme (fst provider) in
  (theme, applyTheme theme (snd provider)).

End ThemeContext.

(* ===================================================================== *)
(** ** pages/Dashboard.tsx: loading the data *)
(* ===================================================================== *)

Module Dashboard.

(** [PaginatedResponse<T>] *)
Record PaginatedResponse (T : Type) : Type := {
  items : list T;
  total : Z;
  page : Z;
  page_size : Z;
  total_pages : Z;
  has_next : bool;
  has_previous : bool
}.

Arguments items {T} _.

Section WithStats.
(** [DashboardStats], which the page hands on without looking inside. *)
Variable DashboardStats : Type.

(** The state of the page component. *)
Record State : Type := {
  stats : option DashboardStats;
  opportunities : list Opportunity;
  latestSession : option CrawlSession;
  sources : list CrawlSource;
  loading : bool;
  error : option string;
  refreshing : bool
}.

Definition initial : State :=
  {| stats := None; opportunities := []; latestSession := None; sources := [];
     loading := true; error := None; refreshing := false |}.

(** The four requests of [fetchData], each fulfilled with its data or
    rejected ([None]). *)
Record Responses : Type := {
  statsData : option DashboardStats;
  oppsData : option (PaginatedResponse Opportunity);
  sessionsData : option (PaginatedResponse CrawlSession);
  sourcesData : option (PaginatedResponse CrawlSource)
}.

(** The state while the requests are in flight. *)
Definition fetchData_pending (showRefresh : bool) (s : State) : State :=
  {| stats := stats s; opportunities := opportunities s;
     latestSession := latestSession s; sources := sources s;
     loading := if showRefresh then loading s else true;
     error := None;
     refreshing := if showRefresh then true else refreshing s |}.

(** The state once [fetchData(showRefresh)] has run to its end. *)
Definition fetchData (showRefresh : bool) (r : Responses) (s : State) : State :=
  let s := fetchData_pending showRefresh s in
  match statsData r, oppsData r, sessionsData r, sourcesData r with
  | Some statsData, Some oppsData, Some sessionsData, Some sourcesData =>
      {| stats := Some statsData;
         opportunities := items oppsData;
         latestSession := nth_error (items sessionsData) 0;
         sources := items sourcesData;
         loading := false;
         error := error s;
         refreshing := false |}
  | _, _, _, _ =>
      {| stats := stats s; opportunities := opportunities s;
         latestSession := latestSession s; sources := sources s;
         loading := false;
         error := Some "Failed to load dashboard data. Please check if the backend is running.";
         refreshing := false |}
  end.

(** The banners above the cards. *)
Definition errorBanner (s : State) : bool :=
  match error s with Some msg => truthy msg | None => false end.

Definition infoBanner (s : State) : bool :=
  negb (errorBanner s)
  && match opportunities s with [] => true | _ :: _ => false end
  && negb (loading s).

End WithStats.

Arguments stats {DashboardStats} _.
Arguments opportunities {DashboardStats} _.
Arguments latestSession {DashboardStats} _.
Arguments sources {DashboardStats} _.
Arguments loading {DashboardStats} _.
Arguments error {DashboardStats} _.
Arguments refreshing {DashboardStats} _.
Arguments statsData {DashboardStats} _.
Arguments oppsData {DashboardStats} _.
Arguments sessionsData {DashboardStats} _.
Arguments sourcesData {DashboardStats} _.
Arguments fetchData_pending {DashboardStats} _ _.
Arguments fetchData {DashboardStats} _ _ _.
Arguments errorBanner {DashboardStats} _.
Arguments infoBanner {DashboardStats} _.

End Dashboard.

(* ===================================================================== *)
(** ** The display status as the specification words it *)
(* ===================================================================== *)

(** [resolveDisplayStatus], label only, from the contract of section 4.1:
    no session is [Ready]; a pending session that is not active is
    [Ready]; otherwise the status maps directly, and an unknown status
    falls back to [Ready]. *)
Definition resolveDisplayStatus (session_status : option string) (isActive : bool)
  : string :=
  match session_status with
  | None => "Ready"
  | Some st =>
      if String.eqb st "pending" then (if isActive then "Pending" else "Ready")
      else if String.eqb st "completed" then "Completed"
      else if String.eqb st "running" then "Running"
      else if String.eqb st "failed" then "Failed"
      else if String.eqb st "cancelled" then "Cancelled"
      else "Ready"
  end.

(** The units [formatDeadline] flags as urgent, in the specification's
    words: hours and days. *)
Definition hours_or_days (token : Token) : bool :=
  match token with
  | aboutXHours | xDays => true
  | _ => false
  end.

(* ===================================================================== *)
(** ** Sample payloads *)
(* ===================================================================== *)

(** A session in state [st] created at [created], nothing found yet. *)
Definition session_with (st created : string) : CrawlSession :=
  {| session_id := "session-1";
     session_source_id := "source-1";
     status := st;
     started_at := None;
     completed_at := None;
     opportunities_found := 0;
     last_error_message := None;
     created_at := created |}.

Definition sam_gov : CrawlSource :=
  {| source_id := "source-1"; source_name := "SAM.gov"; is_enabled := true |}.

(** An opportunity with the given legacy category and category list. *)
Definition opportunity_with
  (legacy : option string) (cats : option (list string)) : Opportunity :=
  {| opportunity_id := "opp-1";
     title := "ERP modernisation";
     category := legacy;
     categories := cats;
     submission_deadline := None |}.

(** 2024-01-01T00:00:00Z as a time value. *)
Definition new_year_2024 : Z := 1704067200000.

(* ===================================================================== *)
(** ** Running computations *)
(* ===================================================================== *)

Lemma run_bind {A B : Type} (clock : nat -> Z) (m : Eff A) (f : A -> Eff B) :
  forall n,
    run clock n (bind m f) =
    match run clock n m with
    | (Returned a, n') => run clock n' (f a)
    | (Thrown e, n') => (Thrown e, n')
    end.
Proof.
  induction m as [a | e | k IH]; intros n; simpl; try reflexivity.
  apply IH.
Qed.

Lemma run_try_catch {A : Type} (clock : nat -> Z) (m : Eff A) (h : Error -> Eff A) :
  forall n,
    run clock n (try_catch m h) =
    match run clock n m with
    | (Returned a, n') => (Returned a, n')
    | (Thrown e, n') => run clock n' (h e)
    end.
Proof.
  induction m as [a | e | k IH]; intros n; simpl; try reflexivity.
  apply IH.
Qed.

(** Under a clock that stands still the number of reads already made
    does not matter to the outcome. *)
Lemma run_at_time_shift {A : Type} (t : Z) (m : Eff A) :
  forall n, fst (run (at_time t) n m) = fst (run (at_time t) 0%nat m).
Proof.
  induction m as [a | e | k IH]; intros n; simpl; try reflexivity.
  unfold at_time at 2 4. rewrite (IH t (S n)), (IH t 1%nat). reflexivity.
Qed.

(* ===================================================================== *)
(** ** Arithmetic of the date-fns roundings *)
(* ===================================================================== *)

Lemma quot_minutes_lt_2 (ms : Z) : (Z.quot ms 60000 <? 2) = (ms <? 120000).
Proof.
  destruct (Z.ltb_spec ms 120000) as [Hlt | Hge].
  - apply Z.ltb_lt.
    destruct (Z.le_gt_cases 0 ms) as [Hpos | Hneg].
    + apply Z.quot_lt_upper_bound; lia.
    + pose proof (Z.quot_opp_l ms 60000 ltac:(lia)) as Hopp.
      pose proof (Z.quot_pos (- ms) 60000 ltac:(lia) ltac:(lia)). lia.
  - apply Z.ltb_ge.
    apply Z.quot_le_lower_bound; lia.
Qed.

Section SessionLiveness.
Context `{DateFns}.

(** A pending session: one read of the clock, compared with the parsed
    creation time. *)
Lemma run_isSessionActive_pending (clock : nat -> Z) (n : nat) (s : CrawlSession) :
  status s = "pending" ->
  run clock n (isSessionActive (Some s)) =
  (Returned (match parseISO (created_at s) with
             | Some c => clock n - c <? 120000
             | None => false
             end), S n).
Proof.
  intros Hst. unfold isSessionActive. rewrite Hst. simpl.
  destruct (parseISO (created_at s)) as [c |]; simpl; try reflexivity.
  rewrite quot_minutes_lt_2. reflexivity.
Qed.

Lemma run_isSessionActive_other (clock : nat -> Z) (n : nat) (s : CrawlSession) :
  status s <> "pending" ->
  run clock n (isSessionActive (Some s)) =
  (Returned (String.eqb (status s) "running"), n).
Proof.
  intros Hst. unfold isSessionActive.
  destruct (String.eqb_spec (status s) "running") as [Hr | Hr]; try reflexivity.
  destruct (String.eqb_spec (status s) "pending") as [Hp | Hp]; try reflexivity.
  contradiction.
Qed.

Lemma isSessionActive_never_throws (clock : nat -> Z) (n : nat)
  (session : option CrawlSession) :
  exists active n',
    run clock n (isSessionActive session) = (Returned active, n').
Proof.
  destruct session as [s |]; [| simpl; eauto].
  destruct (String.eqb_spec (status s) "pending") as [Hp | Hp].
  - rewrite (run_isSessionActive_pending clock n s Hp); eauto.
  - rewrite (run_isSessionActive_other clock n s Hp); eauto.
Qed.

End SessionLiveness.

(* ===================================================================== *)
(** ** Session liveness: the properties *)
(* ===================================================================== *)

Section SessionLivenessProperties.
Context `{DateFns}.

(** C1. For a session with status [pending] whose [created_at] parses to
    the instant [c], [isSessionActive] evaluated at reference time [t]
    returns true if and only if the elapsed time [t - c] is strictly
    less than 2 minutes (120000 ms); 119 seconds after creation it
    returns true, 120 seconds after creation it returns false. *)
Theorem isSessionActive_pending_two_minutes (s : CrawlSession) (c t : Z) :
  status s = "pending" ->
  parseISO (created_at s) = Some c ->
  result (at_time t) (isSessionActive (Some s)) = Returned (t - c <? 120000)
  /\ (result (at_time t) (isSessionActive (Some s)) = Returned true
      <-> t - c < 120000)
  /\ result (at_time (c + 119000)) (isSessionActive (Some s)) = Returned true
  /\ result (at_time (c + 120000)) (isSessionActive (Some s)) = Returned false.
Proof.
  intros Hst Hparse.
  assert (Hrun : forall t', result (at_time t') (isSessionActive (Some s))
                            = Returned (t' - c <? 120000)).
  { intros t'. unfold result.
    rewrite (run_isSessionActive_pending _ _ _ Hst), Hparse. reflexivity. }
  split; [apply Hrun |]. split.
  - rewrite Hrun. split.
    + intros [= Hb]. apply Z.ltb_lt. exact Hb.
    + intros Hlt. apply Z.ltb_lt in Hlt. rewrite Hlt. reflexivity.
  - rewrite !Hrun. split; f_equal.
    + apply Z.ltb_lt. lia.
    + apply Z.ltb_ge. lia.
Qed.

(** C4. [isSessionActive] returns true for every session with status
    [running], whatever its [created_at] and whatever the clock says;
    it returns false for every session with a terminal status
    ([completed], [failed], [cancelled]) and when there is no session;
    in none of these cases is the clock read. *)
Theorem isSessionActive_running_terminal_absent
  (clock : nat -> Z) (running terminal : CrawlSession) :
  status running = "running" ->
  status terminal = "completed" \/ status terminal = "failed"
    \/ status terminal = "cancelled" ->
  run clock 0%nat (isSessionActive (Some running)) = (Returned true, 0%nat)
  /\ run clock 0%nat (isSessionActive (Some terminal)) = (Returned false, 0%nat)
  /\ run clock 0%nat (isSessionActive None) = (Returned false, 0%nat).
Proof.
  intros Hrun Hterm. repeat split.
  - unfold isSessionActive. rewrite Hrun. reflexivity.
  - unfold isSessionActive.
    destruct Hterm as [-> | [-> | ->]]; reflexivity.
Qed.

(** C9, as amended.  [isSessionActive] resolves the reference time itself,
    by one read of the system clock for a pending session and none
    otherwise; its result is a function of the session and of that one
    reading, so that two runs on the same session whose clocks give the
    same first reading return the same result. *)
Theorem isSessionActive_resolves_time_once
  (clock1 clock2 : nat -> Z) (session : option CrawlSession) :
  clock1 0%nat = clock2 0%nat ->
  result clock1 (isSessionActive session) = result clock2 (isSessionActive session)
  /\ (clockReads clock1 (isSessionActive session) <= 1)%nat
  /\ clockReads clock1 (isSessionActive session)
     = match session with
       | Some s => if String.eqb (status s) "pending" then 1%nat else 0%nat
       | None => 0%nat
       end.
Proof.
  intros Hclock. unfold result, clockReads.
  destruct session as [s |]; [| simpl; auto].
  destruct (String.eqb_spec (status s) "pending") as [Hp | Hp].
  - rewrite !(run_isSessionActive_pending _ _ _ Hp), Hclock. simpl. auto.
  - rewrite !(run_isSessionActive_other _ _ _ Hp). simpl. auto.
Qed.

End SessionLivenessProperties.

(** C1 at a session created on 2024-01-01T00:00:00Z and looked at 90
    seconds later, on a host in UTC. *)
Lemma isSessionActive_pending_two_minutes_witness :
  result (at_time (new_year_2024 + 90000))
    (isSessionActive (H := UTC.host)
       (Some (session_with "pending" "2024-01-01T00:00:00Z")))
  = Returned true.
Proof.
  exact (proj1 (isSessionActive_pending_two_minutes (H := UTC.host)
                  (session_with "pending" "2024-01-01T00:00:00Z")
                  new_year_2024 (new_year_2024 + 90000)
                  eq_refl eq_refl)).
Defined.

(** C4 at a running session with an unreadable creation time and a failed
    session. *)
Lemma isSessionActive_running_terminal_absent_witness :
  run (at_time new_year_2024) 0%nat
    (isSessionActive (H := UTC.host) (Some (session_with "running" "yesterday")))
  = (Returned true, 0%nat).
Proof.
  exact (proj1 (isSessionActive_running_terminal_absent (H := UTC.host)
                  (at_time new_year_2024)
                  (session_with "running" "yesterday")
                  (session_with "failed" "2024-01-01T00:00:00Z")
                  eq_refl (or_intror (or_introl eq_refl)))).
Defined.

(** C9 as amended, at two clocks that agree on their first reading only. *)
Lemma isSessionActive_resolves_time_once_witness :
  result (fun i => new_year_2024 + 60000 * Z.of_nat i)
    (isSessionActive (H := UTC.host)
       (Some (session_with "pending" "2024-01-01T00:00:00Z")))
  = result (at_time new_year_2024)
      (isSessionActive (H := UTC.host)
         (Some (session_with "pending" "2024-01-01T00:00:00Z"))).
Proof.
  exact (proj1 (isSessionActive_resolves_time_once (H := UTC.host)
                  (fun i => new_year_2024 + 60000 * Z.of_nat i)
                  (at_time new_year_2024)
                  (Some (session_with "pending" "2024-01-01T00:00:00Z"))
                  eq_refl)).
Defined.

(** C9 as stated fails: on a pending session the resolver reads the system
    clock inside itself, and the same session gives two different results
    under two system times. *)
Lemma isSessionActive_reads_system_clock :
  let session := Some (session_with "pending" "2024-01-01T00:00:00Z") in
  clockReads (at_time new_year_2024) (isSessionActive (H := UTC.host) session)
  = 1%nat
  /\ result (at_time (new_year_2024 + 1000))
       (isSessionActive (H := UTC.host) session) = Returned true
  /\ result (at_time (new_year_2024 + 600000))
       (isSessionActive (H := UTC.host) session) = Returned false
  /\ ~ (forall (clock : nat -> Z) (s : option CrawlSession),
          clockReads clock (isSessionActive (H := UTC.host) s) = 0%nat).
Proof.
  cbv zeta. split; [vm_compute; reflexivity |].
  split; [vm_compute; reflexivity |].
  split; [vm_compute; reflexivity |].
  intros Hnone.
  specialize (Hnone (at_time new_year_2024)
                (Some (session_with "pending" "2024-01-01T00:00:00Z"))).
  vm_compute in Hnone. discriminate.
Qed.

(* ===================================================================== *)
(** ** The status badge and the Start Crawl button *)
(* ===================================================================== *)

Section StatusBadge.
Context `{DateFns}.

Lemma formatDistance_returns_or_throws (date baseDate : Date) (addSuffix : bool) :
  (exists words, formatDistance date baseDate addSuffix = Ret words)
  \/ (exists e, formatDistance date baseDate addSuffix = Throw e).
Proof.
  destruct date as [d |], baseDate as [b |]; simpl; eauto.
  destruct (distanceUnit d b) as [token count]. eauto.
Qed.

Lemma formatRelativeTime_never_throws (clock : nat -> Z) (n : nat)
  (dateStr : option string) :
  exists words n', run clock n (formatRelativeTime dateStr) = (Returned words, n').
Proof.
  destruct dateStr as [str |]; [| simpl; eauto].
  unfold formatRelativeTime.
  destruct (truthy str); simpl; [| eauto].
  rewrite run_try_catch.
  destruct (formatDistance_returns_or_throws
              (parseISO str) (Some (clock n)) true) as [[w Hw] | [e He]].
  - rewrite Hw. simpl. eauto.
  - rewrite He. simpl. eauto.
Qed.

(** The badge of a session, from the outcome of the liveness test. *)
Lemma run_getStatusBadge (clock : nat -> Z) (n : nat) (s : CrawlSession) :
  exists active n',
    run clock n (isSessionActive (Some s)) = (Returned active, n')
    /\ run clock n (getStatusBadge (Some s)) =
       (Returned
          (if String.eqb (status s) "pending" && negb active
           then Typed Ready
           else match getProperty config (status s) with
                | Own badge => Typed badge
                | Inherited key => PrototypeMember key
                | Undefined => Typed Ready
                end), n').
Proof.
  destruct (isSessionActive_never_throws clock n (Some s)) as (active & n' & Hrun).
  exists active, n'. split; [exact Hrun |].
  unfold getStatusBadge. rewrite run_bind, Hrun.
  destruct (String.eqb (status s) "pending" && negb active); reflexivity.
Qed.

Lemma getStatusBadge_never_throws (clock : nat -> Z) (n : nat)
  (session : option CrawlSession) :
  exists badge n', run clock n (getStatusBadge session) = (Returned badge, n').
Proof.
  destruct session as [s |]; [| simpl; eauto].
  destruct (run_getStatusBadge clock n s) as (active & n' & _ & Hrun).
  rewrite Hrun. eauto.
Qed.

(** The property read [config[status]] when the status names nothing on
    [Object.prototype]: the table of the specification. *)
Lemma config_label (st : string) (active : bool) :
  inherited st = false ->
  label_of
    (if String.eqb st "pending" && negb active
     then Typed Ready
     else match getProperty config st with
          | Own badge => Typed badge
          | Inherited key => PrototypeMember key
          | Undefined => Typed Ready
          end)
  = Some (if String.eqb st "pending" then (if active then "Pending" else "Ready")
          else if String.eqb st "completed" then "Completed"
          else if String.eqb st "running" then "Running"
          else if String.eqb st "failed" then "Failed"
          else if String.eqb st "cancelled" then "Cancelled"
          else "Ready").
Proof.
  intros Hproto. unfold getProperty, config. cbn [ownProperty].
  rewrite (String.eqb_sym "completed"), (String.eqb_sym "running"),
    (String.eqb_sym "pending"), (String.eqb_sym "failed"),
    (String.eqb_sym "cancelled").
  destruct (String.eqb_spec st "pending") as [-> | Hp].
  - destruct active; reflexivity.
  - simpl andb. cbv iota.
    destruct (String.eqb st "completed"); [reflexivity |].
    destruct (String.eqb st "running"); [reflexivity |].
    destruct (String.eqb st "failed"); [reflexivity |].
    destruct (String.eqb st "cancelled"); [reflexivity |].
    rewrite Hproto. reflexivity.
Qed.

(** Where the fallback of [getStatusBadge] works.  The label shown is
    [Ready] when there is no session, when the session is pending and not
    active, and when the status is unknown and does not name a property of
    [Object.prototype]; otherwise the status maps directly (completed,
    running, pending while active, failed, cancelled).  Whatever the
    status string, [getStatusBadge] returns and does not throw. *)
Theorem getStatusBadge_resolves_display_status
  (clock : nat -> Z) (s : CrawlSession) (any : option CrawlSession) :
  inherited (status s) = false ->
  result clock (displayedLabel None) = Returned (Some "Ready")
  /\ (exists active,
        result clock (isSessionActive (Some s)) = Returned active
        /\ result clock (displayedLabel (Some s))
           = Returned (Some (resolveDisplayStatus (Some (status s)) active)))
  /\ (exists badge, result clock (getStatusBadge any) = Returned badge).
Proof.
  intros Hproto. split; [reflexivity |]. split.
  - destruct (run_getStatusBadge clock 0%nat s) as (active & n' & Hact & Hrun).
    exists active. unfold result. rewrite Hact. split; [reflexivity |].
    unfold displayedLabel. rewrite run_bind, Hrun. simpl.
    rewrite (config_label _ active Hproto). reflexivity.
  - destruct (getStatusBadge_never_throws clock 0%nat any) as (badge & n' & Hrun).
    exists badge. unfold result. rewrite Hrun. reflexivity.
Qed.

(** What the component renders once loaded, for any clock: the button is
    disabled when the second liveness test says active or when there is
    no first source. *)
Lemma run_CrawlerStatus (clock : nat -> Z)
  (session : option CrawlSession) (sources : list CrawlSource) :
  exists badge n1 active n2 p n3,
    run clock 0%nat (getStatusBadge session) = (Returned badge, n1)
    /\ run clock n1 (isSessionActive session) = (Returned active, n2)
    /\ run clock 0%nat (CrawlerStatus session sources false) = (Returned (Loaded p), n3)
    /\ button_disabled p
       = active || match sources with [] => true | _ :: _ => false end.
Proof.
  destruct (getStatusBadge_never_throws clock 0%nat session) as (badge & n1 & Hb).
  destruct (isSessionActive_never_throws clock n1 session) as (active & n2 & Ha).
  set (lastCrawl :=
         or_else match session with
                 | Some s => or_else (completed_at s) (started_at s)
                 | None => None
                 end None).
  destruct (formatRelativeTime_never_throws clock n2 lastCrawl) as (w & n3 & Hw).
  exists badge, n1, active, n2.
  eexists. exists n3.
  split; [exact Hb |]. split; [exact Ha |].
  unfold CrawlerStatus. rewrite run_bind, Hb, run_bind, Ha.
  cbv iota. fold lastCrawl. rewrite run_bind, Hw. simpl run.
  split; [reflexivity |]. simpl.
  destruct sources; reflexivity.
Qed.

(** C5.  At reference time [t] the Start Crawl button is enabled if and
    only if a source exists and the current session, if any, is not
    active; with no source it is disabled whatever the session and the
    clock, and [handleStartCrawl] then requests nothing. *)
Theorem CrawlerStatus_can_trigger_crawl
  (t : Z) (clock : nat -> Z)
  (session : option CrawlSession) (sources : list CrawlSource) :
  (exists p active,
     result (at_time t) (isSessionActive session) = Returned active
     /\ result (at_time t) (CrawlerStatus session sources false) = Returned (Loaded p)
     /\ negb (button_disabled p)
        = match sources with [] => false | _ :: _ => true end && negb active)
  /\ (exists p,
        result clock (CrawlerStatus session [] false) = Returned (Loaded p)
        /\ button_disabled p = true)
  /\ handleStartCrawl [] = None.
Proof.
  split; [| split; [| reflexivity]].
  - destruct (run_CrawlerStatus (at_time t) session sources)
      as (badge & n1 & active & n2 & p & n3 & _ & Ha & Hrun & Hdis).
    exists p, active. unfold result.
    rewrite Hrun. simpl.
    split; [| split; [reflexivity |]].
    + pose proof (f_equal fst Ha) as Hfst. simpl in Hfst.
      rewrite run_at_time_shift in Hfst. exact Hfst.
    + rewrite Hdis. destruct sources, active; reflexivity.
  - destruct (run_CrawlerStatus clock session [])
      as (badge & n1 & active & n2 & p & n3 & _ & _ & Hrun & Hdis).
    exists p. unfold result. rewrite Hrun. split; [reflexivity |].
    rewrite Hdis. apply orb_true_r.
Qed.

End StatusBadge.

(** The display status of a stale pending session (ten minutes old), and
    of a session whose status the backend made up. *)
Lemma getStatusBadge_resolves_display_status_witness :
  result (at_time (new_year_2024 + 600000)) (displayedLabel (H := UTC.host) None)
  = Returned (Some "Ready")
  /\ (exists active,
        result (at_time (new_year_2024 + 600000))
          (isSessionActive (H := UTC.host)
             (Some (session_with "pending" "2024-01-01T00:00:00Z")))
        = Returned active
        /\ result (at_time (new_year_2024 + 600000))
             (displayedLabel (H := UTC.host)
                (Some (session_with "pending" "2024-01-01T00:00:00Z")))
           = Returned (Some (resolveDisplayStatus (Some "pending") active)))
  /\ (exists badge,
        result (at_time (new_year_2024 + 600000))
          (getStatusBadge (H := UTC.host)
             (Some (session_with "paused" "2024-01-01T00:00:00Z")))
        = Returned badge).
Proof.
  exact (getStatusBadge_resolves_display_status (H := UTC.host)
           (at_time (new_year_2024 + 600000))
           (session_with "pending" "2024-01-01T00:00:00Z")
           (Some (session_with "paused" "2024-01-01T00:00:00Z"))
           eq_refl).
Defined.

(** C2.  The fallback to [Ready] that [getStatusBadge] attempts with
    [config[session.status] || Ready] misses the unknown statuses that
    name a member of [Object.prototype].  [constructor] is not one of the
    five mapped statuses, so the display status of the specification is
    [Ready]; the read [config["constructor"]] finds
    [Object.prototype.constructor], which is truthy, so the function
    returns that member in place of the [Ready] badge and no label
    [Ready] is shown. *)
Lemma getStatusBadge_unknown_status_not_Ready :
  resolveDisplayStatus (Some "constructor") false = "Ready"
  /\ result (at_time new_year_2024)
       (getStatusBadge (H := UTC.host)
          (Some (session_with "constructor" "2024-01-01T00:00:00Z")))
     = Returned (PrototypeMember "constructor")
  /\ result (at_time new_year_2024)
       (displayedLabel (H := UTC.host)
          (Some (session_with "constructor" "2024-01-01T00:00:00Z")))
     <> Returned (Some "Ready").
Proof.
  split; [reflexivity |]. split; [vm_compute; reflexivity |].
  vm_compute. discriminate.
Qed.

(* ===================================================================== *)
(** ** Categories *)
(* ===================================================================== *)

Lemma toLowerCase_nonempty (c : string) :
  truthy (toLowerCase c) = true -> truthy c = true.
Proof. destruct c; simpl; auto. Qed.

(** A known code, in any case, reads its label off the table. *)
Lemma formatCategoryLabel_known (c l : string) :
  In (toLowerCase c, l) labels -> formatCategoryLabel (Some c) = Typed l.
Proof.
  intros Hin. unfold labels in Hin. simpl in Hin.
  assert (Hc : truthy c = true).
  { apply toLowerCase_nonempty.
    repeat (destruct Hin as [Heq | Hin];
            [injection Heq as Hcode _; rewrite <- Hcode; reflexivity |]).
    contradiction. }
  unfold formatCategoryLabel. rewrite Hc. simpl negb. cbv iota.
  repeat (destruct Hin as [Heq | Hin];
          [injection Heq as Hcode Hlabel; rewrite <- Hcode, <- Hlabel;
           reflexivity |]).
  contradiction.
Qed.

(** C7, as amended.  [formatCategoryLabel] maps the nine known codes
    through the fixed table whatever their case, so that [DYNAMICS] and
    [dynamics] both give [Dynamics 365]; [null] and the empty string map
    to [Other]; an unknown non-empty code whose lower-case form names no
    property of [Object.prototype] is returned verbatim. *)
Theorem formatCategoryLabel_table_case_insensitive
  (known l unknown : string) :
  In (toLowerCase known, l) labels ->
  truthy unknown = true ->
  ownProperty labels (toLowerCase unknown) = None ->
  inherited (toLowerCase unknown) = false ->
  formatCategoryLabel (Some known) = Typed l
  /\ formatCategoryLabel (Some unknown) = Typed unknown
  /\ formatCategoryLabel None = Typed "Other"
  /\ formatCategoryLabel (Some "") = Typed "Other"
  /\ formatCategoryLabel (Some "DYNAMICS") = Typed "Dynamics 365"
  /\ formatCategoryLabel (Some "dynamics") = Typed "Dynamics 365"
  /\ map (fun code => formatCategoryLabel (Some code))
       [ "dynamics"; "ai"; "iot"; "erp"; "staff_augmentation"; "cloud";
         "cybersecurity"; "data_analytics"; "other" ]
     = map Typed
         [ "Dynamics 365"; "AI/ML"; "IoT"; "ERP"; "Staff Aug"; "Cloud";
           "Cybersecurity"; "Analytics"; "Other" ].
Proof.
  intros Hknown Htruthy Hown Hproto.
  split; [apply formatCategoryLabel_known; exact Hknown |].
  split; [| repeat split].
  unfold formatCategoryLabel, getProperty.
  rewrite Htruthy, Hown, Hproto. reflexivity.
Qed.

(** C7 as amended, at [Erp] (known, mixed case) and [quantum] (unknown). *)
Lemma formatCategoryLabel_table_case_insensitive_witness :
  formatCategoryLabel (Some "Erp") = Typed "ERP"
  /\ formatCategoryLabel (Some "quantum") = Typed "quantum".
Proof.
  pose proof (formatCategoryLabel_table_case_insensitive "Erp" "ERP" "quantum"
                (or_intror (or_intror (or_intror (or_introl eq_refl))))
                eq_refl eq_refl eq_refl) as Hspec.
  exact (conj (proj1 Hspec) (proj1 (proj2 Hspec))).
Defined.

(** C7 as stated fails on two non-null codes that the table does not
    know: the empty string is not returned verbatim but mapped to [Other],
    and [constructor] is not returned verbatim either: the table read finds
    [Object.prototype.constructor]. *)
Lemma formatCategoryLabel_unknown_not_verbatim :
  ownProperty labels (toLowerCase "") = None
  /\ formatCategoryLabel (Some "") <> Typed ""
  /\ ownProperty labels (toLowerCase "constructor") = None
  /\ formatCategoryLabel (Some "constructor") <> Typed "constructor".
Proof.
  repeat split; try reflexivity; vm_compute; discriminate.
Qed.

(** C6.  [getPrimaryCategory] is a function of the opportunity alone: it
    returns the first element of [categories] when the list is present and
    non-empty; otherwise the legacy [category] when one is set; otherwise
    null.  So [["ai"; "erp"]] gives [ai], an empty list with legacy [iot]
    gives [iot], and an opportunity with neither gives null. *)
Theorem getPrimaryCategory_first_then_legacy
  (listed legacy bare : Opportunity) (first c : string) (rest : list string) :
  categories listed = Some (first :: rest) ->
  categories legacy = None \/ categories legacy = Some [] ->
  category legacy = Some c -> truthy c = true ->
  categories bare = None \/ categories bare = Some [] ->
  category bare = None ->
  getPrimaryCategory listed = Some first
  /\ getPrimaryCategory legacy = Some c
  /\ getPrimaryCategory bare = None
  /\ getPrimaryCategory (opportunity_with None (Some ["ai"; "erp"])) = Some "ai"
  /\ getPrimaryCategory (opportunity_with (Some "iot") (Some [])) = Some "iot"
  /\ getPrimaryCategory (opportunity_with None None) = None
  /\ (forall opp, exists! primary, getPrimaryCategory opp = primary).
Proof.
  intros Hlisted Hlegacy Hc Htruthy Hbare Hnone.
  unfold getPrimaryCategory.
  rewrite Hlisted, Hc, Hnone. simpl. rewrite Htruthy.
  repeat split.
  - destruct Hlegacy as [-> | ->]; reflexivity.
  - destruct Hbare as [-> | ->]; reflexivity.
  - intros opp. exists (getPrimaryCategory opp). split; [reflexivity |].
    intros primary <-. reflexivity.
Qed.

(** C6 at an opportunity the classifier labelled, one that only carries
    the legacy field, and one with neither. *)
Lemma getPrimaryCategory_first_then_legacy_witness :
  getPrimaryCategory (opportunity_with (Some "cloud") (Some ["ai"; "erp"])) = Some "ai"
  /\ getPrimaryCategory (opportunity_with (Some "iot") None) = Some "iot"
  /\ getPrimaryCategory (opportunity_with None (Some [])) = None.
Proof.
  pose proof (getPrimaryCategory_first_then_legacy
                (opportunity_with (Some "cloud") (Some ["ai"; "erp"]))
                (opportunity_with (Some "iot") None)
                (opportunity_with None (Some []))
                "ai" "iot" ["erp"]
                eq_refl (or_introl eq_refl) eq_refl eq_refl
                (or_intror eq_refl) eq_refl) as Hspec.
  exact (conj (proj1 Hspec)
           (conj (proj1 (proj2 Hspec)) (proj1 (proj2 (proj2 Hspec))))).
Defined.

(** C10.  The empty string counts as an absent category:
    [formatCategoryLabel] maps it to [Other], as it does null, and
    [getPrimaryCategory] of an opportunity whose [categories] is empty or
    absent and whose legacy [category] is the empty string is null, not
    the empty string. *)
Theorem empty_category_is_absent (opp : Opportunity) :
  categories opp = None \/ categories opp = Some [] ->
  category opp = Some "" ->
  formatCategoryLabel (Some "") = Typed "Other"
  /\ formatCategoryLabel (Some "") = formatCategoryLabel None
  /\ getPrimaryCategory opp = None
  /\ getPrimaryCategory opp <> Some "".
Proof.
  intros Hcats Hlegacy.
  assert (Hprimary : getPrimaryCategory opp = None).
  { unfold getPrimaryCategory. rewrite Hlegacy.
    destruct Hcats as [-> | ->]; reflexivity. }
  rewrite Hprimary. repeat split; discriminate.
Qed.

(** C10 at an opportunity with an empty list and an empty legacy field. *)
Lemma empty_category_is_absent_witness :
  getPrimaryCategory (opportunity_with (Some "") (Some [])) = None.
Proof.
  exact (proj1 (proj2 (proj2
    (empty_category_is_absent (opportunity_with (Some "") (Some []))
       (or_intror eq_refl) eq_refl)))).
Defined.

(* ===================================================================== *)
(** ** Searching the wording of a distance *)
(* ===================================================================== *)

Lemma prefix_head_mismatch (c x : ascii) (needle s : string) :
  c <> x -> prefix (String c needle) (String x s) = false.
Proof.
  intros Hneq. simpl. destruct (ascii_dec c x); [contradiction | reflexivity].
Qed.

(** A needle that starts with neither a digit nor a sign is not found
    any earlier for a number put in front of the text. *)
Lemma includes_skips_uint (c : ascii) (needle rest : string) (d : Decimal.uint) :
  is_digit c = false ->
  includes (NilEmpty.string_of_uint d ++ rest) (String c needle)
  = includes rest (String c needle).
Proof.
  intros Hc.
  induction d as [| d IH | d IH | d IH | d IH | d IH | d IH | d IH | d IH
                  | d IH | d IH];
    [reflexivity | ..];
    cbn [NilEmpty.string_of_uint append includes];
    rewrite prefix_head_mismatch, IH;
    try reflexivity; intros ->; discriminate.
Qed.

Lemma includes_skips_number (c : ascii) (needle rest : string) (n : Z) :
  is_digit c = false -> c <> "-"%char ->
  includes (Number_toString n ++ rest) (String c needle)
  = includes rest (String c needle).
Proof.
  intros Hc Hminus. unfold Number_toString.
  assert (Huint : forall d,
             includes (NilZero.string_of_uint d ++ rest) (String c needle)
             = includes rest (String c needle)).
  { intros d. destruct d; try apply (includes_skips_uint c needle rest _ Hc).
    cbn [NilZero.string_of_uint append includes].
    rewrite prefix_head_mismatch; [reflexivity | intros ->; discriminate]. }
  destruct (Z.to_int n) as [d | d]; cbn [NilZero.string_of_int].
  - apply Huint.
  - cbn [append includes].
    rewrite prefix_head_mismatch by exact Hminus. apply Huint.
Qed.

(** The test of [formatDeadline] on the wording of a unit: it finds
    [hour] or [day] exactly in the wordings of hours and days. *)
Lemma wording_mentions_hour_or_day (token : Token) (count comparison : Z) :
  includes (locale_formatDistance token count false comparison) "hour"
  || includes (locale_formatDistance token count false comparison) "day"
  = hours_or_days token.
Proof.
  unfold locale_formatDistance.
  destruct token; cbn [formatDistanceLocale hours_or_days];
    destruct (count =? 1); try reflexivity;
    cbn [append includes prefix];
    rewrite ?includes_skips_number by (reflexivity || discriminate);
    reflexivity.
Qed.

(* ===================================================================== *)
(** ** Deadlines and relative times *)
(* ===================================================================== *)

Section Deadlines.
Context `{DateFns}.

(** A string that reaches the parser and does not parse: the clock is read
    by [isPast] and by [formatDistanceToNow], which throws. *)
Lemma run_formatDeadline_invalid (clock : nat -> Z) (n : nat) (str : string) :
  truthy str = true -> parseISO str = None ->
  run clock n (formatDeadline (Some str))
  = (Returned {| text := "Invalid date"; urgent := false |}, S (S n)).
Proof.
  intros Htruthy Hparse. unfold formatDeadline.
  rewrite Htruthy, Hparse. reflexivity.
Qed.

(** A deadline before the first reading of the clock. *)
Lemma run_formatDeadline_past (clock : nat -> Z) (n : nat) (str : string) (d : Z) :
  truthy str = true -> parseISO str = Some d -> d < clock n ->
  run clock n (formatDeadline (Some str))
  = (Returned {| text := "Expired"; urgent := true |}, S n).
Proof.
  intros Htruthy Hparse Hpast. unfold formatDeadline.
  rewrite Htruthy, Hparse. simpl.
  apply Z.ltb_lt in Hpast. rewrite Hpast. reflexivity.
Qed.

(** A deadline not before the first reading: the distance is measured
    from the second reading. *)
Lemma run_formatDeadline_future (clock : nat -> Z) (n : nat) (str : string) (d : Z) :
  truthy str = true -> parseISO str = Some d -> clock n <= d ->
  run clock n (formatDeadline (Some str))
  = (Returned
       {| text := "in " ++ locale_formatDistance
                            (fst (distanceUnit d (clock (S n))))
                            (snd (distanceUnit d (clock (S n))))
                            false (compareAsc d (clock (S n)));
          urgent := hours_or_days (fst (distanceUnit d (clock (S n)))) |},
     S (S n)).
Proof.
  intros Htruthy Hparse Hfuture. unfold formatDeadline.
  rewrite Htruthy, Hparse. simpl.
  apply Z.ltb_ge in Hfuture. rewrite Hfuture. simpl.
  destruct (distanceUnit d (clock (S n))) as [token count]. simpl.
  rewrite wording_mentions_hour_or_day. reflexivity.
Qed.

Lemma formatDeadline_never_throws (clock : nat -> Z) (n : nat)
  (deadline : option string) :
  exists shown n', run clock n (formatDeadline deadline) = (Returned shown, n').
Proof.
  destruct deadline as [str |]; [| simpl; eauto].
  destruct (truthy str) eqn:Htruthy.
  - destruct (parseISO str) as [d |] eqn:Hparse.
    + destruct (Z.lt_ge_cases d (clock n)) as [Hpast | Hfuture].
      * rewrite (run_formatDeadline_past clock n str d); eauto.
      * rewrite (run_formatDeadline_future clock n str d); eauto.
    + rewrite (run_formatDeadline_invalid clock n str); eauto.
  - unfold formatDeadline. rewrite Htruthy. simpl. eauto.
Qed.

(** The unit of a distance is hours or days exactly from 45 rounded
    minutes up to, not including, 30 days. *)
Lemma distanceUnit_hours_or_days (date baseDate : Z) :
  hours_or_days (fst (distanceUnit date baseDate))
  = (45 <=? distanceInMinutes date baseDate)
    && (distanceInMinutes date baseDate <? MINUTES_IN_MONTH).
Proof.
  unfold distanceUnit, MINUTES_IN_DAY, MINUTES_IN_ALMOST_TWO_DAYS,
    MINUTES_IN_MONTH, MINUTES_IN_TWO_MONTHS.
  set (m := distanceInMinutes date baseDate).
  repeat match goal with
         | |- context [if ?b then _ else _] =>
             let Hb := fresh "Hb" in destruct b eqn:Hb
         end;
    cbn [fst hours_or_days];
    repeat match goal with
           | Hb : (_ <? _) = true |- _ => apply Z.ltb_lt in Hb
           | Hb : (_ <? _) = false |- _ => apply Z.ltb_ge in Hb
           | Hb : (_ =? _) = true |- _ => apply Z.eqb_eq in Hb
           | Hb : (_ =? _) = false |- _ => apply Z.eqb_neq in Hb
           end;
    repeat match goal with
           | |- context [?a <=? ?b] => destruct (Z.leb_spec a b)
           | |- context [?a <? ?b] => destruct (Z.ltb_spec a b)
           end;
    try reflexivity; exfalso; lia.
Qed.

(** The distance to an instant [ahead] milliseconds after the base date,
    on a host whose offset changes by [shift] in between. *)
Lemma distanceInMinutes_ahead (baseDate ahead : Z) :
  0 < ahead ->
  distanceInMinutes (baseDate + ahead) baseDate
  = Math_round_div
      (Z.quot ahead 1000 * 1000
       - (getTimezoneOffsetInMilliseconds (baseDate + ahead)
          - getTimezoneOffsetInMilliseconds baseDate)) 60000.
Proof.
  intros Hahead. unfold distanceInMinutes, compareAsc, differenceInSeconds.
  replace (baseDate + ahead - baseDate) with ahead by lia.
  destruct (Z.ltb_spec ahead 0) as [Hneg | _]; [lia |].
  destruct (Z.gtb_spec ahead 0) as [_ | Hle]; [| lia].
  simpl.
  replace (baseDate + ahead - baseDate) with ahead by lia.
  reflexivity.
Qed.

End Deadlines.

Section DeadlineProperties.
Context `{DateFns}.

Lemma distanceUnit_about_hours (date baseDate : Z) :
  90 <= distanceInMinutes date baseDate < 1440 ->
  fst (distanceUnit date baseDate) = aboutXHours.
Proof.
  intros [Hlo Hhi]. unfold distanceUnit, MINUTES_IN_DAY.
  set (m := distanceInMinutes date baseDate) in *.
  destruct (Z.ltb_spec m 2); [lia |].
  destruct (Z.ltb_spec m 45); [lia |].
  destruct (Z.ltb_spec m 90); [lia |].
  destruct (Z.ltb_spec m 1440); [reflexivity | lia].
Qed.

Lemma distanceUnit_days (date baseDate : Z) :
  2520 <= distanceInMinutes date baseDate < 43200 ->
  fst (distanceUnit date baseDate) = xDays.
Proof.
  intros [Hlo Hhi].
  unfold distanceUnit, MINUTES_IN_DAY, MINUTES_IN_ALMOST_TWO_DAYS, MINUTES_IN_MONTH.
  set (m := distanceInMinutes date baseDate) in *.
  destruct (Z.ltb_spec m 2); [lia |].
  destruct (Z.ltb_spec m 45); [lia |].
  destruct (Z.ltb_spec m 90); [lia |].
  destruct (Z.ltb_spec m 1440); [lia |].
  destruct (Z.ltb_spec m 2520); [lia |].
  destruct (Z.ltb_spec m 43200); [reflexivity | lia].
Qed.

(** Three hours ahead, with at most one hour of offset change: between
    two and four hours. *)
Lemma three_hours_ahead (t : Z) :
  Z.abs (getTimezoneOffsetInMilliseconds (t + 10800000)
         - getTimezoneOffsetInMilliseconds t) <= 3600000 ->
  fst (distanceUnit (t + 10800000) t) = aboutXHours.
Proof.
  intros Hshift. apply distanceUnit_about_hours.
  rewrite distanceInMinutes_ahead by lia.
  change (Z.quot 10800000 1000) with 10800.
  unfold Math_round_div.
  set (shift := getTimezoneOffsetInMilliseconds (t + 10800000)
                - getTimezoneOffsetInMilliseconds t) in *.
  split.
  - apply Z.div_le_lower_bound; lia.
  - apply Z.div_lt_upper_bound; lia.
Qed.

(** Ten days ahead, with at most one hour of offset change: ten days. *)
Lemma ten_days_ahead (t : Z) :
  Z.abs (getTimezoneOffsetInMilliseconds (t + 864000000)
         - getTimezoneOffsetInMilliseconds t) <= 3600000 ->
  fst (distanceUnit (t + 864000000) t) = xDays.
Proof.
  intros Hshift. apply distanceUnit_days.
  rewrite distanceInMinutes_ahead by lia.
  change (Z.quot 864000000 1000) with 864000.
  unfold Math_round_div.
  set (shift := getTimezoneOffsetInMilliseconds (t + 864000000)
                - getTimezoneOffsetInMilliseconds t) in *.
  split.
  - apply Z.div_le_lower_bound; lia.
  - apply Z.div_lt_upper_bound; lia.
Qed.

Lemma result_formatDeadline_future (t : Z) (str : string) (d : Z) :
  truthy str = true -> parseISO str = Some d -> t <= d ->
  result (at_time t) (formatDeadline (Some str))
  = Returned
      {| text := "in " ++ locale_formatDistance
                           (fst (distanceUnit d t)) (snd (distanceUnit d t))
                           false (compareAsc d t);
         urgent := hours_or_days (fst (distanceUnit d t)) |}.
Proof.
  intros Htruthy Hparse Hfuture. unfold result.
  rewrite (run_formatDeadline_future (at_time t) 0%nat str d Htruthy Hparse Hfuture).
  reflexivity.
Qed.

(** C3, as amended.  At reference time [t], on a host whose offset
    changes by at most an hour up to the deadline: a deadline 3 hours
    ahead is urgent; a deadline 10 days ahead is urgent too, being worded
    in days; a deadline in the past is [Expired] and urgent; no deadline
    is [No deadline] and not urgent.  A deadline not in the past reads
    [in] followed by the distance in words, and is urgent exactly when
    the unit of the distance is hours or days, that is from 45 rounded
    minutes up to 30 days; not for minutes, months or years. *)
Theorem formatDeadline_urgency
  (t : Z) (past future soon later : string) (dp df : Z) :
  truthy past = true -> parseISO past = Some dp -> dp < t ->
  truthy future = true -> parseISO future = Some df -> t <= df ->
  truthy soon = true -> parseISO soon = Some (t + 10800000) ->
  Z.abs (getTimezoneOffsetInMilliseconds (t + 10800000)
         - getTimezoneOffsetInMilliseconds t) <= 3600000 ->
  truthy later = true -> parseISO later = Some (t + 864000000) ->
  Z.abs (getTimezoneOffsetInMilliseconds (t + 864000000)
         - getTimezoneOffsetInMilliseconds t) <= 3600000 ->
  result (at_time t) (formatDeadline None)
  = Returned {| text := "No deadline"; urgent := false |}
  /\ result (at_time t) (formatDeadline (Some past))
     = Returned {| text := "Expired"; urgent := true |}
  /\ result (at_time t) (formatDeadline (Some future))
     = Returned
         {| text := "in " ++ locale_formatDistance
                              (fst (distanceUnit df t)) (snd (distanceUnit df t))
                              false (compareAsc df t);
            urgent := hours_or_days (fst (distanceUnit df t)) |}
  /\ hours_or_days (fst (distanceUnit df t))
     = (45 <=? distanceInMinutes df t)
       && (distanceInMinutes df t <? MINUTES_IN_MONTH)
  /\ (exists words,
        result (at_time t) (formatDeadline (Some soon))
        = Returned {| text := "in " ++ words; urgent := true |})
  /\ (exists words,
        result (at_time t) (formatDeadline (Some later))
        = Returned {| text := "in " ++ words; urgent := true |}).
Proof.
  intros Hp1 Hp2 Hp3 Hf1 Hf2 Hf3 Hs1 Hs2 Hs3 Hl1 Hl2 Hl3.
  split; [reflexivity |].
  split.
  { unfold result.
    rewrite (run_formatDeadline_past (at_time t) 0%nat past dp Hp1 Hp2 Hp3).
    reflexivity. }
  split; [apply (result_formatDeadline_future t future df Hf1 Hf2 Hf3) |].
  split; [apply distanceUnit_hours_or_days |].
  split.
  - eexists.
    rewrite (result_formatDeadline_future t soon _ Hs1 Hs2) by lia.
    rewrite (three_hours_ahead t Hs3). reflexivity.
  - eexists.
    rewrite (result_formatDeadline_future t later _ Hl1 Hl2) by lia.
    rewrite (ten_days_ahead t Hl3). reflexivity.
Qed.

(** C8, as amended.  No resolver throws, whatever its input.  A non-empty
    deadline string that does not parse gives [Invalid date], not urgent;
    [formatRelativeTime] gives [Never] for null and [Unknown] for a
    non-empty string that does not parse; a pending session whose
    [created_at] does not parse is not active.  The empty string does not
    reach the parser: it reads as an absent value, [No deadline] and
    [Never]. *)
Theorem resolvers_degrade_to_safe_defaults
  (clock : nat -> Z) (bad : string) (s : CrawlSession)
  (deadline dateStr : option string) (session : option CrawlSession) :
  truthy bad = true -> parseISO bad = None ->
  status s = "pending" -> parseISO (created_at s) = None ->
  result clock (formatDeadline (Some bad))
  = Returned {| text := "Invalid date"; urgent := false |}
  /\ result clock (formatRelativeTime None) = Returned "Never"
  /\ result clock (formatRelativeTime (Some bad)) = Returned "Unknown"
  /\ result clock (isSessionActive (Some s)) = Returned false
  /\ result clock (formatDeadline (Some ""))
     = Returned {| text := "No deadline"; urgent := false |}
  /\ result clock (formatRelativeTime (Some "")) = Returned "Never"
  /\ (exists shown, result clock (formatDeadline deadline) = Returned shown)
  /\ (exists words, result clock (formatRelativeTime dateStr) = Returned words)
  /\ (exists active, result clock (isSessionActive session) = Returned active)
  /\ (exists badge, result clock (getStatusBadge session) = Returned badge).
Proof.
  intros Htruthy Hparse Hpending Hcreated. unfold result.
  split.
  { rewrite (run_formatDeadline_invalid clock 0%nat bad Htruthy Hparse).
    reflexivity. }
  split; [reflexivity |].
  split.
  { unfold formatRelativeTime. rewrite Htruthy, Hparse. reflexivity. }
  split.
  { rewrite (run_isSessionActive_pending clock 0%nat s Hpending), Hcreated.
    reflexivity. }
  split; [reflexivity |]. split; [reflexivity |].
  split.
  { destruct (formatDeadline_never_throws clock 0%nat deadline) as (v & n & ->).
    exists v. reflexivity. }
  split.
  { destruct (formatRelativeTime_never_throws clock 0%nat dateStr) as (v & n & ->).
    exists v. reflexivity. }
  split.
  { destruct (isSessionActive_never_throws clock 0%nat session) as (v & n & ->).
    exists v. reflexivity. }
  destruct (getStatusBadge_never_throws clock 0%nat session) as (v & n & ->).
  exists v. reflexivity.
Qed.

End DeadlineProperties.

(** C3 as amended, on a host in UTC at 2024-01-01T00:00:00Z: a deadline
    one hour before, one three months ahead, one three hours ahead and one
    ten days ahead. *)
Lemma formatDeadline_urgency_witness :
  result (at_time new_year_2024)
    (formatDeadline (H := UTC.host) (Some "2023-12-31T23:00:00Z"))
  = Returned {| text := "Expired"; urgent := true |}
  /\ result (at_time new_year_2024)
       (formatDeadline (H := UTC.host) (Some "2024-04-01T00:00:00Z"))
     = Returned {| text := "in 3 months"; urgent := false |}.
Proof.
  pose proof (formatDeadline_urgency (H := UTC.host) new_year_2024
                "2023-12-31T23:00:00Z" "2024-04-01T00:00:00Z"
                "2024-01-01T03:00:00Z" "2024-01-11T00:00:00Z"
                (new_year_2024 - 3600000) (new_year_2024 + 7862400000)
                eq_refl eq_refl eq_refl
                eq_refl eq_refl ltac:(apply Z.leb_le; reflexivity)
                eq_refl eq_refl ltac:(apply Z.leb_le; reflexivity)
                eq_refl eq_refl ltac:(apply Z.leb_le; reflexivity)) as Hspec.
  exact (conj (proj1 (proj2 Hspec)) (proj1 (proj2 (proj2 Hspec)))).
Defined.

(** C3 as stated fails: a deadline 10 days after the reference time reads
    [in 10 days], which includes [day], and is flagged urgent. *)
Lemma formatDeadline_ten_days_is_urgent :
  UTC.parseISO "2024-01-11T00:00:00Z" = Some (new_year_2024 + 10 * 86400000)
  /\ result (at_time new_year_2024)
       (formatDeadline (H := UTC.host) (Some "2024-01-11T00:00:00Z"))
     = Returned {| text := "in 10 days"; urgent := true |}
  /\ ~ (exists shown,
          result (at_time new_year_2024)
            (formatDeadline (H := UTC.host) (Some "2024-01-11T00:00:00Z"))
          = Returned shown
          /\ urgent shown = false).
Proof.
  split; [vm_compute; reflexivity |].
  assert (Hrun : result (at_time new_year_2024)
                   (formatDeadline (H := UTC.host) (Some "2024-01-11T00:00:00Z"))
                 = Returned {| text := "in 10 days"; urgent := true |})
    by (vm_compute; reflexivity).
  split; [exact Hrun |].
  intros (shown & Hshown & Hurgent).
  rewrite Hrun in Hshown. injection Hshown as <-. discriminate.
Qed.

(** C8 as amended, on a host in UTC: a deadline and a creation time in
    plain words. *)
Lemma resolvers_degrade_to_safe_defaults_witness :
  result (at_time new_year_2024)
    (formatDeadline (H := UTC.host) (Some "next Tuesday"))
  = Returned {| text := "Invalid date"; urgent := false |}
  /\ result (at_time new_year_2024)
       (formatRelativeTime (H := UTC.host) (Some "next Tuesday"))
     = Returned "Unknown"
  /\ result (at_time new_year_2024)
       (isSessionActive (H := UTC.host) (Some (session_with "pending" "just now")))
     = Returned false.
Proof.
  pose proof (resolvers_degrade_to_safe_defaults (H := UTC.host)
                (at_time new_year_2024) "next Tuesday"
                (session_with "pending" "just now")
                (Some "2024-01-11T00:00:00Z") (Some "garbage")
                (Some (session_with "archived" "2024-01-01T00:00:00Z"))
                eq_refl eq_refl eq_refl eq_refl) as Hspec.
  exact (conj (proj1 Hspec)
           (conj (proj1 (proj2 (proj2 Hspec)))
                 (proj1 (proj2 (proj2 (proj2 Hspec)))))).
Defined.

(** C8 as stated fails on the empty string, which is a string that does
    not parse: it is given neither [Invalid date] nor [Unknown] but the
    answers for an absent value. *)
Lemma empty_string_is_not_reported_unparseable :
  UTC.parseISO "" = None
  /\ result (at_time new_year_2024) (formatDeadline (H := UTC.host) (Some ""))
     = Returned {| text := "No deadline"; urgent := false |}
  /\ result (at_time new_year_2024) (formatDeadline (H := UTC.host) (Some ""))
     <> Returned {| text := "Invalid date"; urgent := false |}
  /\ result (at_time new_year_2024) (formatRelativeTime (H := UTC.host) (Some ""))
     = Returned "Never"
  /\ result (at_time new_year_2024) (formatRelativeTime (H := UTC.host) (Some ""))
     <> Returned "Unknown".
Proof.
  split; [reflexivity |].
  split; [reflexivity |].
  split; [vm_compute; discriminate |].
  split; [reflexivity |].
  vm_compute; discriminate.
Qed.

(* ===================================================================== *)
(** ** The life of a crawl, as the dashboard shows it *)
(* ===================================================================== *)

(** The scenario of section 8 on a host in UTC: with no session the badge
    reads [Ready] and the button is enabled; a session created at the
    reference time shows [Pending] and disables the button one minute
    later; with no change of status it is back to [Ready], button
    enabled, three minutes after creation. *)
Example crawl_lifecycle_scenario :
  let created := Some (session_with "pending" "2024-01-01T00:00:00Z") in
  let shown t session :=
    match result (at_time t) (CrawlerStatus (H := UTC.host) session [sam_gov] false) with
    | Returned (Loaded p) => Some (label_of (panel_status p), button_disabled p)
    | _ => None
    end in
  shown new_year_2024 None = Some (Some "Ready", false)
  /\ shown (new_year_2024 + 60000) created = Some (Some "Pending", true)
  /\ shown (new_year_2024 + 180000) created = Some (Some "Ready", false).
Proof.
  cbv zeta. repeat split; vm_compute; reflexivity.
Qed.

(* ===================================================================== *)
(** ** More on the crawler status panel *)
(* ===================================================================== *)

Section CrawlerStatusPanel.
Context `{DateFns}.

(** Everything the loaded panel shows, from the three computations it is
    assembled from. *)
Lemma run_CrawlerStatus_panel (clock : nat -> Z)
  (session : option CrawlSession) (sources : list CrawlSource) :
  exists badge n1 active n2 ago n3,
    run clock 0%nat (getStatusBadge session) = (Returned badge, n1)
    /\ run clock n1 (isSessionActive session) = (Returned active, n2)
    /\ run clock n2
         (formatRelativeTime
            (or_else match session with
                     | Some s => or_else (completed_at s) (started_at s)
                     | None => None
                     end None))
       = (Returned ago, n3)
    /\ run clock 0%nat (CrawlerStatus session sources false)
       = (Returned
            (Loaded
               {| panel_status := badge;
                  button_disabled :=
                    active || match nth_error sources 0 with
                              | Some _ => false
                              | None => true
                              end;
                  button_text := if active then "Crawling..." else "Start Crawl";
                  last_crawl := ago;
                  found_last_run :=
                    match session with
                    | Some s => opportunities_found s
                    | None => 0
                    end |}), n3).
Proof.
  destruct (getStatusBadge_never_throws clock 0%nat session) as (badge & n1 & Hb).
  destruct (isSessionActive_never_throws clock n1 session) as (active & n2 & Ha).
  set (lastCrawl :=
         or_else match session with
                 | Some s => or_else (completed_at s) (started_at s)
                 | None => None
                 end None).
  destruct (formatRelativeTime_never_throws clock n2 lastCrawl) as (ago & n3 & Hw).
  exists badge, n1, active, n2, ago, n3.
  split; [exact Hb |]. split; [exact Ha |]. split; [exact Hw |].
  unfold CrawlerStatus. rewrite run_bind, Hb, run_bind, Ha.
  cbv iota. fold lastCrawl. rewrite run_bind, Hw. reflexivity.
Qed.

(** A status that names a property of [Object.prototype] is none of the
    five of the table. *)
Lemma inherited_not_in_config (st : string) :
  inherited st = true -> ownProperty config st = None.
Proof.
  intros Hin. unfold config. cbn [ownProperty].
  repeat match goal with
         | |- context [String.eqb ?k st] =>
             destruct (String.eqb_spec k st) as [<- | _];
             [vm_compute in Hin; discriminate |]
         end.
  reflexivity.
Qed.

(** The label of the badge is [Running] or [Pending] exactly when the
    liveness test that decided the badge said active. *)
Lemma badge_says_active (s : CrawlSession) (active : bool) :
  (String.eqb (status s) "pending" = false ->
   active = String.eqb (status s) "running") ->
  let shown :=
    label_of
      (if String.eqb (status s) "pending" && negb active
       then Typed Ready
       else match getProperty config (status s) with
            | Own badge => Typed badge
            | Inherited key => PrototypeMember key
            | Undefined => Typed Ready
            end) in
  active = true <-> (shown = Some "Running" \/ shown = Some "Pending").
Proof.
  intros Hother. cbv zeta.
  destruct (inherited (status s)) eqn:Hproto.
  - assert (Hp : String.eqb (status s) "pending" = false).
    { destruct (String.eqb_spec (status s) "pending") as [Heq | _]; [| reflexivity].
      rewrite Heq in Hproto. vm_compute in Hproto. discriminate. }
    rewrite Hp. cbn [andb]. unfold getProperty.
    rewrite (inherited_not_in_config _ Hproto), Hproto. cbn [label_of].
    rewrite (Hother Hp).
    destruct (String.eqb_spec (status s) "running") as [Heq | _].
    + rewrite Heq in Hproto. vm_compute in Hproto. discriminate.
    + split; [discriminate | intros [Hl | Hl]; discriminate].
  - rewrite (config_label (status s) active Hproto).
    destruct (String.eqb (status s) "pending") eqn:Hp.
    + destruct active; split; auto; try discriminate.
      intros [Hl | Hl]; discriminate.
    + rewrite (Hother eq_refl).
      destruct (String.eqb_spec (status s) "completed") as [Hc | _].
      { rewrite Hc. cbn. split; [discriminate | intros [Hl | Hl]; discriminate]. }
      destruct (String.eqb (status s) "running").
      { split; auto. }
      destruct (String.eqb (status s) "failed");
        [split; [discriminate | intros [Hl | Hl]; discriminate] |].
      destruct (String.eqb (status s) "cancelled");
        split; try discriminate; intros [Hl | Hl]; discriminate.
Qed.

(** X1.  At a reference time the badge and the button tell the same
    story: the button reads [Crawling...] exactly when the badge reads
    [Running] or [Pending], whatever the session and its status string. *)
Theorem CrawlerStatus_badge_agrees_with_button
  (t : Z) (session : option CrawlSession) (sources : list CrawlSource) :
  exists p,
    result (at_time t) (CrawlerStatus session sources false) = Returned (Loaded p)
    /\ (button_text p = "Crawling..."
        <-> (label_of (panel_status p) = Some "Running"
             \/ label_of (panel_status p) = Some "Pending")).
Proof.
  destruct (run_CrawlerStatus_panel (at_time t) session sources)
    as (badge & n1 & active & n2 & ago & n3 & Hb & Ha & _ & Hrun).
  eexists. unfold result. rewrite Hrun. split; [reflexivity |].
  cbn [button_text panel_status fst].
  assert (Hactive : (if active then "Crawling..." else "Start Crawl") = "Crawling..."
                    <-> active = true).
  { destruct active; split; auto; discriminate. }
  rewrite Hactive. clear Hactive Hrun.
  destruct session as [s |].
  - destruct (run_getStatusBadge (at_time t) 0%nat s) as (active0 & n' & Ha0 & Hb0).
    rewrite Hb0 in Hb. injection Hb as <- <-.
    assert (Hsame : active = active0).
    { pose proof (f_equal fst Ha) as H1. pose proof (f_equal fst Ha0) as H0.
      cbn [fst] in H1, H0. rewrite run_at_time_shift in H1.
      rewrite H1 in H0. injection H0 as H0. exact H0. }
    subst active0. apply badge_says_active.
    intros Hp.
    assert (Hne : status s <> "pending").
    { intros Heq. rewrite Heq in Hp. discriminate. }
    rewrite (run_isSessionActive_other _ _ _ Hne) in Ha0.
    injection Ha0 as <- _. reflexivity.
  - cbn in Hb, Ha. injection Hb as <- _. injection Ha as <- _.
    cbn. split; [discriminate | intros [Hl | Hl]; discriminate].
Qed.

(** X2.  The badge and the button each read the clock for themselves.
    When a pending session turns two minutes old between the two
    readings, the badge still reads [Pending] while the button is already
    enabled and reads [Start Crawl]. *)
Theorem CrawlerStatus_badge_and_button_read_the_clock_apart
  (clock : nat -> Z) (s : CrawlSession) (c : Z)
  (first : CrawlSource) (rest : list CrawlSource) :
  status s = "pending" ->
  parseISO (created_at s) = Some c ->
  clock 0%nat - c < 120000 ->
  120000 <= clock 1%nat - c ->
  exists p,
    result clock (CrawlerStatus (Some s) (first :: rest) false) = Returned (Loaded p)
    /\ label_of (panel_status p) = Some "Pending"
    /\ button_disabled p = false
    /\ button_text p = "Start Crawl".
Proof.
  intros Hst Hparse Hfresh Hstale.
  destruct (run_CrawlerStatus_panel clock (Some s) (first :: rest))
    as (badge & n1 & active & n2 & ago & n3 & Hb & Ha & _ & Hrun).
  destruct (run_getStatusBadge clock 0%nat s) as (active0 & n' & Ha0 & Hb0).
  rewrite Hb0 in Hb. injection Hb as <- <-.
  rewrite (run_isSessionActive_pending _ _ _ Hst), Hparse in Ha0.
  injection Ha0 as <- <-.
  rewrite (run_isSessionActive_pending _ _ _ Hst), Hparse in Ha.
  injection Ha as <- _.
  apply Z.ltb_lt in Hfresh. apply Z.ltb_ge in Hstale.
  rewrite Hfresh, Hstale in Hrun. rewrite Hst in Hrun.
  eexists. unfold result. rewrite Hrun. repeat split.
Qed.

(** X3.  Whenever the button can be clicked there is a source to start:
    an enabled button reads [Start Crawl], and [handleStartCrawl] then
    requests the crawl of the first source. *)
Theorem CrawlerStatus_enabled_button_starts_first_source
  (clock : nat -> Z) (session : option CrawlSession) (sources : list CrawlSource) :
  exists p,
    result clock (CrawlerStatus session sources false) = Returned (Loaded p)
    /\ (button_disabled p = false ->
        button_text p = "Start Crawl"
        /\ exists first rest,
             sources = first :: rest
             /\ handleStartCrawl sources = Some (source_id first)).
Proof.
  destruct (run_CrawlerStatus_panel clock session sources)
    as (badge & n1 & active & n2 & ago & n3 & _ & _ & _ & Hrun).
  eexists. unfold result. rewrite Hrun. split; [reflexivity |].
  cbn [button_disabled button_text fst].
  intros Henabled. apply orb_false_iff in Henabled as [-> Hsource].
  split; [reflexivity |].
  destruct sources as [| first rest]; [discriminate |].
  exists first, rest. split; reflexivity.
Qed.

End CrawlerStatusPanel.

(** X2 on a host in UTC: the session was created at midnight, the badge
    reads the clock at 00:01:59.999 and the button at 00:02:00. *)
Lemma CrawlerStatus_badge_and_button_read_the_clock_apart_witness :
  exists p,
    result (fun i => new_year_2024 + 119999 + Z.of_nat i)
      (CrawlerStatus (H := UTC.host)
         (Some (session_with "pending" "2024-01-01T00:00:00Z")) [sam_gov] false)
    = Returned (Loaded p)
    /\ label_of (panel_status p) = Some "Pending"
    /\ button_disabled p = false
    /\ button_text p = "Start Crawl".
Proof.
  exact (CrawlerStatus_badge_and_button_read_the_clock_apart (H := UTC.host)
           (fun i => new_year_2024 + 119999 + Z.of_nat i)
           (session_with "pending" "2024-01-01T00:00:00Z") new_year_2024
           sam_gov [] eq_refl eq_refl eq_refl
           ltac:(apply Z.leb_le; reflexivity)).
Defined.

(* ===================================================================== *)
(** ** More on relative times and deadlines *)
(* ===================================================================== *)

(** With [addSuffix] the locale puts the same words after [in] or before
    [ago]. *)
Lemma locale_formatDistance_suffix (token : Token) (count comparison : Z) :
  locale_formatDistance token count true comparison
  = if comparison >? 0
    then "in " ++ locale_formatDistance token count false comparison
    else locale_formatDistance token count false comparison ++ " ago".
Proof.
  unfold locale_formatDistance.
  destruct (formatDistanceLocale token) as [one [before after]].
  reflexivity.
Qed.

Lemma compareAsc_positive (date baseDate : Z) :
  (compareAsc date baseDate >? 0) = (baseDate <? date).
Proof.
  unfold compareAsc.
  destruct (Z.ltb_spec (date - baseDate) 0);
    [| destruct (Z.gtb_spec (date - baseDate) 0)];
    destruct (Z.ltb_spec baseDate date); try reflexivity; lia.
Qed.

Lemma ago_is_not_Never (words : string) : words ++ " ago" <> "Never".
Proof.
  destruct words as [| c1 [| c2 [| c3 [| c4 [| c5 [| c6 rest]]]]]];
    cbn; discriminate.
Qed.

Section RelativeTimes.
Context `{DateFns}.

(** A string that parses: one reading of the clock, and the distance in
    words with its suffix. *)
Lemma run_formatRelativeTime_valid (clock : nat -> Z) (n : nat)
  (str : string) (d : Z) :
  truthy str = true -> parseISO str = Some d ->
  run clock n (formatRelativeTime (Some str))
  = (Returned
       (let words := locale_formatDistance
                       (fst (distanceUnit d (clock n)))
                       (snd (distanceUnit d (clock n)))
                       false (compareAsc d (clock n)) in
        if clock n <? d then "in " ++ words else words ++ " ago"), S n).
Proof.
  intros Htruthy Hparse. unfold formatRelativeTime.
  rewrite Htruthy, Hparse. cbn.
  destruct (distanceUnit d (clock n)) as [token count]. cbn.
  rewrite locale_formatDistance_suffix, compareAsc_positive. reflexivity.
Qed.

Lemma run_formatRelativeTime_invalid (clock : nat -> Z) (n : nat) (str : string) :
  truthy str = true -> parseISO str = None ->
  run clock n (formatRelativeTime (Some str)) = (Returned "Unknown", S n).
Proof.
  intros Htruthy Hparse. unfold formatRelativeTime.
  rewrite Htruthy, Hparse. reflexivity.
Qed.

(** X4.  For a timestamp that parses, [formatRelativeTime] words the
    distance from the clock exactly as [formatDeadline] words it after
    [in], and appends [ago] when the timestamp is not after the clock; it
    puts [in] in front when the timestamp is still to come. *)
Theorem formatRelativeTime_ago_or_in
  (t : Z) (str : string) (d : Z) :
  truthy str = true -> parseISO str = Some d ->
  exists words,
    words = locale_formatDistance (fst (distanceUnit d t)) (snd (distanceUnit d t))
              false (compareAsc d t)
    /\ result (at_time t) (formatRelativeTime (Some str))
       = Returned (if t <? d then "in " ++ words else words ++ " ago")
    /\ (t <= d ->
        exists flag,
          result (at_time t) (formatDeadline (Some str))
          = Returned {| text := "in " ++ words; urgent := flag |}).
Proof.
  intros Htruthy Hparse. eexists. split; [reflexivity |]. split.
  - unfold result.
    rewrite (run_formatRelativeTime_valid (at_time t) 0%nat str d Htruthy Hparse).
    reflexivity.
  - intros Hfuture. eexists. unfold result.
    rewrite (run_formatDeadline_future (at_time t) 0%nat str d
               Htruthy Hparse Hfuture).
    reflexivity.
Qed.

(** [formatRelativeTime] answers [Never] only to a value that is absent
    or empty. *)
Lemma formatRelativeTime_Never (clock : nat -> Z) (n : nat)
  (dateStr : option string) :
  fst (run clock n (formatRelativeTime dateStr)) = Returned "Never"
  <-> or_else dateStr None = None.
Proof.
  destruct dateStr as [str |]; [| cbn; tauto].
  destruct (truthy str) eqn:Htruthy.
  - cbn [or_else]. rewrite Htruthy.
    destruct (parseISO str) as [d |] eqn:Hparse.
    + rewrite (run_formatRelativeTime_valid clock n str d Htruthy Hparse).
      cbn [fst]. cbv zeta.
      split; [| discriminate].
      destruct (clock n <? d); intros [= Heq].
      apply ago_is_not_Never in Heq. contradiction.
    + rewrite (run_formatRelativeTime_invalid clock n str Htruthy Hparse).
      cbn. split; discriminate.
  - unfold formatRelativeTime. cbn [or_else]. rewrite Htruthy. cbn. tauto.
Qed.

Lemma ago_is_not_Unknown (words : string) : words ++ " ago" <> "Unknown".
Proof.
  destruct words as [| c1 [| c2 [| c3 [| c4 [| c5 [| c6 [| c7 [| c8 rest]]]]]]]];
    cbn; discriminate.
Qed.

(** [formatRelativeTime] answers [Unknown] only to a string that is not
    empty and does not parse. *)
Lemma formatRelativeTime_Unknown (clock : nat -> Z) (n : nat)
  (dateStr : option string) :
  fst (run clock n (formatRelativeTime dateStr)) = Returned "Unknown"
  <-> exists str, or_else dateStr None = Some str /\ parseISO str = None.
Proof.
  destruct dateStr as [str |].
  2:{ cbn. split; [discriminate | intros (str & Hstr & _); discriminate]. }
  destruct (truthy str) eqn:Htruthy.
  - cbn [or_else]. rewrite Htruthy.
    destruct (parseISO str) as [d |] eqn:Hparse.
    + rewrite (run_formatRelativeTime_valid clock n str d Htruthy Hparse).
      cbn [fst]. cbv zeta. split.
      * destruct (clock n <? d); intros [= Heq].
        apply ago_is_not_Unknown in Heq. contradiction.
      * intros (str' & [= <-] & Hnone). congruence.
    + rewrite (run_formatRelativeTime_invalid clock n str Htruthy Hparse).
      cbn. split; [intros _; exists str; auto | reflexivity].
  - unfold formatRelativeTime. cbn [or_else]. rewrite Htruthy. cbn.
    split; [discriminate | intros (str' & Hstr & _); discriminate].
Qed.

(** X5.  The panel's Last Crawl line reads [Never] exactly when there is
    no session or the session has neither a [completed_at] nor a
    [started_at] to show (null and the empty string alike), and it reads
    [Unknown] exactly when the timestamp it shows, [completed_at] or else
    [started_at], is a non-empty string that does not parse. *)
Theorem CrawlerStatus_last_crawl_Never_or_Unknown
  (clock : nat -> Z) (session : option CrawlSession) (sources : list CrawlSource) :
  exists p,
    result clock (CrawlerStatus session sources false) = Returned (Loaded p)
    /\ (last_crawl p = "Never"
        <-> match session with
            | None => True
            | Some s =>
                or_else (completed_at s) None = None
                /\ or_else (started_at s) None = None
            end)
    /\ (last_crawl p = "Unknown"
        <-> exists s str,
              session = Some s
              /\ or_else (completed_at s) (started_at s) = Some str
              /\ truthy str = true
              /\ parseISO str = None).
Proof.
  destruct (run_CrawlerStatus_panel clock session sources)
    as (badge & n1 & active & n2 & ago & n3 & _ & _ & Hago & Hrun).
  eexists. unfold result. rewrite Hrun. split; [reflexivity |].
  cbn [last_crawl fst].
  pose proof (formatRelativeTime_Never clock n2
                (or_else match session with
                         | Some s => or_else (completed_at s) (started_at s)
                         | None => None
                         end None)) as Hnever.
  pose proof (formatRelativeTime_Unknown clock n2
                (or_else match session with
                         | Some s => or_else (completed_at s) (started_at s)
                         | None => None
                         end None)) as Hunknown.
  rewrite Hago in Hnever, Hunknown. cbn [fst] in Hnever, Hunknown.
  assert (Hret : forall w, ago = w <-> Returned ago = Returned w).
  { intros w. split; [intros ->; reflexivity | intros [= ->]; reflexivity]. }
  rewrite !Hret, Hnever, Hunknown. clear Hnever Hunknown Hret Hago Hrun.
  destruct session as [s |].
  2:{ cbn. split; [tauto |].
      split; [intros (str & Hstr & _); discriminate
             | intros (s & str & Hs & _); discriminate]. }
  split.
  - destruct (completed_at s) as [c |], (started_at s) as [b |]; cbn;
      repeat match goal with
             | |- context [truthy ?x] => destruct (truthy x) eqn:?; cbn
             end;
      repeat match goal with
             | Ht : truthy ?x = _ |- _ => rewrite Ht
             end;
      cbn; intuition (try discriminate; auto).
  - split.
    + intros (str & Hstr & Hnone). exists s, str.
      split; [reflexivity |].
      destruct (or_else (completed_at s) (started_at s)) as [shown |] eqn:Hshown;
        cbn in Hstr; [| discriminate].
      destruct (truthy shown) eqn:Htruthy; [| discriminate].
      cbn in Hstr. rewrite Htruthy in Hstr. injection Hstr as <-. auto.
    + intros (s' & str & [= <-] & Hshown & Htruthy & Hnone).
      exists str. rewrite Hshown. cbn [or_else]. rewrite Htruthy.
      cbn [or_else]. rewrite Htruthy. split; [reflexivity | exact Hnone].
Qed.

(** X6.  [formatPostedDate] puts [Posted] before what [formatRelativeTime]
    says of a timestamp that parses, and shows nothing at all for null,
    for the empty string and for a string that does not parse. *)
Theorem formatPostedDate_posted_or_nothing
  (clock : nat -> Z) (str bad : string) (d : Z) :
  truthy str = true -> parseISO str = Some d ->
  truthy bad = true -> parseISO bad = None ->
  (exists ago,
     result clock (formatRelativeTime (Some str)) = Returned ago
     /\ result clock (OpportunitiesTable.formatPostedDate (Some str))
        = Returned ("Posted " ++ ago))
  /\ result clock (OpportunitiesTable.formatPostedDate None) = Returned ""
  /\ result clock (OpportunitiesTable.formatPostedDate (Some "")) = Returned ""
  /\ result clock (OpportunitiesTable.formatPostedDate (Some bad)) = Returned "".
Proof.
  intros Htruthy Hparse Hbad Hnone.
  split; [| split; [reflexivity | split; [reflexivity |]]].
  - eexists. unfold result.
    rewrite (run_formatRelativeTime_valid clock 0%nat str d Htruthy Hparse).
    split; [reflexivity |].
    unfold OpportunitiesTable.formatPostedDate.
    rewrite Htruthy, Hparse. cbn.
    destruct (distanceUnit d (clock 0%nat)) as [token count]. cbn.
    rewrite locale_formatDistance_suffix, compareAsc_positive. reflexivity.
  - unfold result, OpportunitiesTable.formatPostedDate.
    rewrite Hbad, Hnone. reflexivity.
Qed.

(** X7.  At a reference time the four answers of [formatDeadline] do not
    overlap: [No deadline] is for an absent or empty value only, [Invalid
    date] for a non-empty string that does not parse only, [Expired] for
    a deadline before the reference time only, and an urgent answer is
    never one of the first two. *)
Theorem formatDeadline_answers_partition (t : Z) (deadline : option string) :
  exists shown,
    result (at_time t) (formatDeadline deadline) = Returned shown
    /\ (text shown = "No deadline" <-> or_else deadline None = None)
    /\ (text shown = "Invalid date"
        <-> exists str, deadline = Some str /\ truthy str = true
                        /\ parseISO str = None)
    /\ (text shown = "Expired"
        <-> exists str d, deadline = Some str /\ truthy str = true
                          /\ parseISO str = Some d /\ d < t)
    /\ (urgent shown = true ->
        text shown <> "No deadline" /\ text shown <> "Invalid date").
Proof.
  unfold result.
  destruct deadline as [str |].
  2:{ eexists. split; [reflexivity |]. cbn.
      split; [tauto |].
      split; [split; [discriminate | intros (s & Hs & _); discriminate] |].
      split; [split; [discriminate | intros (s & d & Hs & _); discriminate] |].
      discriminate. }
  destruct (truthy str) eqn:Htruthy.
  2:{ eexists. unfold formatDeadline. rewrite Htruthy. cbn.
      split; [reflexivity |]. cbn. rewrite Htruthy.
      repeat split; try discriminate; auto.
      - intros (s & [= <-] & Hs & _). congruence.
      - intros (s & d & [= <-] & Hs & _). congruence. }
  cbn [or_else]. rewrite Htruthy.
  destruct (parseISO str) as [d |] eqn:Hparse.
  - destruct (Z.lt_ge_cases d t) as [Hpast | Hfuture].
    + rewrite (run_formatDeadline_past (at_time t) 0%nat str d Htruthy Hparse Hpast).
      eexists. split; [reflexivity |]. cbn.
      repeat split; try discriminate.
      * intros (s & [= <-] & _ & Hs). congruence.
      * intros _. exists str, d. auto.
    + rewrite (run_formatDeadline_future (at_time t) 0%nat str d
                 Htruthy Hparse Hfuture).
      eexists. split; [reflexivity |]. cbn.
      repeat split; try discriminate.
      * intros (s & [= <-] & _ & Hs). congruence.
      * intros (s & d' & [= <-] & _ & Hd & Hlt).
        rewrite Hparse in Hd. injection Hd as <-. unfold at_time in Hfuture. lia.
  - rewrite (run_formatDeadline_invalid (at_time t) 0%nat str Htruthy Hparse).
    eexists. split; [reflexivity |]. cbn.
    repeat split; try discriminate.
    + intros _. exists str. auto.
    + intros (s & d & [= <-] & _ & Hd & _). congruence.
Qed.

End RelativeTimes.

(** X4 on a host in UTC: a crawl that ended an hour before the reference
    time. *)
Lemma formatRelativeTime_ago_or_in_witness :
  result (at_time new_year_2024)
    (formatRelativeTime (H := UTC.host) (Some "2023-12-31T23:00:00Z"))
  = Returned "about 1 hour ago".
Proof.
  destruct (formatRelativeTime_ago_or_in (H := UTC.host) new_year_2024
              "2023-12-31T23:00:00Z" (new_year_2024 - 3600000)
              eq_refl eq_refl) as (words & Hwords & Hrun & _).
  rewrite Hrun, Hwords. reflexivity.
Defined.

(** X6 on a host in UTC: a notice published two days before the reference
    time, and one dated in words. *)
Lemma formatPostedDate_posted_or_nothing_witness :
  result (at_time new_year_2024)
    (OpportunitiesTable.formatPostedDate (H := UTC.host) (Some "last week"))
  = Returned "".
Proof.
  exact (proj2 (proj2 (proj2
    (formatPostedDate_posted_or_nothing (H := UTC.host) (at_time new_year_2024)
       "2023-12-30T00:00:00Z" "last week" (new_year_2024 - 172800000)
       eq_refl eq_refl eq_refl eq_refl)))).
Defined.

(* ===================================================================== *)
(** ** The cells of the opportunities table, and their copies *)
(* ===================================================================== *)

(** Every label and every colour of the tables is a non-empty string. *)
Lemma labels_are_truthy (key l : string) :
  ownProperty labels key = Some l -> truthy l = true.
Proof.
  unfold labels. cbn [ownProperty].
  repeat match goal with
         | |- context [String.eqb ?k key] =>
             destruct (String.eqb k key); [intros [= <-]; reflexivity |]
         end.
  discriminate.
Qed.

Lemma colors_are_truthy (key c : string) :
  ownProperty OpportunitiesTable.colors key = Some c -> truthy c = true.
Proof.
  unfold OpportunitiesTable.colors. cbn [ownProperty].
  repeat match goal with
         | |- context [String.eqb ?k key] =>
             destruct (String.eqb k key); [intros [= <-]; reflexivity |]
         end.
  discriminate.
Qed.

Lemma statusConfig_labels_are_truthy (key : string) (b : Badge) :
  ownProperty OpportunitiesTable.statusConfig key = Some b ->
  truthy (label b) = true /\ truthy key = true.
Proof.
  unfold OpportunitiesTable.statusConfig. cbn [ownProperty].
  repeat match goal with
         | |- context [String.eqb ?k key] =>
             destruct (String.eqb_spec k key) as [<- | _];
             [intros [= <-]; split; reflexivity |]
         end.
  discriminate.
Qed.

(** A name that object literals inherit is no key of the two category
    tables. *)
Lemma inherited_not_a_category (key : string) :
  inherited key = true ->
  ownProperty labels key = None
  /\ ownProperty OpportunitiesTable.colors key = None.
Proof.
  intros Hin. unfold labels, OpportunitiesTable.colors. cbn [ownProperty].
  repeat match goal with
         | |- context [String.eqb ?k key] =>
             destruct (String.eqb_spec k key) as [<- | _];
             [vm_compute in Hin; discriminate |]
         end.
  split; reflexivity.
Qed.

Lemma truthy_toLowerCase (c : string) : truthy (toLowerCase c) = truthy c.
Proof. destruct c; reflexivity. Qed.

(** The label of a category that is not empty: the inherited member when
    its lower case names one, a string that is not empty otherwise. *)
Lemma formatCategoryLabel_cases (c : string) :
  truthy c = true ->
  if inherited (toLowerCase c)
  then formatCategoryLabel (Some c) = PrototypeMember (toLowerCase c)
  else exists l, formatCategoryLabel (Some c) = Typed l /\ truthy l = true.
Proof.
  intros Hc. unfold formatCategoryLabel, getProperty. rewrite Hc. cbn [negb].
  destruct (inherited (toLowerCase c)) eqn:Hin.
  - rewrite (proj1 (inherited_not_a_category _ Hin)). reflexivity.
  - destruct (ownProperty labels (toLowerCase c)) as [l |] eqn:Hown.
    + rewrite (labels_are_truthy _ _ Hown). exists l.
      split; [reflexivity | exact (labels_are_truthy _ _ Hown)].
    + exists c. split; [reflexivity | exact Hc].
Qed.

(** The colour of any category: the inherited member when its key names
    one, a class list that is not empty otherwise. *)
Lemma getCategoryColor_cases (category : option string) :
  if inherited (OpportunitiesTable.colorKey category)
  then OpportunitiesTable.getCategoryColor category
       = PrototypeMember (OpportunitiesTable.colorKey category)
  else exists c,
         OpportunitiesTable.getCategoryColor category = Typed c
         /\ truthy c = true.
Proof.
  unfold OpportunitiesTable.getCategoryColor, getProperty.
  destruct (inherited (OpportunitiesTable.colorKey category)) eqn:Hin.
  - rewrite (proj2 (inherited_not_a_category _ Hin)). reflexivity.
  - destruct (ownProperty OpportunitiesTable.colors
                (OpportunitiesTable.colorKey category)) as [c |] eqn:Hown.
    + rewrite (colors_are_truthy _ _ Hown). exists c.
      split; [reflexivity | exact (colors_are_truthy _ _ Hown)].
    + eexists. split; reflexivity.
Qed.

Lemma truthy_not_empty (s : string) : truthy s = true -> s <> "".
Proof. intros Hs ->. discriminate. Qed.

(** X8.  The category cell of a row shows a label and a colour class that
    are not empty exactly when the primary category, in lower case, does
    not name a member of [Object.prototype].  When it does, as
    [Constructor] does, both helpers return that inherited member in place
    of a string, so that the cell has no label to show.  An opportunity
    without any category reads [Other] in the colour of [other]. *)
Theorem category_cell_text_or_prototype_member (opp : Opportunity) :
  (inherited (OpportunitiesTable.colorKey (getPrimaryCategory opp)) = false
   <-> exists l c,
         formatCategoryLabel (getPrimaryCategory opp) = Typed l /\ l <> ""
         /\ OpportunitiesTable.getCategoryColor (getPrimaryCategory opp) = Typed c
         /\ c <> "")
  /\ (inherited (OpportunitiesTable.colorKey (getPrimaryCategory opp)) = true
      <-> formatCategoryLabel (getPrimaryCategory opp)
          = PrototypeMember (OpportunitiesTable.colorKey (getPrimaryCategory opp))
          /\ OpportunitiesTable.getCategoryColor (getPrimaryCategory opp)
             = PrototypeMember
                 (OpportunitiesTable.colorKey (getPrimaryCategory opp)))
  /\ (getPrimaryCategory opp = None ->
      formatCategoryLabel (getPrimaryCategory opp) = Typed "Other"
      /\ OpportunitiesTable.getCategoryColor (getPrimaryCategory opp)
         = OpportunitiesTable.getCategoryColor (Some "other"))
  /\ formatCategoryLabel
       (getPrimaryCategory (opportunity_with None (Some ["Constructor"; "erp"])))
     = PrototypeMember "constructor".
Proof.
  assert (Hcell :
    if inherited (OpportunitiesTable.colorKey (getPrimaryCategory opp))
    then formatCategoryLabel (getPrimaryCategory opp)
         = PrototypeMember (OpportunitiesTable.colorKey (getPrimaryCategory opp))
         /\ OpportunitiesTable.getCategoryColor (getPrimaryCategory opp)
            = PrototypeMember
                (OpportunitiesTable.colorKey (getPrimaryCategory opp))
    else exists l c,
           formatCategoryLabel (getPrimaryCategory opp) = Typed l /\ l <> ""
           /\ OpportunitiesTable.getCategoryColor (getPrimaryCategory opp)
              = Typed c
           /\ c <> "").
  { pose proof (getCategoryColor_cases (getPrimaryCategory opp)) as Hcolor.
    destruct (getPrimaryCategory opp) as [c |].
    - destruct (truthy c) eqn:Hc.
      + pose proof (formatCategoryLabel_cases c Hc) as Hlabel.
        unfold OpportunitiesTable.colorKey in *.
        rewrite truthy_toLowerCase, Hc in *.
        destruct (inherited (toLowerCase c)).
        * split; assumption.
        * destruct Hlabel as (l & Hl & Hlt), Hcolor as (k & Hk & Hkt).
          exists l, k. auto using truthy_not_empty.
      + destruct c; [| discriminate]. cbn in *.
        destruct Hcolor as (k & Hk & Hkt). exists "Other", k.
        split; [reflexivity |]. split; [discriminate |].
        auto using truthy_not_empty.
    - cbn in *. destruct Hcolor as (k & Hk & Hkt). exists "Other", k.
      split; [reflexivity |]. split; [discriminate |].
      auto using truthy_not_empty. }
  split; [| split; [| split; [| reflexivity]]].
  - destruct (inherited _).
    + split; [discriminate |].
      intros (l & c & Hl & _). destruct Hcell as [Hmember _]. congruence.
    + split; [intros _; exact Hcell | reflexivity].
  - destruct (inherited _).
    + split; [intros _; exact Hcell | reflexivity].
    + split; [discriminate |].
      intros [Hmember _]. destruct Hcell as (l & c & Hl & _). congruence.
  - intros ->. split; reflexivity.
Qed.

(** X9.  The status cell of a row shows the status itself when it is not
    one of the seven of the table (and names nothing on
    [Object.prototype]), and is blank for the empty status only; the
    lookup is case-sensitive, so [New] is shown as [New] in the fallback
    colour rather than in the colour of [new]. *)
Theorem status_cell_falls_back_to_the_status (status : string) :
  inherited status = false ->
  exists badge,
    OpportunitiesTable.getStatusBadge status = Typed badge
    /\ (label badge = "" <-> status = "")
    /\ (ownProperty OpportunitiesTable.statusConfig status = None ->
        badge = {| color := "bg-gray-100 text-gray-700"; label := status |})
    /\ OpportunitiesTable.getStatusBadge "New"
       = Typed {| color := "bg-gray-100 text-gray-700"; label := "New" |}.
Proof.
  intros Hproto. unfold OpportunitiesTable.getStatusBadge at 1, getProperty.
  destruct (ownProperty OpportunitiesTable.statusConfig status) as [b |] eqn:Hown.
  - exists b. split; [reflexivity |].
    destruct (statusConfig_labels_are_truthy _ _ Hown) as [Hl Hk].
    split; [| split; [discriminate | reflexivity]].
    split; intros Heq; rewrite Heq in *; discriminate.
  - rewrite Hproto. eexists. split; [reflexivity |].
    cbn [label]. split; [tauto |]. split; [reflexivity | reflexivity].
Qed.

(** X10.  The scanner page's copy of [getCategoryColor] agrees with the
    one of the table on every input, although its table has no entry for
    [other]: that entry holds the fallback colour. *)
Theorem getCategoryColor_copies_agree (category : option string) :
  RfpScanner.getCategoryColor category
  = OpportunitiesTable.getCategoryColor category.
Proof.
  unfold RfpScanner.getCategoryColor, OpportunitiesTable.getCategoryColor,
    getProperty, RfpScanner.colors, OpportunitiesTable.colors.
  generalize (OpportunitiesTable.colorKey category). intros key.
  cbn [ownProperty].
  repeat match goal with
         | |- context [String.eqb ?k key] =>
             destruct (String.eqb_spec k key) as [<- | _]; [reflexivity |]
         end.
  reflexivity.
Qed.

(** X11.  The scanner page's copy of [formatCategoryLabel] agrees with
    the one of the table except on [other] in any case: the table reads
    [Other], the copy, whose table has no such entry, returns the code as
    it came. *)
Theorem formatCategoryLabel_copies_differ_on_other
  (category : option string) (other : string) :
  String.eqb (OpportunitiesTable.colorKey category) "other" = false ->
  toLowerCase other = "other" ->
  RfpScanner.formatCategoryLabel category = formatCategoryLabel category
  /\ formatCategoryLabel (Some other) = Typed "Other"
  /\ RfpScanner.formatCategoryLabel (Some other) = Typed other.
Proof.
  intros Hkey Hother. split; [| split].
  - unfold RfpScanner.formatCategoryLabel, formatCategoryLabel.
    destruct category as [c |]; [| reflexivity].
    destruct (truthy c) eqn:Hc; cbn [negb]; [| reflexivity].
    unfold OpportunitiesTable.colorKey in Hkey.
    assert (Hk : String.eqb (toLowerCase c) "other" = false).
    { destruct (toLowerCase c) as [| a r]; [reflexivity | exact Hkey]. }
    revert Hk. generalize (toLowerCase c). intros key Hk.
    unfold getProperty, RfpScanner.labels, labels. cbn [ownProperty].
    repeat match goal with
           | |- context [String.eqb ?k key] =>
               destruct (String.eqb_spec k key) as [<- | _];
               [first [reflexivity | discriminate] |]
           end.
    reflexivity.
  - apply formatCategoryLabel_known. rewrite Hother.
    unfold labels. cbn. tauto.
  - unfold RfpScanner.formatCategoryLabel.
    assert (Hc : truthy other = true).
    { apply toLowerCase_nonempty. rewrite Hother. reflexivity. }
    rewrite Hc, Hother. reflexivity.
Qed.

(** X12.  The scanner page's copy of the opportunity [getStatusBadge]
    agrees with the one of the table except on [archived]: the table
    reads [Archived], the copy shows [archived] in the fallback colour. *)
Theorem getStatusBadge_copies_differ_on_archived (status : string) :
  String.eqb status "archived" = false ->
  RfpScanner.getStatusBadge status = OpportunitiesTable.getStatusBadge status
  /\ OpportunitiesTable.getStatusBadge "archived"
     = Typed {| color := "bg-gray-100 text-gray-500"; label := "Archived" |}
  /\ RfpScanner.getStatusBadge "archived"
     = Typed {| color := "bg-gray-100 text-gray-700"; label := "archived" |}.
Proof.
  intros Hst. split; [| split; reflexivity].
  unfold RfpScanner.getStatusBadge, OpportunitiesTable.getStatusBadge,
    getProperty, RfpScanner.config, OpportunitiesTable.statusConfig.
  cbn [ownProperty].
  rewrite (String.eqb_sym "archived" status), Hst.
  reflexivity.
Qed.

(** X11 at [AI], on which the copies agree, and [OTHER], on which they do
    not. *)
Lemma formatCategoryLabel_copies_differ_on_other_witness :
  RfpScanner.formatCategoryLabel (Some "AI") = formatCategoryLabel (Some "AI")
  /\ formatCategoryLabel (Some "OTHER") = Typed "Other"
  /\ RfpScanner.formatCategoryLabel (Some "OTHER") = Typed "OTHER".
Proof.
  exact (formatCategoryLabel_copies_differ_on_other (Some "AI") "OTHER"
           eq_refl eq_refl).
Defined.

(** X12 at [expired]. *)
Lemma getStatusBadge_copies_differ_on_archived_witness :
  RfpScanner.getStatusBadge "expired" = OpportunitiesTable.getStatusBadge "expired".
Proof.
  exact (proj1 (getStatusBadge_copies_differ_on_archived "expired" eq_refl)).
Defined.

(** X9 at [New], which is not [new]. *)
Lemma status_cell_falls_back_to_the_status_witness :
  exists badge,
    OpportunitiesTable.getStatusBadge "New" = Typed badge
    /\ (label badge = "" <-> "New" = "").
Proof.
  destruct (status_cell_falls_back_to_the_status "New" eq_refl)
    as (badge & Hbadge & Hblank & _).
  exists badge. split; [exact Hbadge | exact Hblank].
Defined.

(* ===================================================================== *)
(** ** The scanner page: categories, URLs, pages and requests *)
(* ===================================================================== *)

Lemma Array_includes_In (array : list string) (value : string) :
  Array_includes array value = true <-> In value array.
Proof.
  unfold Array_includes. rewrite existsb_exists. split.
  - intros (x & Hin & Heq). apply String.eqb_eq in Heq. subst. exact Hin.
  - intros Hin. exists value. split; [exact Hin | apply String.eqb_refl].
Qed.

Lemma Array_includes_not_In (array : list string) (value : string) :
  Array_includes array value = false <-> ~ In value array.
Proof.
  rewrite <- Array_includes_In. destruct (Array_includes array value); split;
    congruence.
Qed.

Lemma In_without (l : list string) (gone x : string) :
  In x (filter (fun c => negb (String.eqb c gone)) l) <-> In x l /\ x <> gone.
Proof.
  rewrite filter_In.
  destruct (String.eqb_spec x gone) as [-> | Hne]; cbn; intuition congruence.
Qed.

Lemma without_absent (l : list string) (gone : string) :
  ~ In gone l -> filter (fun c => negb (String.eqb c gone)) l = l.
Proof.
  induction l as [| x l IH]; intros Hnot; [reflexivity |].
  cbn. destruct (String.eqb_spec x gone) as [-> | _].
  - exfalso. apply Hnot. left. reflexivity.
  - cbn. rewrite IH; [reflexivity |]. intros Hin. apply Hnot. right. exact Hin.
Qed.

Lemma without_appended (l : list string) (gone : string) :
  ~ In gone l -> filter (fun c => negb (String.eqb c gone)) (l ++ [gone]) = l.
Proof.
  intros Hnot. rewrite filter_app, (without_absent l gone Hnot). cbn.
  rewrite String.eqb_refl. cbn. apply app_nil_r.
Qed.

Lemma In_toggle (value x : string) (prev : list string) :
  In x (RfpScanner.toggle value prev)
  <-> (x = value /\ ~ In value prev) \/ (x <> value /\ In x prev).
Proof.
  unfold RfpScanner.toggle.
  destruct (Array_includes prev value) eqn:Hinc.
  - apply Array_includes_In in Hinc. rewrite In_without.
    intuition congruence.
  - apply Array_includes_not_In in Hinc. rewrite in_app_iff. cbn.
    destruct (String.eqb_spec x value) as [-> | Hne]; intuition congruence.
Qed.

Lemma NoDup_toggle (value : string) (prev : list string) :
  NoDup prev -> NoDup (RfpScanner.toggle value prev).
Proof.
  intros Hnd. unfold RfpScanner.toggle.
  destruct (Array_includes prev value) eqn:Hinc.
  - apply NoDup_filter. exact Hnd.
  - apply Array_includes_not_In in Hinc.
    apply NoDup_app; [exact Hnd | repeat constructor; auto | ].
    intros x Hx [<- | []]. contradiction.
Qed.

(** X13.  [toggleCategory] flips the tick of the category it is given
    and of no other: afterwards the checkbox of [value] is checked exactly
    when it was not, and every other checkbox is as before. *)
Theorem toggleCategory_flips_one_checkbox (value x : string) (s : RfpScanner.State) :
  Array_includes (RfpScanner.selectedCategories (RfpScanner.toggleCategory value s)) x
  = if String.eqb x value
    then negb (Array_includes (RfpScanner.selectedCategories s) value)
    else Array_includes (RfpScanner.selectedCategories s) x.
Proof.
  cbn [RfpScanner.toggleCategory RfpScanner.setSelectedCategories
       RfpScanner.selectedCategories].
  set (prev := RfpScanner.selectedCategories s).
  pose proof (In_toggle value x prev) as Hin.
  destruct (String.eqb_spec x value) as [-> | Hne].
  - destruct (Array_includes prev value) eqn:Hold; cbn.
    + apply Array_includes_In in Hold. apply Array_includes_not_In.
      intuition congruence.
    + apply Array_includes_not_In in Hold. apply Array_includes_In.
      intuition congruence.
  - destruct (Array_includes prev x) eqn:Hold.
    + apply Array_includes_In in Hold. apply Array_includes_In.
      intuition congruence.
    + apply Array_includes_not_In in Hold. apply Array_includes_not_In.
      intuition congruence.
Qed.

(** X14.  However the eight checkboxes are clicked, the selection never
    holds a category twice nor one that is not offered, so it never has
    more than eight entries. *)
Theorem selectedCategories_stay_distinct (clicks : list string) :
  Forall (fun v => In v (map fst RfpScanner.CATEGORIES)) clicks ->
  let s := fold_left (fun s v => RfpScanner.toggleCategory v s) clicks
             RfpScanner.initial in
  NoDup (RfpScanner.selectedCategories s)
  /\ incl (RfpScanner.selectedCategories s) (map fst RfpScanner.CATEGORIES)
  /\ (length (RfpScanner.selectedCategories s) <= 8)%nat.
Proof.
  intros Hclicks. cbv zeta.
  assert (Hinv : forall s,
             NoDup (RfpScanner.selectedCategories s)
             /\ incl (RfpScanner.selectedCategories s) (map fst RfpScanner.CATEGORIES) ->
             NoDup (RfpScanner.selectedCategories
                      (fold_left (fun s v => RfpScanner.toggleCategory v s) clicks s))
             /\ incl (RfpScanner.selectedCategories
                        (fold_left (fun s v => RfpScanner.toggleCategory v s) clicks s))
                  (map fst RfpScanner.CATEGORIES)).
  { induction Hclicks as [| v clicks Hv _ IH]; intros s [Hnd Hincl];
      [split; assumption |].
    cbn [fold_left]. apply IH.
    cbn [RfpScanner.toggleCategory RfpScanner.setSelectedCategories
         RfpScanner.selectedCategories].
    split; [apply NoDup_toggle; exact Hnd |].
    intros x Hx. apply In_toggle in Hx as [[-> _] | [_ Hx]];
      [exact Hv | apply Hincl; exact Hx]. }
  destruct (Hinv RfpScanner.initial) as [Hnd Hincl].
  { split; [| apply incl_refl].
    cbn. repeat constructor; cbn; intuition discriminate. }
  repeat split; [exact Hnd | exact Hincl |].
  apply (NoDup_incl_length Hnd Hincl).
Qed.

(** X15.  Clicking a checkbox twice leaves the same categories ticked;
    when the category was not ticked the selection is the very same list
    again, and when it was ticked, it has moved to the end. *)
Theorem toggleCategory_twice (value : string) (s : RfpScanner.State) :
  let twice := RfpScanner.toggleCategory value (RfpScanner.toggleCategory value s) in
  (forall x,
     Array_includes (RfpScanner.selectedCategories twice) x
     = Array_includes (RfpScanner.selectedCategories s) x)
  /\ RfpScanner.selectedCategories twice
     = if Array_includes (RfpScanner.selectedCategories s) value
       then (filter (fun c => negb (String.eqb c value))
               (RfpScanner.selectedCategories s) ++ [value])%list
       else RfpScanner.selectedCategories s.
Proof.
  cbv zeta. split.
  - intros x.
    cbn [RfpScanner.toggleCategory RfpScanner.setSelectedCategories
         RfpScanner.selectedCategories].
    set (prev := RfpScanner.selectedCategories s).
    pose proof (In_toggle value x (RfpScanner.toggle value prev)) as Hsecond.
    pose proof (In_toggle value x prev) as Hfirst.
    pose proof (In_toggle value value prev) as Hvalue.
    destruct (Array_includes prev x) eqn:Hold;
      [apply Array_includes_In in Hold; apply Array_includes_In
      |apply Array_includes_not_In in Hold; apply Array_includes_not_In];
      destruct (String.eqb_spec x value) as [Heq | Hne];
      try (rewrite Heq in *); intuition congruence.
  - cbn [RfpScanner.toggleCategory RfpScanner.setSelectedCategories
         RfpScanner.selectedCategories].
    set (prev := RfpScanner.selectedCategories s).
    unfold RfpScanner.toggle at 2.
    destruct (Array_includes prev value) eqn:Hold.
    + unfold RfpScanner.toggle.
      assert (Hgone : Array_includes
                        (filter (fun c => negb (String.eqb c value)) prev) value
                      = false).
      { apply Array_includes_not_In. rewrite In_without. tauto. }
      rewrite Hgone. reflexivity.
    + unfold RfpScanner.toggle.
      assert (Hthere : Array_includes (prev ++ [value])%list value = true).
      { apply Array_includes_In. apply in_or_app. right. left. reflexivity. }
      rewrite Hthere. apply without_appended.
      apply Array_includes_not_In. exact Hold.
Qed.

(** X14 at three clicks: [ai] off, [erp] off, [ai] on again. *)
Lemma selectedCategories_stay_distinct_witness :
  NoDup (RfpScanner.selectedCategories
           (fold_left (fun s v => RfpScanner.toggleCategory v s)
              ["ai"; "erp"; "ai"] RfpScanner.initial)).
Proof.
  refine (proj1 (selectedCategories_stay_distinct ["ai"; "erp"; "ai"] _)).
  repeat constructor; cbn; tauto.
Defined.

Lemma trimEnd_keeps_head (c : ascii) (rest : string) :
  isWhiteSpace c = false -> trimEnd (String c rest) = String c (trimEnd rest).
Proof.
  intros Hc. cbn. rewrite Hc. destruct (trimEnd rest); reflexivity.
Qed.

Lemma trimEnd_cons (c : ascii) (rest : string) :
  trimEnd (String c rest)
  = match trimEnd rest with
    | EmptyString => if isWhiteSpace c then EmptyString else String c EmptyString
    | kept => String c kept
    end.
Proof. reflexivity. Qed.

Lemma trimEnd_idempotent (s : string) : trimEnd (trimEnd s) = trimEnd s.
Proof.
  induction s as [| c rest IH]; [reflexivity |].
  rewrite trimEnd_cons. destruct (trimEnd rest) as [| k kept].
  - destruct (isWhiteSpace c) eqn:Hc; [reflexivity |].
    rewrite trimEnd_cons. cbn [trimEnd]. rewrite Hc. reflexivity.
  - rewrite trimEnd_cons, IH. reflexivity.
Qed.

Lemma trimStart_shape (s : string) :
  trimStart s = "" \/ exists c rest, trimStart s = String c rest
                                     /\ isWhiteSpace c = false.
Proof.
  induction s as [| c rest IH]; [left; reflexivity |].
  cbn. destruct (isWhiteSpace c) eqn:Hc; [exact IH |].
  right. exists c, rest. split; [reflexivity | exact Hc].
Qed.

(** Trimming what is trimmed changes nothing. *)
Lemma trim_idempotent (s : string) : trim (trim s) = trim s.
Proof.
  unfold trim.
  destruct (trimStart_shape s) as [-> | (c & rest & -> & Hc)]; [reflexivity |].
  rewrite (trimEnd_keeps_head c rest Hc). cbn [trimStart]. rewrite Hc.
  rewrite <- (trimEnd_keeps_head c rest Hc). apply trimEnd_idempotent.
Qed.

Section ScannerUrls.
Context `{Platform}.

(** What holds of every URL on the list. *)
Let listed (u : string) : Prop :=
  trim u = u /\ truthy u = true
  /\ exists parsed, new_URL u = Some parsed
                    /\ OpportunitiesTable.getUrlHostname (Some u) = hostname parsed.

Lemma handleAddUrl_keeps_list_clean (s : RfpScanner.State) :
  NoDup (RfpScanner.urlList s) /\ Forall listed (RfpScanner.urlList s) ->
  NoDup (RfpScanner.urlList (RfpScanner.handleAddUrl s))
  /\ Forall listed (RfpScanner.urlList (RfpScanner.handleAddUrl s)).
Proof.
  intros [Hnd Hall]. unfold RfpScanner.handleAddUrl.
  set (u := trim (RfpScanner.targetUrl s)).
  destruct (truthy u) eqn:Hu; cbn [negb]; [| split; assumption].
  destruct (new_URL u) as [parsed |] eqn:Hparse; [| split; assumption].
  destruct (Array_includes (RfpScanner.urlList s) u) eqn:Hinc;
    [split; assumption |].
  apply Array_includes_not_In in Hinc. cbn. split.
  - apply NoDup_app; [exact Hnd | repeat constructor; auto |].
    intros x Hx [<- | []]. contradiction.
  - apply Forall_app. split; [exact Hall |].
    constructor; [| constructor].
    split; [apply trim_idempotent |]. split; [exact Hu |].
    exists parsed. split; [exact Hparse |].
    unfold OpportunitiesTable.getUrlHostname. rewrite Hu, Hparse. reflexivity.
Qed.

(** X16.  Whatever is typed, added and removed, the list of URLs to scan
    never holds a URL twice, and holds only trimmed, non-empty strings
    that the [URL] constructor accepts, so that [getUrlHostname] shows
    the host of each and not its fallback. *)
Theorem urlList_stays_clean (events : list RfpScanner.UrlEvent) :
  let s := fold_left RfpScanner.onUrl events RfpScanner.initial in
  NoDup (RfpScanner.urlList s)
  /\ Forall (fun u =>
               trim u = u /\ truthy u = true
               /\ exists parsed,
                    new_URL u = Some parsed
                    /\ OpportunitiesTable.getUrlHostname (Some u) = hostname parsed)
       (RfpScanner.urlList s).
Proof.
  cbv zeta.
  assert (Hinv : forall s,
             NoDup (RfpScanner.urlList s) /\ Forall listed (RfpScanner.urlList s) ->
             NoDup (RfpScanner.urlList (fold_left RfpScanner.onUrl events s))
             /\ Forall listed (RfpScanner.urlList (fold_left RfpScanner.onUrl events s))).
  { induction events as [| e events IH]; intros s Hs; [exact Hs |].
    cbn [fold_left]. apply IH.
    destruct e as [v | | url]; cbn [RfpScanner.onUrl].
    - exact Hs.
    - apply handleAddUrl_keeps_list_clean. exact Hs.
    - destruct Hs as [Hnd Hall]. cbn. split.
      + apply NoDup_filter. exact Hnd.
      + apply Forall_forall. intros x Hx. apply filter_In in Hx as [Hx _].
        rewrite Forall_forall in Hall. apply Hall. exact Hx. }
  apply Hinv. cbn. split; constructor.
Qed.

(** X17.  [handleAddUrl] either takes the trimmed URL in, empties the
    input and clears the message, and then removing that URL gives back
    the list as it was; or it reports an error and leaves both the list
    and the input as they were.  After [handleRemoveUrl] the URL is not
    on the list. *)
Theorem handleAddUrl_accepts_or_reports (s : RfpScanner.State) (url : string) :
  match RfpScanner.scanMessage (RfpScanner.handleAddUrl s) with
  | None =>
      RfpScanner.urlList (RfpScanner.handleAddUrl s)
      = (RfpScanner.urlList s ++ [trim (RfpScanner.targetUrl s)])%list
      /\ RfpScanner.targetUrl (RfpScanner.handleAddUrl s) = ""
      /\ RfpScanner.urlList
           (RfpScanner.handleRemoveUrl (trim (RfpScanner.targetUrl s))
              (RfpScanner.handleAddUrl s))
         = RfpScanner.urlList s
  | Some message =>
      RfpScanner.type message = RfpScanner.error
      /\ RfpScanner.urlList (RfpScanner.handleAddUrl s) = RfpScanner.urlList s
      /\ RfpScanner.targetUrl (RfpScanner.handleAddUrl s) = RfpScanner.targetUrl s
  end
  /\ ~ In url (RfpScanner.urlList (RfpScanner.handleRemoveUrl url s)).
Proof.
  split.
  - unfold RfpScanner.handleAddUrl.
    set (u := trim (RfpScanner.targetUrl s)).
    destruct (truthy u) eqn:Hu; cbn [negb]; [| cbn; auto].
    destruct (new_URL u) as [parsed |]; [| cbn; auto].
    destruct (Array_includes (RfpScanner.urlList s) u) eqn:Hinc; [cbn; auto |].
    apply Array_includes_not_In in Hinc. cbn.
    split; [reflexivity |]. split; [reflexivity |].
    apply without_appended. exact Hinc.
  - cbn. rewrite In_without. tauto.
Qed.

End ScannerUrls.

(** X18.  With the total fixed at more than a page, clicks on Previous
    and Next and changes of the filters keep the page within the rows
    there are: the footer always announces a first row that is not after
    the last, at most ten rows, none beyond the total. *)
Theorem pager_stays_in_range (s0 : RfpScanner.State) (events : list RfpScanner.TableEvent) :
  RfpScanner.page s0 = 1 ->
  RfpScanner.pageSize < RfpScanner.totalOpportunities s0 ->
  let s := fold_left RfpScanner.onTable events s0 in
  RfpScanner.totalOpportunities s = RfpScanner.totalOpportunities s0
  /\ 1 <= RfpScanner.page s
  /\ 1 <= RfpScanner.showingFrom s <= RfpScanner.showingTo s
  /\ RfpScanner.showingTo s <= RfpScanner.totalOpportunities s
  /\ RfpScanner.showingTo s - RfpScanner.showingFrom s < RfpScanner.pageSize.
Proof.
  intros Hpage Htotal. cbv zeta.
  assert (Hinv : forall s,
             RfpScanner.totalOpportunities s = RfpScanner.totalOpportunities s0
             /\ 1 <= RfpScanner.page s
             /\ (RfpScanner.page s - 1) * 10 < RfpScanner.totalOpportunities s ->
             let s' := fold_left RfpScanner.onTable events s in
             RfpScanner.totalOpportunities s' = RfpScanner.totalOpportunities s0
             /\ 1 <= RfpScanner.page s'
             /\ (RfpScanner.page s' - 1) * 10 < RfpScanner.totalOpportunities s').
  { induction events as [| e events IH]; intros s Hs; [exact Hs |].
    cbn [fold_left]. apply IH. destruct Hs as (Ht & Hp & Hrange).
    unfold RfpScanner.pageSize in Htotal.
    destruct e; cbn [RfpScanner.onTable];
      unfold RfpScanner.pagerShown, RfpScanner.previousDisabled,
        RfpScanner.nextDisabled, RfpScanner.pageSize;
      repeat match goal with
             | |- context [if ?b then _ else _] => destruct b eqn:?
             end;
      cbn; repeat split; try assumption; lia. }
  destruct (Hinv s0) as (Ht & Hp & Hrange).
  { unfold RfpScanner.pageSize in Htotal. rewrite Hpage. repeat split; lia. }
  unfold RfpScanner.showingFrom, RfpScanner.showingTo, RfpScanner.pageSize.
  repeat split; try assumption; lia.
Qed.

(** X19.  The page number is not taken back when the total shrinks.  On a
    page whose first row lies beyond the new total the footer announces a
    first row after the last one; Next is disabled and Previous is the
    way out. *)
Theorem pager_after_the_total_shrinks (s : RfpScanner.State) :
  RfpScanner.pagerShown s = true ->
  RfpScanner.totalOpportunities s <= (RfpScanner.page s - 1) * RfpScanner.pageSize ->
  RfpScanner.showingTo s < RfpScanner.showingFrom s
  /\ RfpScanner.nextDisabled s = true
  /\ RfpScanner.previousDisabled s = false
  /\ RfpScanner.page (RfpScanner.onTable s RfpScanner.ClickPrevious)
     = RfpScanner.page s - 1.
Proof.
  unfold RfpScanner.pagerShown, RfpScanner.showingTo, RfpScanner.showingFrom,
    RfpScanner.nextDisabled, RfpScanner.previousDisabled, RfpScanner.pageSize.
  intros Hshown Hshrunk.
  assert (Hmore : 10 < RfpScanner.totalOpportunities s) by lia.
  assert (Hnext : (RfpScanner.page s * 10 >=? RfpScanner.totalOpportunities s) = true).
  { destruct (Z.geb_spec (RfpScanner.page s * 10) (RfpScanner.totalOpportunities s));
      [reflexivity | lia]. }
  assert (Hprev : (RfpScanner.page s =? 1) = false) by (apply Z.eqb_neq; lia).
  repeat split; try assumption; try lia.
  cbn [RfpScanner.onTable].
  unfold RfpScanner.pagerShown, RfpScanner.previousDisabled, RfpScanner.pageSize.
  rewrite Hshown, Hprev. cbn. lia.
Qed.

(** X18 at 25 opportunities: two pages forward, a change of filter, one
    page forward. *)
Lemma pager_stays_in_range_witness :
  let s := fold_left RfpScanner.onTable
             [RfpScanner.ClickNext; RfpScanner.ClickNext;
              RfpScanner.ChangeStatus "new"; RfpScanner.ClickNext]
             (RfpScanner.setTotalOpportunities 25 RfpScanner.initial) in
  1 <= RfpScanner.showingFrom s <= RfpScanner.showingTo s.
Proof.
  exact (proj1 (proj2 (proj2
    (pager_stays_in_range (RfpScanner.setTotalOpportunities 25 RfpScanner.initial)
       [RfpScanner.ClickNext; RfpScanner.ClickNext;
        RfpScanner.ChangeStatus "new"; RfpScanner.ClickNext]
       eq_refl eq_refl)))).
Defined.

(** X19 on page 3 of what used to be 25 opportunities and now are 15. *)
Lemma pager_after_the_total_shrinks_witness :
  RfpScanner.showingTo
    (RfpScanner.setTotalOpportunities 15 (RfpScanner.setPage 3 RfpScanner.initial))
  < RfpScanner.showingFrom
      (RfpScanner.setTotalOpportunities 15 (RfpScanner.setPage 3 RfpScanner.initial)).
Proof.
  exact (proj1
    (pager_after_the_total_shrinks
       (RfpScanner.setTotalOpportunities 15 (RfpScanner.setPage 3 RfpScanner.initial))
       eq_refl ltac:(apply Z.leb_le; reflexivity))).
Defined.

(** X20.  [listWithFilters] settles the filters once and for all: what it
    sends always carries a page and a page size that are not zero, never
    an empty search, date, source or list, and sending its own output
    through it again changes nothing. *)
Theorem listWithFilters_normalises (filters : Api.OpportunityFilters) :
  let sent := Api.listWithFilters filters in
  Api.listWithFilters sent = sent
  /\ (exists p, Api.page sent = Some p /\ p <> 0)
  /\ (exists n, Api.page_size sent = Some n /\ n <> 0)
  /\ Api.search sent <> Some ""
  /\ Api.categories sent <> Some []
  /\ Api.status sent <> Some []
  /\ Api.state_codes sent <> Some []
  /\ Api.deadline_after sent <> Some ""
  /\ Api.deadline_before sent <> Some ""
  /\ Api.source_id sent <> Some "".
Proof.
  cbv zeta.
  assert (Hnum : forall n d, d <> 0 -> Api.number_or n d <> 0
                             /\ Api.number_or (Some (Api.number_or n d)) d
                                = Api.number_or n d).
  { intros [v |] d Hd; cbn.
    - destruct (Z.eqb_spec v 0) as [-> | Hv]; cbn.
      + destruct (Z.eqb_spec d 0); [contradiction | auto].
      + destruct (Z.eqb_spec v 0); [contradiction | auto].
    - destruct (Z.eqb_spec d 0); [contradiction | auto]. }
  assert (Hstr : forall s, Api.if_truthy s <> Some ""
                           /\ Api.if_truthy (Api.if_truthy s) = Api.if_truthy s).
  { intros [v |]; cbn; [| split; [discriminate | reflexivity]].
    destruct (truthy v) eqn:Hv; cbn; [rewrite Hv |]; split;
      try reflexivity; try discriminate.
    intros [= ->]. discriminate. }
  assert (Hlist : forall l, Api.if_length l <> Some []
                            /\ Api.if_length (Api.if_length l) = Api.if_length l).
  { intros [[| x rest] |]; cbn; split; try reflexivity; discriminate. }
  destruct filters as [pg ps st cats codes pre disc after before q src sb so].
  unfold Api.listWithFilters.
  cbn [Api.page Api.page_size Api.status Api.categories Api.state_codes
       Api.requires_prequalification Api.is_discretionary Api.deadline_after
       Api.deadline_before Api.search Api.source_id Api.sort_by Api.sort_order].
  destruct (Hnum pg 1 ltac:(lia)) as [Hp1 Hp2].
  destruct (Hnum ps 20 ltac:(lia)) as [Hs1 Hs2].
  split.
  - rewrite Hp2, Hs2.
    rewrite (proj2 (Hstr q)), (proj2 (Hstr after)), (proj2 (Hstr before)),
      (proj2 (Hstr src)), (proj2 (Hlist st)), (proj2 (Hlist cats)),
      (proj2 (Hlist codes)).
    reflexivity.
  - split; [eexists; split; [reflexivity | exact Hp1] |].
    split; [eexists; split; [reflexivity | exact Hs1] |].
    repeat split; first [apply Hstr | apply Hlist].
Qed.

(** From page one on, [listWithFilters] changes nothing in the parameters
    the scanner page builds. *)
Lemma listWithFilters_scanner_params (s : RfpScanner.State) :
  RfpScanner.page s <> 0 ->
  Api.listWithFilters (RfpScanner.fetchOpportunities_params s)
  = RfpScanner.fetchOpportunities_params s.
Proof.
  intros Hpage.
  unfold RfpScanner.fetchOpportunities_params, Api.listWithFilters,
    RfpScanner.pageSize.
  cbn.
  destruct (Z.eqb_spec (RfpScanner.page s) 0) as [Hz | _]; [contradiction |].
  destruct (truthy (RfpScanner.searchQuery s)) eqn:Hq;
    destruct (truthy (RfpScanner.categoryFilter s));
    destruct (truthy (RfpScanner.statusFilter s));
    destruct (RfpScanner.prequalRequired s);
    cbn; rewrite ?Hq; reflexivity.
Qed.

(** X21.  What the scanner page asks of the backend.  The parameters
    [fetchOpportunities] builds are ten rows of the current page, the
    search and the two filters only when they are not empty, each filter
    as a list of one, and the prequalification flag only when it is set,
    never as false.  Linked with the [services/api.ts] it imports, whose
    [opportunitiesApi] has no [listWithFilters], the call throws inside
    the [try]: no query goes out, the rows and the total stay as they
    were, and [loading] is cleared.  Linked with the revision that has
    [listWithFilters], one query goes out whatever the backend answers,
    from page one on it is these parameters as they are, and the rows and
    the total are replaced only when the request is fulfilled. *)
Theorem fetchOpportunities_sends_nothing_or_set_filters
  (answer : option (list Opportunity * Z)) (s : RfpScanner.State) :
  let params := RfpScanner.fetchOpportunities_params s in
  let imported := RfpScanner.fetchOpportunities Api.opportunitiesApi answer s in
  let revised :=
    RfpScanner.fetchOpportunities Api.opportunitiesApi_with_filters answer s in
  (Api.page params = Some (RfpScanner.page s)
   /\ Api.page_size params = Some 10
   /\ Api.search params
      = (if truthy (RfpScanner.searchQuery s)
         then Some (RfpScanner.searchQuery s) else None)
   /\ Api.categories params
      = (if truthy (RfpScanner.categoryFilter s)
         then Some [RfpScanner.categoryFilter s] else None)
   /\ Api.status params
      = (if truthy (RfpScanner.statusFilter s)
         then Some [RfpScanner.statusFilter s] else None)
   /\ Api.requires_prequalification params
      = (if RfpScanner.prequalRequired s then Some true else None)
   /\ Api.requires_prequalification params <> Some false)
  /\ (RfpScanner.sent imported = None
      /\ RfpScanner.opportunities (RfpScanner.fetched imported)
         = RfpScanner.opportunities s
      /\ RfpScanner.totalOpportunities (RfpScanner.fetched imported)
         = RfpScanner.totalOpportunities s
      /\ RfpScanner.loading (RfpScanner.fetched imported) = false)
  /\ (RfpScanner.sent revised = Some (Api.listWithFilters params)
      /\ (RfpScanner.page s <> 0 -> RfpScanner.sent revised = Some params)
      /\ RfpScanner.loading (RfpScanner.fetched revised) = false
      /\ (RfpScanner.opportunities (RfpScanner.fetched revised),
          RfpScanner.totalOpportunities (RfpScanner.fetched revised))
         = match answer with
           | Some response => response
           | None => (RfpScanner.opportunities s, RfpScanner.totalOpportunities s)
           end).
Proof.
  cbv zeta. split; [| split].
  - unfold RfpScanner.fetchOpportunities_params, RfpScanner.pageSize. cbn.
    destruct (RfpScanner.prequalRequired s); repeat split; discriminate.
  - repeat split.
  - assert (Hsent : RfpScanner.sent
                      (RfpScanner.fetchOpportunities
                         Api.opportunitiesApi_with_filters answer s)
                    = Some (Api.listWithFilters
                              (RfpScanner.fetchOpportunities_params s))).
    { destruct answer as [[items total] |]; reflexivity. }
    split; [exact Hsent |]. split.
    + intros Hpage. rewrite Hsent, (listWithFilters_scanner_params s Hpage).
      reflexivity.
    + destruct answer as [[items total] |]; split; reflexivity.
Qed.

(** X22.  [handleStartScan] asks for the crawl that the dashboard's
    [handleStartCrawl] would ask for, the first configured source if
    there is one, and nothing else: the URLs on the list are not sent
    anywhere and do not change the request.  It always leaves a message,
    leaves the list of URLs alone, and once past its first check it
    leaves the page not scanning, whether the request succeeded or not. *)
Theorem handleStartScan_requests_first_source
  (triggered : bool) (s : RfpScanner.State) (urls : list string) :
  let run := RfpScanner.handleStartScan triggered s in
  RfpScanner.requested run = handleStartCrawl (RfpScanner.sources s)
  /\ RfpScanner.requested (RfpScanner.handleStartScan triggered (RfpScanner.setUrlList urls s))
     = RfpScanner.requested run
  /\ RfpScanner.scanMessage (RfpScanner.after run) <> None
  /\ RfpScanner.urlList (RfpScanner.after run) = RfpScanner.urlList s
  /\ RfpScanner.isScanning (RfpScanner.after run)
     = match RfpScanner.urlList s, RfpScanner.sources s with
       | [], [] => RfpScanner.isScanning s
       | _, _ => false
       end
  /\ RfpScanner.refresh_scheduled run
     = match RfpScanner.urlList s, RfpScanner.sources s with
       | [], [] => false
       | _, [] => true
       | _, _ :: _ => triggered
       end.
Proof.
  cbv zeta. unfold RfpScanner.handleStartScan.
  cbn [RfpScanner.setUrlList RfpScanner.urlList RfpScanner.sources].
  destruct (RfpScanner.urlList s) as [| u us] eqn:Hurls,
    (RfpScanner.sources s) as [| first rest], urls as [| v vs], triggered;
    cbn; repeat split; first [reflexivity | discriminate | exact Hurls].
Qed.

(* ===================================================================== *)
(** ** The theme *)
(* ===================================================================== *)

Lemma ownProperty_store (l : list (string * string)) (key value : string) :
  ownProperty (ThemeContext.store l key value) key = Some value.
Proof.
  induction l as [| [k v] rest IH]; cbn.
  - rewrite String.eqb_refl. reflexivity.
  - destruct (String.eqb k key) eqn:Hk; cbn; rewrite Hk; [reflexivity | exact IH].
Qed.

Lemma ownProperty_store_other (l : list (string * string)) (key value other : string) :
  String.eqb other key = false ->
  ownProperty (ThemeContext.store l key value) other = ownProperty l other.
Proof.
  intros Hother.
  induction l as [| [k v] rest IH]; cbn.
  - rewrite String.eqb_sym, Hother. reflexivity.
  - destruct (String.eqb_spec k key) as [-> | Hk]; cbn.
    + rewrite String.eqb_sym, Hother. reflexivity.
    + rewrite IH. reflexivity.
Qed.

(** X23.  [getInitialTheme] starts dark in one case only: there is a
    window, the storage can be read, and it holds exactly [dark] under
    [theme].  No window, a storage that throws, no entry, or any other
    value, [Dark] included, start light. *)
Theorem getInitialTheme_dark_iff (window : option ThemeContext.Browser) :
  (ThemeContext.getInitialTheme window = ThemeContext.dark
   <-> exists browser,
         window = Some browser
         /\ ThemeContext.getItem (ThemeContext.localStorage browser) "theme"
            = Some (Some "dark"))
  /\ ThemeContext.getInitialTheme
       (Some {| ThemeContext.localStorage :=
                  {| ThemeContext.items := [("theme", "Dark")];
                     ThemeContext.denied := false;
                     ThemeContext.full := false |};
                ThemeContext.classList := [] |})
     = ThemeContext.light.
Proof.
  split; [| reflexivity].
  unfold ThemeContext.getInitialTheme.
  destruct window as [browser |].
  - destruct (ThemeContext.getItem (ThemeContext.localStorage browser) "theme")
      as [[stored |] |] eqn:Hget.
    + destruct (String.eqb_spec stored "dark") as [-> | Hne].
      * split; [intros _; exists browser; auto | reflexivity].
      * split.
        -- destruct (String.eqb stored "light"); discriminate.
        -- intros (b & [= <-] & Hb). rewrite Hget in Hb. congruence.
    + split; [discriminate |].
      intros (b & [= <-] & Hb). rewrite Hget in Hb. discriminate.
    + split; [discriminate |].
      intros (b & [= <-] & Hb). rewrite Hget in Hb. discriminate.
  - split; [discriminate | intros (b & Hb & _); discriminate].
Qed.

Lemma In_classList_applyTheme (theme : ThemeContext.Theme)
  (browser : ThemeContext.Browser) (token : string) :
  In token (ThemeContext.classList (ThemeContext.applyTheme theme browser))
  <-> if String.eqb token "dark"
      then theme = ThemeContext.dark
      else In token (ThemeContext.classList browser).
Proof.
  unfold ThemeContext.applyTheme. cbn [ThemeContext.classList].
  destruct theme.
  - unfold ThemeContext.classList_remove. rewrite In_without.
    destruct (String.eqb_spec token "dark") as [-> | Hne];
      intuition (try discriminate; auto).
  - unfold ThemeContext.classList_add.
    destruct (Array_includes (ThemeContext.classList browser) "dark") eqn:Hinc.
    + apply Array_includes_In in Hinc.
      destruct (String.eqb_spec token "dark") as [-> | Hne]; tauto.
    + rewrite in_app_iff. cbn.
      destruct (String.eqb_spec token "dark") as [-> | Hne];
        intuition congruence.
Qed.

Lemma In_classList_onMount (theme : ThemeContext.Theme)
  (browser : ThemeContext.Browser) (token : string) :
  (In "dark" (ThemeContext.classList browser) <-> theme = ThemeContext.dark) ->
  In token (ThemeContext.classList (ThemeContext.onMount theme browser))
  <-> In token (ThemeContext.classList browser).
Proof.
  intros Hdark. destruct theme; cbn; [| tauto].
  unfold ThemeContext.classList_remove. rewrite In_without.
  split; [tauto |]. intros Hin. split; [exact Hin |].
  intros ->. apply Hdark in Hin. discriminate.
Qed.

(** X24.  After the provider is mounted and the toggle clicked any
    number of times, the root element carries the class [dark] exactly
    when the theme is dark, and every other class it had is still there
    and no other was added. *)
Theorem theme_class_follows_theme
  (browser : ThemeContext.Browser) (clicks : nat) (token : string) :
  let provider := Nat.iter clicks ThemeContext.click (ThemeContext.mount browser) in
  In token (ThemeContext.classList (snd provider))
  <-> if String.eqb token "dark"
      then fst provider = ThemeContext.dark
      else In token (ThemeContext.classList browser).
Proof.
  cbv zeta. induction clicks as [| n IH].
  - unfold ThemeContext.mount. cbn [Nat.iter nat_rect fst snd].
    rewrite In_classList_onMount.
    + apply In_classList_applyTheme.
    + rewrite (In_classList_applyTheme _ browser "dark"). cbn. tauto.
  - rewrite Nat.iter_succ.
    set (p := Nat.iter n ThemeContext.click (ThemeContext.mount browser)) in *.
    change (ThemeContext.click p)
      with (ThemeContext.toggleTheme (fst p),
            ThemeContext.applyTheme (ThemeContext.toggleTheme (fst p)) (snd p)).
    cbn [fst snd].
    rewrite In_classList_applyTheme.
    destruct (String.eqb token "dark"); [tauto | exact IH].
Qed.

Lemma applyTheme_persists (theme : ThemeContext.Theme) (browser : ThemeContext.Browser) :
  ThemeContext.denied (ThemeContext.localStorage browser) = false ->
  ThemeContext.full (ThemeContext.localStorage browser) = false ->
  let after := ThemeContext.applyTheme theme browser in
  ThemeContext.getInitialTheme (Some after) = theme
  /\ ThemeContext.denied (ThemeContext.localStorage after) = false
  /\ ThemeContext.full (ThemeContext.localStorage after) = false.
Proof.
  destruct browser as [[stored d f] classes]. cbn. intros -> ->.
  unfold ThemeContext.applyTheme, ThemeContext.setItem, ThemeContext.getInitialTheme,
    ThemeContext.getItem.
  cbn. rewrite ownProperty_store.
  destruct theme; auto.
Qed.

(** X25.  Where the storage can be read and written, the theme survives
    a reload: after mounting and any number of clicks, [getInitialTheme]
    on the browser as it now is gives the current theme; a click changes
    nothing in the storage but the entry [theme]. *)
Theorem theme_survives_reload
  (browser : ThemeContext.Browser) (clicks : nat) (key : string) :
  ThemeContext.denied (ThemeContext.localStorage browser) = false ->
  ThemeContext.full (ThemeContext.localStorage browser) = false ->
  String.eqb key "theme" = false ->
  let provider := Nat.iter clicks ThemeContext.click (ThemeContext.mount browser) in
  ThemeContext.getInitialTheme (Some (snd provider)) = fst provider
  /\ ThemeContext.getItem (ThemeContext.localStorage (snd provider)) key
     = ThemeContext.getItem (ThemeContext.localStorage browser) key.
Proof.
  intros Hdenied Hfull Hkey. cbv zeta.
  assert (Hother : forall theme b,
             ThemeContext.denied (ThemeContext.localStorage b) = false ->
             ThemeContext.full (ThemeContext.localStorage b) = false ->
             ThemeContext.getItem
               (ThemeContext.localStorage (ThemeContext.applyTheme theme b)) key
             = ThemeContext.getItem (ThemeContext.localStorage b) key).
  { intros theme [[stored d f] classes]. cbn. intros -> ->.
    unfold ThemeContext.applyTheme, ThemeContext.setItem, ThemeContext.getItem.
    cbn. rewrite (ownProperty_store_other _ _ _ _ Hkey).
    reflexivity. }
  assert (Hinv : let provider :=
                   Nat.iter clicks ThemeContext.click (ThemeContext.mount browser) in
                 (ThemeContext.getInitialTheme (Some (snd provider)) = fst provider
                  /\ ThemeContext.denied (ThemeContext.localStorage (snd provider)) = false
                  /\ ThemeContext.full (ThemeContext.localStorage (snd provider)) = false)
                 /\ ThemeContext.getItem (ThemeContext.localStorage (snd provider)) key
                    = ThemeContext.getItem (ThemeContext.localStorage browser) key).
  { cbv zeta. induction clicks as [| n IH].
    - unfold ThemeContext.mount. cbn [Nat.iter nat_rect fst snd].
      set (theme := ThemeContext.getInitialTheme (Some browser)).
      destruct (applyTheme_persists theme browser Hdenied Hfull) as (Hth & Hd & Hf).
      pose proof (Hother theme browser Hdenied Hfull) as Hk.
      destruct theme; cbn [ThemeContext.onMount]; auto.
    - rewrite Nat.iter_succ. destruct IH as [(_ & Hd & Hf) Hk].
      set (p := Nat.iter n ThemeContext.click (ThemeContext.mount browser)) in *.
      change (ThemeContext.click p)
        with (ThemeContext.toggleTheme (fst p),
              ThemeContext.applyTheme (ThemeContext.toggleTheme (fst p)) (snd p)).
      cbn [fst snd].
      split; [apply applyTheme_persists; assumption |].
      rewrite Hother by assumption. exact Hk. }
  destruct Hinv as [(Hth & _) Hk]. split; assumption.
Qed.

(** X26.  Where the storage throws, nothing is remembered and nothing is
    thrown: the provider mounts light, the clicks still switch the theme,
    and a reload starts light whatever the theme was. *)
Theorem theme_without_storage (browser : ThemeContext.Browser) (clicks : nat) :
  ThemeContext.denied (ThemeContext.localStorage browser) = true ->
  let provider := Nat.iter clicks ThemeContext.click (ThemeContext.mount browser) in
  fst provider = (if Nat.even clicks then ThemeContext.light else ThemeContext.dark)
  /\ ThemeContext.localStorage (snd provider) = ThemeContext.localStorage browser
  /\ ThemeContext.getInitialTheme (Some (snd provider)) = ThemeContext.light.
Proof.
  intros Hdenied. cbv zeta.
  assert (Hlight : forall b,
             ThemeContext.localStorage b = ThemeContext.localStorage browser ->
             ThemeContext.getInitialTheme (Some b) = ThemeContext.light).
  { intros b Hb. unfold ThemeContext.getInitialTheme, ThemeContext.getItem.
    rewrite Hb, Hdenied. reflexivity. }
  assert (Hsame : forall theme b,
             ThemeContext.localStorage b = ThemeContext.localStorage browser ->
             ThemeContext.localStorage (ThemeContext.applyTheme theme b)
             = ThemeContext.localStorage browser).
  { intros theme b Hb. unfold ThemeContext.applyTheme, ThemeContext.setItem.
    cbn. rewrite Hb, Hdenied. reflexivity. }
  assert (Hinv : let provider :=
                   Nat.iter clicks ThemeContext.click (ThemeContext.mount browser) in
                 fst provider
                 = (if Nat.even clicks then ThemeContext.light else ThemeContext.dark)
                 /\ ThemeContext.localStorage (snd provider)
                    = ThemeContext.localStorage browser).
  { cbv zeta. induction clicks as [| n IH].
    - unfold ThemeContext.mount. cbn [Nat.iter nat_rect fst snd Nat.even].
      rewrite (Hlight browser eq_refl). cbn [ThemeContext.onMount ThemeContext.localStorage].
      split; [reflexivity | apply Hsame; reflexivity].
    - rewrite Nat.iter_succ. destruct IH as [Hth Hst].
      set (p := Nat.iter n ThemeContext.click (ThemeContext.mount browser)) in *.
      change (ThemeContext.click p)
        with (ThemeContext.toggleTheme (fst p),
              ThemeContext.applyTheme (ThemeContext.toggleTheme (fst p)) (snd p)).
      cbn [fst snd].
      split; [| apply Hsame; exact Hst].
      rewrite Hth. rewrite Nat.even_succ, <- Nat.negb_even.
      destruct (Nat.even n); reflexivity. }
  destruct Hinv as [Hth Hst].
  repeat split; [exact Hth | exact Hst | apply Hlight; exact Hst].
Qed.

(** X25 in a browser that remembers a dark theme, after three clicks. *)
Lemma theme_survives_reload_witness :
  let browser :=
    {| ThemeContext.localStorage :=
         {| ThemeContext.items := [("lang", "en"); ("theme", "dark")];
            ThemeContext.denied := false;
            ThemeContext.full := false |};
       ThemeContext.classList := ["h-full"] |} in
  ThemeContext.getInitialTheme
    (Some (snd (Nat.iter 3 ThemeContext.click (ThemeContext.mount browser))))
  = ThemeContext.light.
Proof.
  exact (proj1 (theme_survives_reload
                  {| ThemeContext.localStorage :=
                       {| ThemeContext.items := [("lang", "en"); ("theme", "dark")];
                          ThemeContext.denied := false;
                          ThemeContext.full := false |};
                     ThemeContext.classList := ["h-full"] |}
                  3 "lang" eq_refl eq_refl eq_refl)).
Defined.

(** X26 in a browser that denies the storage, after one click. *)
Lemma theme_without_storage_witness :
  let browser :=
    {| ThemeContext.localStorage :=
         {| ThemeContext.items := [("theme", "dark")];
            ThemeContext.denied := true;
            ThemeContext.full := false |};
       ThemeContext.classList := [] |} in
  fst (Nat.iter 1 ThemeContext.click (ThemeContext.mount browser)) = ThemeContext.dark.
Proof.
  exact (proj1 (theme_without_storage
                  {| ThemeContext.localStorage :=
                       {| ThemeContext.items := [("theme", "dark")];
                          ThemeContext.denied := true;
                          ThemeContext.full := false |};
                     ThemeContext.classList := [] |}
                  1 eq_refl)).
Defined.

(* ===================================================================== *)
(** ** Loading the dashboard *)
(* ===================================================================== *)

(** X27.  [fetchData] is all or nothing.  Whatever the four requests
    did, the page ends neither loading nor refreshing.  If one of them
    was rejected, the error banner is shown, the banner for an empty
    result is not, and the statistics, opportunities, session and sources
    shown before stay as they were; if all four were fulfilled, no error
    is left and the first session of the answer, if any, becomes the
    latest session. *)
Theorem fetchData_all_or_nothing
  (DashboardStats : Type) (showRefresh : bool)
  (r : Dashboard.Responses DashboardStats) (s : Dashboard.State DashboardStats) :
  let s' := Dashboard.fetchData showRefresh r s in
  Dashboard.loading s' = false
  /\ Dashboard.refreshing s' = false
  /\ match Dashboard.statsData r, Dashboard.oppsData r,
           Dashboard.sessionsData r, Dashboard.sourcesData r with
     | Some st, Some opps, Some sessions, Some srcs =>
         Dashboard.error s' = None
         /\ Dashboard.errorBanner s' = false
         /\ Dashboard.stats s' = Some st
         /\ Dashboard.opportunities s' = Dashboard.items opps
         /\ Dashboard.latestSession s' = hd_error (Dashboard.items sessions)
         /\ Dashboard.sources s' = Dashboard.items srcs
     | _, _, _, _ =>
         Dashboard.errorBanner s' = true
         /\ Dashboard.infoBanner s' = false
         /\ Dashboard.stats s' = Dashboard.stats s
         /\ Dashboard.opportunities s' = Dashboard.opportunities s
         /\ Dashboard.latestSession s' = Dashboard.latestSession s
         /\ Dashboard.sources s' = Dashboard.sources s
     end.
Proof.
  cbv zeta. unfold Dashboard.fetchData.
  destruct (Dashboard.statsData r) as [st |],
    (Dashboard.oppsData r) as [opps |],
    (Dashboard.sessionsData r) as [sessions |],
    (Dashboard.sourcesData r) as [srcs |];
    cbn; repeat split;
    try (destruct (Dashboard.items sessions); reflexivity).
Qed.

Section FreshDashboard.
Context `{DateFns}.

(** X28.  On a backend that has run no crawl yet, a successful load leaves
    no latest session, and the panel then reads [Ready], shows [Never] as
    last crawl and no opportunities found, and offers Start Crawl exactly
    when the backend lists a source, whose crawl a click requests. *)
Theorem dashboard_before_the_first_crawl
  (DashboardStats : Type) (clock : nat -> Z) (showRefresh : bool)
  (r : Dashboard.Responses DashboardStats) (s : Dashboard.State DashboardStats)
  (st : DashboardStats) (opps : Dashboard.PaginatedResponse Opportunity)
  (sessions : Dashboard.PaginatedResponse CrawlSession)
  (srcs : Dashboard.PaginatedResponse CrawlSource) :
  Dashboard.statsData r = Some st -> Dashboard.oppsData r = Some opps ->
  Dashboard.sessionsData r = Some sessions -> Dashboard.sourcesData r = Some srcs ->
  Dashboard.items sessions = [] ->
  let s' := Dashboard.fetchData showRefresh r s in
  result clock
    (CrawlerStatus (Dashboard.latestSession s') (Dashboard.sources s')
       (Dashboard.loading s'))
  = Returned
      (Loaded
         {| panel_status := Typed Ready;
            button_disabled :=
              match Dashboard.items srcs with [] => true | _ :: _ => false end;
            button_text := "Start Crawl";
            last_crawl := "Never";
            found_last_run := 0 |})
  /\ handleStartCrawl (Dashboard.sources s')
     = option_map source_id (hd_error (Dashboard.items srcs)).
Proof.
  intros Hst Hopps Hsessions Hsrcs Hnone. cbv zeta.
  unfold Dashboard.fetchData. rewrite Hst, Hopps, Hsessions, Hsrcs, Hnone.
  cbn. destruct (Dashboard.items srcs); split; reflexivity.
Qed.

End FreshDashboard.

(** X28 on a host in UTC, with one source and no session. *)
Lemma dashboard_before_the_first_crawl_witness :
  handleStartCrawl
    (Dashboard.sources
       (Dashboard.fetchData false
          {| Dashboard.statsData := Some tt;
             Dashboard.oppsData :=
               Some {| Dashboard.items := []; Dashboard.total := 0;
                       Dashboard.page := 1; Dashboard.page_size := 10;
                       Dashboard.total_pages := 0; Dashboard.has_next := false;
                       Dashboard.has_previous := false |};
             Dashboard.sessionsData :=
               Some {| Dashboard.items := []; Dashboard.total := 0;
                       Dashboard.page := 1; Dashboard.page_size := 1;
                       Dashboard.total_pages := 0; Dashboard.has_next := false;
                       Dashboard.has_previous := false |};
             Dashboard.sourcesData :=
               Some {| Dashboard.items := [sam_gov]; Dashboard.total := 1;
                       Dashboard.page := 1; Dashboard.page_size := 100;
                       Dashboard.total_pages := 1; Dashboard.has_next := false;
                       Dashboard.has_previous := false |} |}
          (Dashboard.initial unit)))
  = Some "source-1".
Proof.
  exact (proj2 (dashboard_before_the_first_crawl (H := UTC.host) unit
                  (at_time new_year_2024) false
                  {| Dashboard.statsData := Some tt;
                     Dashboard.oppsData :=
                       Some {| Dashboard.items := []; Dashboard.total := 0;
                               Dashboard.page := 1; Dashboard.page_size := 10;
                               Dashboard.total_pages := 0; Dashboard.has_next := false;
                               Dashboard.has_previous := false |};
                     Dashboard.sessionsData :=
                       Some {| Dashboard.items := []; Dashboard.total := 0;
                               Dashboard.page := 1; Dashboard.page_size := 1;
                               Dashboard.total_pages := 0; Dashboard.has_next := false;
                               Dashboard.has_previous := false |};
                     Dashboard.sourcesData :=
                       Some {| Dashboard.items := [sam_gov]; Dashboard.total := 1;
                               Dashboard.page := 1; Dashboard.page_size := 100;
                               Dashboard.total_pages := 1; Dashboard.has_next := false;
                               Dashboard.has_previous := false |} |}
                  (Dashboard.initial unit) tt _ _ _
                  eq_refl eq_refl eq_refl eq_refl eq_refl)).
Defined.
